(** * D17B / D37C guidance computer emulator: the core of [d17b.c]

    A shallow embedding of the emulator core ([src/include/d17b.h],
    [src/src/d17b.c]) and the properties of its reset, arithmetic,
    flag-store, control and fetch-step code.

    Conventions.  Every C integer is a [Z]; the wrap-around of the C type
    is written out where the source computes something that can leave the
    type ([u32], [u64], [i16]).  The fixed-size arrays of the state struct
    are lists, read with [idx] and written with stdpp's [<[ i := v ]>].
    Every index the source computes is masked, or guarded, into the bounds
    of its array.  Functions that take a [d17b_cpu_t *] and mutate it
    become functions from states to states. *)

From Stdlib Require Import ZArith Lia Bool.
From stdpp Require Import base list.

Local Open Scope Z_scope.

(** ** Machine integers *)

Definition u8 (x : Z) : Z := x mod 2 ^ 8.
Definition u32 (x : Z) : Z := x mod 2 ^ 32.
Definition u64 (x : Z) : Z := x mod 2 ^ 64.

(** Conversion to [int16_t]: reduction modulo 2^16 into [-2^15, 2^15). *)
Definition i16 (x : Z) : Z := (x + 2 ^ 15) mod 2 ^ 16 - 2 ^ 15.

(** ** Constants of [d17b.h] *)

Definition WORD_MASK : Z := 0x00FFFFFF.
Definition SIGN_BIT : Z := 0x00800000.
Definition MAGNITUDE_MASK : Z := 0x007FFFFF.

Definition CHANNELS : Z := 47.
Definition SECTORS : Z := 128.

Definition U_LOOP_SIZE : nat := 1.
Definition F_LOOP_SIZE : nat := 4.
Definition E_LOOP_SIZE : nat := 8.
Definition H_LOOP_SIZE : nat := 16.
Definition V_LOOP_SIZE : nat := 4.
Definition R_LOOP_SIZE : nat := 4.

Definition CHAN_F_LOOP : Z := 0x2A.
Definition CHAN_H_LOOP : Z := 0x2C.
Definition CHAN_E_LOOP : Z := 0x2E.
Definition CHAN_U_LOOP : Z := 0x30.
Definition CHAN_L_REG : Z := 0x34.
Definition CHAN_V_LOOP : Z := 0x38.
Definition CHAN_R_LOOP : Z := 0x3A.

(** Instruction field extraction. *)
Definition GET_OPCODE (w : Z) : Z := Z.land (Z.shiftr w 20) 0x0F.
Definition GET_FLAG (w : Z) : Z := Z.land (Z.shiftr w 19) 0x01.
Definition GET_SP (w : Z) : Z := Z.land (Z.shiftr w 15) 0x0F.
Definition GET_CHANNEL (w : Z) : Z := Z.land (Z.shiftr w 9) 0x3F.
Definition GET_SECTOR (w : Z) : Z := Z.land (Z.shiftr w 2) 0x7F.
Definition GET_FLAG_CODE (w : Z) : Z := Z.land w 0x07.

(** Primary opcodes ([d17b_opcode_t]). *)
Definition OP_SHIFT : Z := 0x0.
Definition OP_SCL : Z := 0x1.
Definition OP_TMI_TZE : Z := 0x2.
Definition OP_SMP : Z := 0x4.
Definition OP_MPY : Z := 0x5.
Definition OP_TMI : Z := 0x6.
Definition OP_DIV_MPM : Z := 0x7.
Definition OP_SPECIAL : Z := 0x8.
Definition OP_CLA : Z := 0x9.
Definition OP_TRA : Z := 0xA.
Definition OP_STO : Z := 0xB.
Definition OP_SAD : Z := 0xC.
Definition OP_ADD : Z := 0xD.
Definition OP_SSU : Z := 0xE.
Definition OP_SUB : Z := 0xF.

(** ** The CPU state ([d17b_cpu_t]) *)

Record d17b_cpu_t : Type := {
  A : Z;
  L : Z;
  N : Z;
  I : Z;
  P : Z;
  U : Z;
  F : list Z;
  E : list Z;
  H : list Z;
  V : list Z;
  R : list Z;
  memory : list (list Z);
  current_sector : Z;
  cycle_count : Z;
  halted : bool;
  error : bool;
  d37c_mode : bool;
  discrete_in_a : Z;
  discrete_in_b : Z;
  discrete_out_a : Z;
  voltage_out : list Z;
  binary_out : list Z;
  detector : bool;
  fine_countdown : Z;
  countdown_enabled : bool
}.

(** Field assignments [cpu->f = v]. *)

Definition set_A (v : Z) (c : d17b_cpu_t) : d17b_cpu_t :=
  Build_d17b_cpu_t v (L c) (N c) (I c) (P c) (U c) (F c) (E c) (H c) (V c)
    (R c) (memory c) (current_sector c) (cycle_count c) (halted c) (error c)
    (d37c_mode c) (discrete_in_a c) (discrete_in_b c) (discrete_out_a c)
    (voltage_out c) (binary_out c) (detector c) (fine_countdown c)
    (countdown_enabled c).

Definition set_L (v : Z) (c : d17b_cpu_t) : d17b_cpu_t :=
  Build_d17b_cpu_t (A c) v (N c) (I c) (P c) (U c) (F c) (E c) (H c) (V c)
    (R c) (memory c) (current_sector c) (cycle_count c) (halted c) (error c)
    (d37c_mode c) (discrete_in_a c) (discrete_in_b c) (discrete_out_a c)
    (voltage_out c) (binary_out c) (detector c) (fine_countdown c)
    (countdown_enabled c).

Definition set_N (v : Z) (c : d17b_cpu_t) : d17b_cpu_t :=
  Build_d17b_cpu_t (A c) (L c) v (I c) (P c) (U c) (F c) (E c) (H c) (V c)
    (R c) (memory c) (current_sector c) (cycle_count c) (halted c) (error c)
    (d37c_mode c) (discrete_in_a c) (discrete_in_b c) (discrete_out_a c)
    (voltage_out c) (binary_out c) (detector c) (fine_countdown c)
    (countdown_enabled c).

Definition set_I (v : Z) (c : d17b_cpu_t) : d17b_cpu_t :=
  Build_d17b_cpu_t (A c) (L c) (N c) v (P c) (U c) (F c) (E c) (H c) (V c)
    (R c) (memory c) (current_sector c) (cycle_count c) (halted c) (error c)
    (d37c_mode c) (discrete_in_a c) (discrete_in_b c) (discrete_out_a c)
    (voltage_out c) (binary_out c) (detector c) (fine_countdown c)
    (countdown_enabled c).

Definition set_P (v : Z) (c : d17b_cpu_t) : d17b_cpu_t :=
  Build_d17b_cpu_t (A c) (L c) (N c) (I c) v (U c) (F c) (E c) (H c) (V c)
    (R c) (memory c) (current_sector c) (cycle_count c) (halted c) (error c)
    (d37c_mode c) (discrete_in_a c) (discrete_in_b c) (discrete_out_a c)
    (voltage_out c) (binary_out c) (detector c) (fine_countdown c)
    (countdown_enabled c).

Definition set_U (v : Z) (c : d17b_cpu_t) : d17b_cpu_t :=
  Build_d17b_cpu_t (A c) (L c) (N c) (I c) (P c) v (F c) (E c) (H c) (V c)
    (R c) (memory c) (current_sector c) (cycle_count c) (halted c) (error c)
    (d37c_mode c) (discrete_in_a c) (discrete_in_b c) (discrete_out_a c)
    (voltage_out c) (binary_out c) (detector c) (fine_countdown c)
    (countdown_enabled c).

Definition set_F (v : list Z) (c : d17b_cpu_t) : d17b_cpu_t :=
  Build_d17b_cpu_t (A c) (L c) (N c) (I c) (P c) (U c) v (E c) (H c) (V c)
    (R c) (memory c) (current_sector c) (cycle_count c) (halted c) (error c)
    (d37c_mode c) (discrete_in_a c) (discrete_in_b c) (discrete_out_a c)
    (voltage_out c) (binary_out c) (detector c) (fine_countdown c)
    (countdown_enabled c).

Definition set_E (v : list Z) (c : d17b_cpu_t) : d17b_cpu_t :=
  Build_d17b_cpu_t (A c) (L c) (N c) (I c) (P c) (U c) (F c) v (H c) (V c)
    (R c) (memory c) (current_sector c) (cycle_count c) (halted c) (error c)
    (d37c_mode c) (discrete_in_a c) (discrete_in_b c) (discrete_out_a c)
    (voltage_out c) (binary_out c) (detector c) (fine_countdown c)
    (countdown_enabled c).

Definition set_H (v : list Z) (c : d17b_cpu_t) : d17b_cpu_t :=
  Build_d17b_cpu_t (A c) (L c) (N c) (I c) (P c) (U c) (F c) (E c) v (V c)
    (R c) (memory c) (current_sector c) (cycle_count c) (halted c) (error c)
    (d37c_mode c) (discrete_in_a c) (discrete_in_b c) (discrete_out_a c)
    (voltage_out c) (binary_out c) (detector c) (fine_countdown c)
    (countdown_enabled c).

Definition set_V (v : list Z) (c : d17b_cpu_t) : d17b_cpu_t :=
  Build_d17b_cpu_t (A c) (L c) (N c) (I c) (P c) (U c) (F c) (E c) (H c) v
    (R c) (memory c) (current_sector c) (cycle_count c) (halted c) (error c)
    (d37c_mode c) (discrete_in_a c) (discrete_in_b c) (discrete_out_a c)
    (voltage_out c) (binary_out c) (detector c) (fine_countdown c)
    (countdown_enabled c).

Definition set_R (v : list Z) (c : d17b_cpu_t) : d17b_cpu_t :=
  Build_d17b_cpu_t (A c) (L c) (N c) (I c) (P c) (U c) (F c) (E c) (H c) (V
    c) v (memory c) (current_sector c) (cycle_count c) (halted c) (error c)
    (d37c_mode c) (discrete_in_a c) (discrete_in_b c) (discrete_out_a c)
    (voltage_out c) (binary_out c) (detector c) (fine_countdown c)
    (countdown_enabled c).

Definition set_memory (v : list (list Z)) (c : d17b_cpu_t) : d17b_cpu_t :=
  Build_d17b_cpu_t (A c) (L c) (N c) (I c) (P c) (U c) (F c) (E c) (H c) (V
    c) (R c) v (current_sector c) (cycle_count c) (halted c) (error c)
    (d37c_mode c) (discrete_in_a c) (discrete_in_b c) (discrete_out_a c)
    (voltage_out c) (binary_out c) (detector c) (fine_countdown c)
    (countdown_enabled c).

Definition set_current_sector (v : Z) (c : d17b_cpu_t) : d17b_cpu_t :=
  Build_d17b_cpu_t (A c) (L c) (N c) (I c) (P c) (U c) (F c) (E c) (H c) (V
    c) (R c) (memory c) v (cycle_count c) (halted c) (error c) (d37c_mode c)
    (discrete_in_a c) (discrete_in_b c) (discrete_out_a c) (voltage_out c)
    (binary_out c) (detector c) (fine_countdown c) (countdown_enabled c).

Definition set_cycle_count (v : Z) (c : d17b_cpu_t) : d17b_cpu_t :=
  Build_d17b_cpu_t (A c) (L c) (N c) (I c) (P c) (U c) (F c) (E c) (H c) (V
    c) (R c) (memory c) (current_sector c) v (halted c) (error c) (d37c_mode
    c) (discrete_in_a c) (discrete_in_b c) (discrete_out_a c) (voltage_out c)
    (binary_out c) (detector c) (fine_countdown c) (countdown_enabled c).

Definition set_halted (v : bool) (c : d17b_cpu_t) : d17b_cpu_t :=
  Build_d17b_cpu_t (A c) (L c) (N c) (I c) (P c) (U c) (F c) (E c) (H c) (V
    c) (R c) (memory c) (current_sector c) (cycle_count c) v (error c)
    (d37c_mode c) (discrete_in_a c) (discrete_in_b c) (discrete_out_a c)
    (voltage_out c) (binary_out c) (detector c) (fine_countdown c)
    (countdown_enabled c).

Definition set_error (v : bool) (c : d17b_cpu_t) : d17b_cpu_t :=
  Build_d17b_cpu_t (A c) (L c) (N c) (I c) (P c) (U c) (F c) (E c) (H c) (V
    c) (R c) (memory c) (current_sector c) (cycle_count c) (halted c) v
    (d37c_mode c) (discrete_in_a c) (discrete_in_b c) (discrete_out_a c)
    (voltage_out c) (binary_out c) (detector c) (fine_countdown c)
    (countdown_enabled c).

Definition set_d37c_mode (v : bool) (c : d17b_cpu_t) : d17b_cpu_t :=
  Build_d17b_cpu_t (A c) (L c) (N c) (I c) (P c) (U c) (F c) (E c) (H c) (V
    c) (R c) (memory c) (current_sector c) (cycle_count c) (halted c) (error
    c) v (discrete_in_a c) (discrete_in_b c) (discrete_out_a c) (voltage_out
    c) (binary_out c) (detector c) (fine_countdown c) (countdown_enabled c).

Definition set_discrete_in_a (v : Z) (c : d17b_cpu_t) : d17b_cpu_t :=
  Build_d17b_cpu_t (A c) (L c) (N c) (I c) (P c) (U c) (F c) (E c) (H c) (V
    c) (R c) (memory c) (current_sector c) (cycle_count c) (halted c) (error
    c) (d37c_mode c) v (discrete_in_b c) (discrete_out_a c) (voltage_out c)
    (binary_out c) (detector c) (fine_countdown c) (countdown_enabled c).

Definition set_discrete_in_b (v : Z) (c : d17b_cpu_t) : d17b_cpu_t :=
  Build_d17b_cpu_t (A c) (L c) (N c) (I c) (P c) (U c) (F c) (E c) (H c) (V
    c) (R c) (memory c) (current_sector c) (cycle_count c) (halted c) (error
    c) (d37c_mode c) (discrete_in_a c) v (discrete_out_a c) (voltage_out c)
    (binary_out c) (detector c) (fine_countdown c) (countdown_enabled c).

Definition set_discrete_out_a (v : Z) (c : d17b_cpu_t) : d17b_cpu_t :=
  Build_d17b_cpu_t (A c) (L c) (N c) (I c) (P c) (U c) (F c) (E c) (H c) (V
    c) (R c) (memory c) (current_sector c) (cycle_count c) (halted c) (error
    c) (d37c_mode c) (discrete_in_a c) (discrete_in_b c) v (voltage_out c)
    (binary_out c) (detector c) (fine_countdown c) (countdown_enabled c).

Definition set_voltage_out (v : list Z) (c : d17b_cpu_t) : d17b_cpu_t :=
  Build_d17b_cpu_t (A c) (L c) (N c) (I c) (P c) (U c) (F c) (E c) (H c) (V
    c) (R c) (memory c) (current_sector c) (cycle_count c) (halted c) (error
    c) (d37c_mode c) (discrete_in_a c) (discrete_in_b c) (discrete_out_a c) v
    (binary_out c) (detector c) (fine_countdown c) (countdown_enabled c).

Definition set_binary_out (v : list Z) (c : d17b_cpu_t) : d17b_cpu_t :=
  Build_d17b_cpu_t (A c) (L c) (N c) (I c) (P c) (U c) (F c) (E c) (H c) (V
    c) (R c) (memory c) (current_sector c) (cycle_count c) (halted c) (error
    c) (d37c_mode c) (discrete_in_a c) (discrete_in_b c) (discrete_out_a c)
    (voltage_out c) v (detector c) (fine_countdown c) (countdown_enabled c).

Definition set_detector (v : bool) (c : d17b_cpu_t) : d17b_cpu_t :=
  Build_d17b_cpu_t (A c) (L c) (N c) (I c) (P c) (U c) (F c) (E c) (H c) (V
    c) (R c) (memory c) (current_sector c) (cycle_count c) (halted c) (error
    c) (d37c_mode c) (discrete_in_a c) (discrete_in_b c) (discrete_out_a c)
    (voltage_out c) (binary_out c) v (fine_countdown c) (countdown_enabled c).

Definition set_fine_countdown (v : Z) (c : d17b_cpu_t) : d17b_cpu_t :=
  Build_d17b_cpu_t (A c) (L c) (N c) (I c) (P c) (U c) (F c) (E c) (H c) (V
    c) (R c) (memory c) (current_sector c) (cycle_count c) (halted c) (error
    c) (d37c_mode c) (discrete_in_a c) (discrete_in_b c) (discrete_out_a c)
    (voltage_out c) (binary_out c) (detector c) v (countdown_enabled c).

Definition set_countdown_enabled (v : bool) (c : d17b_cpu_t) : d17b_cpu_t :=
  Build_d17b_cpu_t (A c) (L c) (N c) (I c) (P c) (U c) (F c) (E c) (H c) (V
    c) (R c) (memory c) (current_sector c) (cycle_count c) (halted c) (error
    c) (d37c_mode c) (discrete_in_a c) (discrete_in_b c) (discrete_out_a c)
    (voltage_out c) (binary_out c) (detector c) (fine_countdown c) v.

(** Array cells: [a[i]] and [a[i] = v], for an index already in bounds. *)
Definition idx (a : list Z) (i : Z) : Z := default 0 (a !! Z.to_nat i).
Definition upd (a : list Z) (i : Z) (v : Z) : list Z := <[ Z.to_nat i := v ]> a.

Definition idx2 (m : list (list Z)) (c s : Z) : Z :=
  idx (default [] (m !! Z.to_nat c)) s.
Definition upd2 (m : list (list Z)) (c s : Z) (v : Z) : list (list Z) :=
  alter (fun row => upd row s v) (Z.to_nat c) m.

(** The state after [memset(cpu, 0, sizeof(d17b_cpu_t))]. *)
Definition zero_memory : list (list Z) :=
  replicate (Z.to_nat CHANNELS) (replicate (Z.to_nat SECTORS) 0).

Definition zero_cpu : d17b_cpu_t :=
  {| A := 0; L := 0; N := 0; I := 0; P := 0; U := 0;
     F := replicate F_LOOP_SIZE 0; E := replicate E_LOOP_SIZE 0;
     H := replicate H_LOOP_SIZE 0; V := replicate V_LOOP_SIZE 0;
     R := replicate R_LOOP_SIZE 0; memory := zero_memory;
     current_sector := 0; cycle_count := 0;
     halted := false; error := false; d37c_mode := false;
     discrete_in_a := 0; discrete_in_b := 0; discrete_out_a := 0;
     voltage_out := replicate 4%nat 0; binary_out := replicate 4%nat 0;
     detector := false; fine_countdown := 0; countdown_enabled := false |}.

(** ** Initialization *)

(** [d17b_reset]: the assignments and [memset]s of the source, in order.
    [N], [memory], [discrete_in_*] are listed as the source leaves or sets
    them. *)
Definition d17b_reset (cpu : d17b_cpu_t) : d17b_cpu_t :=
  {| A := 0; L := 0; N := 0; I := 0; P := 0;
     U := 0;
     F := replicate F_LOOP_SIZE 0; E := replicate E_LOOP_SIZE 0;
     H := replicate H_LOOP_SIZE 0; V := replicate V_LOOP_SIZE 0;
     R := replicate R_LOOP_SIZE 0;
     memory := memory cpu;
     current_sector := 0; cycle_count := 0;
     halted := false; error := false; d37c_mode := true;
     discrete_in_a := 0; discrete_in_b := 0; discrete_out_a := 0;
     voltage_out := replicate 4%nat 0; binary_out := replicate 4%nat 0;
     detector := false; fine_countdown := 0; countdown_enabled := false |}.

Definition d17b_init : d17b_cpu_t := d17b_reset zero_cpu.

(** ** Memory access *)

Definition d17b_read (cpu : d17b_cpu_t) (channel sector : Z) : Z :=
  if channel =? CHAN_U_LOOP then U cpu
  else if channel =? CHAN_L_REG then L cpu
  else if channel =? CHAN_F_LOOP then idx (F cpu) (Z.land sector 0x03)
  else if channel =? CHAN_E_LOOP then idx (E cpu) (Z.land sector 0x07)
  else if channel =? CHAN_H_LOOP then idx (H cpu) (Z.land sector 0x0F)
  else if channel =? CHAN_V_LOOP then idx (V cpu) (Z.land sector 0x03)
  else if channel =? CHAN_R_LOOP then idx (R cpu) (Z.land sector 0x03)
  else if (channel <? CHANNELS) && (sector <? SECTORS)
       then idx2 (memory cpu) channel sector
       else 0.

Definition d17b_write (cpu : d17b_cpu_t) (channel sector value : Z)
  : d17b_cpu_t :=
  let value := Z.land value WORD_MASK in
  if channel =? CHAN_U_LOOP then set_U value cpu
  else if channel =? CHAN_L_REG then set_L value cpu
  else if channel =? CHAN_F_LOOP
       then set_F (upd (F cpu) (Z.land sector 0x03) value) cpu
  else if channel =? CHAN_E_LOOP
       then set_E (upd (E cpu) (Z.land sector 0x07) value) cpu
  else if channel =? CHAN_H_LOOP
       then set_H (upd (H cpu) (Z.land sector 0x0F) value) cpu
  else if channel =? CHAN_V_LOOP
       then set_V (upd (V cpu) (Z.land sector 0x03) value) cpu
  else if channel =? CHAN_R_LOOP
       then set_R (upd (R cpu) (Z.land sector 0x03) value) cpu
  else if (channel <? CHANNELS) && (sector <? SECTORS)
       then set_memory (upd2 (memory cpu) channel sector value) cpu
       else cpu.

(** ** 24-bit sign-magnitude arithmetic *)

Definition to_signed (val : Z) : Z :=
  if Z.land val SIGN_BIT =? 0
  then Z.land val MAGNITUDE_MASK
  else - Z.land val MAGNITUDE_MASK.

Definition from_signed (val : Z) : Z :=
  if val <? 0
  then Z.lor SIGN_BIT (Z.land (- val) MAGNITUDE_MASK)
  else Z.land val MAGNITUDE_MASK.

(** The clamp shared by add and subtract. *)
Definition clamp_magnitude (result : Z) : Z :=
  if result >? MAGNITUDE_MASK then MAGNITUDE_MASK
  else if result <? - MAGNITUDE_MASK then - MAGNITUDE_MASK
  else result.

Definition d17b_add_24bit (a b : Z) : Z :=
  let sa := to_signed a in
  let sb := to_signed b in
  from_signed (clamp_magnitude (sa + sb)).

Definition d17b_sub_24bit (a b : Z) : Z :=
  let sa := to_signed a in
  let sb := to_signed b in
  from_signed (clamp_magnitude (sa - sb)).

Definition d17b_complement (val : Z) : Z := Z.lxor val SIGN_BIT.

(** [d17b_multiply].  [a >> 14] on the (possibly negative) [int32_t] is
    the arithmetic shift, [Z.shiftr]; only its low ten bits are kept, and
    these are bits 23..14 of the two's complement pattern under either
    reading of the C shift. *)
Definition d17b_multiply (cpu : d17b_cpu_t) (operand : Z) (split : bool)
  : d17b_cpu_t :=
  let a := to_signed (A cpu) in
  let b := to_signed operand in
  let a :=
    if split then
      let a := Z.land (Z.shiftr a 14) 0x3FF in
      if Z.land (A cpu) SIGN_BIT =? 0 then a else - a
    else a in
  let b :=
    if split then
      let b := Z.land (Z.shiftr b 14) 0x3FF in
      if Z.land operand SIGN_BIT =? 0 then b else - b
    else b in
  let product := a * b in
  if product <? 0 then
    let product := - product in
    set_L (Z.land product MAGNITUDE_MASK)
      (set_A (Z.lor SIGN_BIT (Z.land (Z.shiftr product 23) MAGNITUDE_MASK))
         cpu)
  else
    set_L (Z.land product MAGNITUDE_MASK)
      (set_A (Z.land (Z.shiftr product 23) MAGNITUDE_MASK) cpu).

(** [d17b_divide] (D37C). *)
Definition d17b_divide (cpu : d17b_cpu_t) (divisor : Z) : d17b_cpu_t :=
  if Z.land divisor MAGNITUDE_MASK =? 0 then set_error true cpu
  else
    let dividend_neg := negb (Z.land (A cpu) SIGN_BIT =? 0) in
    let divisor_neg := negb (Z.land divisor SIGN_BIT =? 0) in
    let quotient_neg := xorb dividend_neg divisor_neg in
    let dividend :=
      Z.lor (u64 (Z.shiftl (Z.land (A cpu) MAGNITUDE_MASK) 23))
            (Z.land (L cpu) MAGNITUDE_MASK) in
    let div_mag := Z.land divisor MAGNITUDE_MASK in
    let quotient := dividend / div_mag in
    let remainder := dividend mod div_mag in
    let overflow := quotient >? MAGNITUDE_MASK in
    let cpu := if overflow then set_error true cpu else cpu in
    let quotient := if overflow then MAGNITUDE_MASK else quotient in
    let cpu := set_A (Z.land (u32 quotient) MAGNITUDE_MASK) cpu in
    let cpu :=
      if quotient_neg && negb (quotient =? 0)
      then set_A (Z.lor (A cpu) SIGN_BIT) cpu else cpu in
    let cpu := set_L (Z.land (u32 remainder) MAGNITUDE_MASK) cpu in
    if dividend_neg && negb (remainder =? 0)
    then set_L (Z.lor (L cpu) SIGN_BIT) cpu else cpu.

(** ** Flag store *)

(** [d17b_flag_store]: the value stored is [cpu->A] at the time of the
    call; the case labels are those of the source. *)
Definition d17b_flag_store (cpu : d17b_cpu_t) (flag_code operand_sector : Z)
  : d17b_cpu_t :=
  let value := A cpu in
  if flag_code =? 0x00 then cpu
  else if flag_code =? 0x02
       then set_F (upd (F cpu) (Z.land operand_sector 0x03) value) cpu
  else if flag_code =? 0x04 then cpu
  else if flag_code =? 0x06
       then d17b_write cpu 0x28 (Z.land (u32 (operand_sector - 2)) 0x7F) value
  else if flag_code =? 0x08
       then set_E (upd (E cpu) (Z.land operand_sector 0x07) value) cpu
  else if flag_code =? 0x0A then set_L value cpu
  else if flag_code =? 0x0C
       then set_H (upd (H cpu) (Z.land operand_sector 0x0F) value) cpu
  else if flag_code =? 0x0E then set_U value cpu
  else cpu.

(** ** Instruction execution *)

Definition d17b_exec_arithmetic (cpu : d17b_cpu_t) (instr : Z) : d17b_cpu_t :=
  let opcode := GET_OPCODE instr in
  let channel := GET_CHANNEL instr in
  let sector := GET_SECTOR instr in
  let operand := d17b_read cpu channel sector in
  let cpu :=
    if GET_FLAG instr =? 0 then cpu
    else d17b_flag_store cpu (GET_FLAG_CODE instr) sector in
  if opcode =? OP_CLA then set_A operand cpu
  else if opcode =? OP_ADD then set_A (d17b_add_24bit (A cpu) operand) cpu
  else if opcode =? OP_SUB then set_A (d17b_sub_24bit (A cpu) operand) cpu
  else if opcode =? OP_SAD then
    let a_hi := Z.land (Z.shiftr (A cpu) 12) 0xFFF in
    let a_lo := Z.land (A cpu) 0xFFF in
    let o_hi := Z.land (Z.shiftr operand 12) 0xFFF in
    let o_lo := Z.land operand 0xFFF in
    set_A (Z.land (Z.lor (u32 (Z.shiftl (u32 (a_hi + o_hi)) 12))
                         (Z.land (u32 (a_lo + o_lo)) 0xFFF)) WORD_MASK) cpu
  else if opcode =? OP_SSU then
    let a_hi := Z.land (Z.shiftr (A cpu) 12) 0xFFF in
    let a_lo := Z.land (A cpu) 0xFFF in
    let o_hi := Z.land (Z.shiftr operand 12) 0xFFF in
    let o_lo := Z.land operand 0xFFF in
    set_A (Z.land (Z.lor (u32 (Z.shiftl (u32 (a_hi - o_hi)) 12))
                         (Z.land (u32 (a_lo - o_lo)) 0xFFF)) WORD_MASK) cpu
  else if opcode =? OP_MPY then d17b_multiply cpu operand false
  else if opcode =? OP_SMP then d17b_multiply cpu operand true
  else if opcode =? OP_DIV_MPM then
    if d37c_mode cpu then d17b_divide cpu operand
    else
      let abs_a := Z.land (A cpu) MAGNITUDE_MASK in
      let abs_op := Z.land operand MAGNITUDE_MASK in
      d17b_multiply (set_A abs_a cpu) abs_op false
  else if opcode =? OP_STO then d17b_write cpu channel sector (A cpu)
  else cpu.

Definition d17b_exec_shift (cpu : d17b_cpu_t) (instr : Z) : d17b_cpu_t :=
  let sector := GET_SECTOR instr in
  let sub_op := Z.land (Z.shiftr sector 3) 0x1F in
  let shift_count := Z.land sector 0x07 in
  let shift_count := if shift_count =? 0 then 8 else shift_count in
  if sub_op =? 0x08 then
    let hi := Z.land (Z.shiftr (A cpu) 12) 0xFFF in
    let lo := Z.land (A cpu) 0xFFF in
    let hi := Z.land (Z.shiftl hi shift_count) 0xFFF in
    let lo := Z.land (Z.shiftl lo shift_count) 0xFFF in
    set_A (Z.lor (Z.shiftl hi 12) lo) cpu
  else if sub_op =? 0x09 then
    set_A (Z.land (u32 (Z.shiftl (A cpu) shift_count)) WORD_MASK) cpu
  else if sub_op =? 0x0A then
    let hi := Z.land (Z.shiftr (A cpu) 12) 0xFFF in
    let hi := Z.land (Z.shiftl hi shift_count) 0xFFF in
    set_A (Z.lor (Z.shiftl hi 12) (Z.land (A cpu) 0xFFF)) cpu
  else if sub_op =? 0x0B then
    if d37c_mode cpu then
      let val := Z.land (A cpu) WORD_MASK in
      set_A (Z.land (Z.lor (u32 (Z.shiftl val shift_count))
                           (Z.shiftr val (24 - shift_count))) WORD_MASK) cpu
    else
      let lo := Z.land (A cpu) 0xFFF in
      let lo := Z.land (Z.shiftl lo shift_count) 0xFFF in
      set_A (Z.lor (Z.land (A cpu) 0xFFF000) lo) cpu
  else if sub_op =? 0x0C then
    let hi := Z.land (Z.shiftr (A cpu) 12) 0xFFF in
    let lo := Z.land (A cpu) 0xFFF in
    let hi := Z.shiftr hi shift_count in
    let lo := Z.shiftr lo shift_count in
    set_A (Z.lor (Z.shiftl hi 12) lo) cpu
  else if sub_op =? 0x0D then
    set_A (Z.shiftr (A cpu) shift_count) cpu
  else if sub_op =? 0x0E then
    let hi := Z.land (Z.shiftr (A cpu) 12) 0xFFF in
    let hi := Z.shiftr hi shift_count in
    set_A (Z.lor (Z.shiftl hi 12) (Z.land (A cpu) 0xFFF)) cpu
  else if sub_op =? 0x0F then
    if d37c_mode cpu then
      let val := Z.land (A cpu) WORD_MASK in
      set_A (Z.land (Z.lor (Z.shiftr val shift_count)
                           (u32 (Z.shiftl val (24 - shift_count))))
                    WORD_MASK) cpu
    else
      let lo := Z.land (A cpu) 0xFFF in
      let lo := Z.shiftr lo shift_count in
      set_A (Z.lor (Z.land (A cpu) 0xFFF000) lo) cpu
  else cpu.

(** Sign extension of a 12-bit lane held in an [int16_t]:
    [if (x & 0x800) x |= 0xF000]. *)
Definition sign_extend_12 (x : Z) : Z :=
  if Z.land x 0x800 =? 0 then x else i16 (Z.lor x 0xF000).

(** The limit step of SCL on one lane:
    [if (a > o) a = o; if (a < -o) a = -o;] *)
Definition scl_limit (a o : Z) : Z :=
  let a := if a >? o then o else a in
  if a <? - o then i16 (- o) else a.

Definition d17b_exec_control (cpu : d17b_cpu_t) (instr : Z) : d17b_cpu_t :=
  let opcode := GET_OPCODE instr in
  let channel := GET_CHANNEL instr in
  let sector := GET_SECTOR instr in
  if opcode =? OP_SCL then
    let operand := d17b_read cpu channel sector in
    let a_hi := i16 (Z.land (Z.shiftr (A cpu) 12) 0xFFF) in
    let a_lo := i16 (Z.land (A cpu) 0xFFF) in
    let o_hi := i16 (Z.land (Z.shiftr operand 12) 0xFFF) in
    let o_lo := i16 (Z.land operand 0xFFF) in
    let a_hi := sign_extend_12 a_hi in
    let a_lo := sign_extend_12 a_lo in
    let o_hi := sign_extend_12 o_hi in
    let o_lo := sign_extend_12 o_lo in
    let a_hi := scl_limit a_hi o_hi in
    let a_lo := scl_limit a_lo o_lo in
    set_A (u32 (Z.lor (Z.shiftl (Z.land a_hi 0xFFF) 12) (Z.land a_lo 0xFFF)))
      cpu
  else cpu.

Definition d17b_exec_special (cpu : d17b_cpu_t) (instr : Z) : d17b_cpu_t :=
  let sector := GET_SECTOR instr in
  let sub_op := Z.land (Z.shiftr sector 1) 0x3F in
  if sub_op =? 0x10 then
    if d37c_mode cpu then set_A (Z.lor (A cpu) (L cpu)) cpu else cpu
  else if sub_op =? 0x11 then set_A (Z.land (A cpu) (L cpu)) cpu
  else if sub_op =? 0x12
       then set_A (Z.lor SIGN_BIT (Z.land (A cpu) MAGNITUDE_MASK)) cpu
  else if sub_op =? 0x13 then set_A (d17b_complement (A cpu)) cpu
  else if sub_op =? 0x09 then set_halted true cpu
  else if sub_op =? 0x08 then set_detector false cpu
  else if sub_op =? 0x19 then set_countdown_enabled true cpu
  else if sub_op =? 0x18 then set_countdown_enabled false cpu
  else if (sub_op =? 0x1E) || (sub_op =? 0x1F)
       then set_P (Z.land sector 0x07) cpu
  else if sub_op =? 0x15 then set_A (discrete_in_a cpu) cpu
  else if sub_op =? 0x14 then set_A (discrete_in_b cpu) cpu
  else if sub_op =? 0x0B then set_discrete_out_a (A cpu) cpu
  else if sub_op =? 0x0C then
    set_voltage_out
      (upd (voltage_out cpu) 0 (i16 (to_signed (Z.shiftr (A cpu) 15)))) cpu
  else if sub_op =? 0x0D then
    set_voltage_out
      (upd (voltage_out cpu) 1 (i16 (to_signed (Z.shiftr (A cpu) 15)))) cpu
  else if sub_op =? 0x0E then
    set_voltage_out
      (upd (voltage_out cpu) 2 (i16 (to_signed (Z.shiftr (A cpu) 15)))) cpu
  else if sub_op =? 0x04 then
    set_binary_out
      (upd (binary_out cpu) 0 (Z.land (Z.shiftr (A cpu) 22) 0x03)) cpu
  else if sub_op =? 0x05 then
    set_binary_out
      (upd (binary_out cpu) 1 (Z.land (Z.shiftr (A cpu) 22) 0x03)) cpu
  else if sub_op =? 0x01 then
    set_binary_out
      (upd (binary_out cpu) 2 (Z.land (Z.shiftr (A cpu) 22) 0x03)) cpu
  else cpu.

(** ** Main execution loop *)

(** The [switch (opcode)] of [d17b_step]: the state after the dispatch and
    the local flag [jumped]. *)
Definition dispatch (cpu : d17b_cpu_t) (instr : Z) : d17b_cpu_t * bool :=
  let opcode := GET_OPCODE instr in
  let target_ch := GET_CHANNEL instr in
  let target_sec := GET_SECTOR instr in
  let target := Z.lor (Z.shiftl target_ch 9) (Z.shiftl target_sec 2) in
  if opcode =? OP_SHIFT then (d17b_exec_shift cpu instr, false)
  else if opcode =? OP_SPECIAL then (d17b_exec_special cpu instr, false)
  else if opcode =? OP_TRA then (set_I target cpu, true)
  else if opcode =? OP_TMI_TZE then
    if d37c_mode cpu then
      if Z.land (A cpu) MAGNITUDE_MASK =? 0
      then (set_I target cpu, true) else (cpu, false)
    else
      if negb (Z.land (A cpu) SIGN_BIT =? 0)
      then (set_I target cpu, true) else (cpu, false)
  else if opcode =? OP_TMI then
    if negb (Z.land (A cpu) SIGN_BIT =? 0)
    then (set_I target cpu, true) else (cpu, false)
  else if opcode =? OP_SCL then (d17b_exec_control cpu instr, false)
  else (d17b_exec_arithmetic cpu instr, false).

(** The tail of [d17b_step] after the dispatch: next-instruction pointer,
    disc position, cycle count and fine countdown. *)
Definition advance (channel next_sp : Z) (cpu : d17b_cpu_t) (jumped : bool)
  : d17b_cpu_t :=
  let cpu :=
    if jumped then cpu
    else set_I (Z.lor (Z.shiftl channel 9) (Z.shiftl next_sp 2)) cpu in
  let cpu :=
    set_current_sector (Z.land (u32 (current_sector cpu + 1)) 0x7F) cpu in
  let cpu := set_cycle_count (u64 (cycle_count cpu + 1)) cpu in
  if countdown_enabled cpu && (fine_countdown cpu >? 0)
  then set_fine_countdown (u32 (fine_countdown cpu - 1)) cpu
  else cpu.

(** [d17b_step] returns the C return value together with the new state. *)
Definition d17b_step (cpu : d17b_cpu_t) : Z * d17b_cpu_t :=
  if halted cpu then (-1, cpu)
  else
    let channel := Z.land (Z.shiftr (I cpu) 9) 0x3F in
    let sector := Z.land (Z.shiftr (I cpu) 2) 0x7F in
    let instr := d17b_read cpu channel sector in
    let next_sp := GET_SP instr in
    let '(cpu, jumped) := dispatch cpu instr in
    (0, advance channel next_sp cpu jumped).

(** The [while] loop of [d17b_run].  The loop condition is tested first;
    [fuel] bounds the number of iterations and [None] means it ran out. *)
Fixpoint run_loop (fuel : nat) (start max_cycles : Z) (cpu : d17b_cpu_t)
  : option d17b_cpu_t :=
  if negb (halted cpu) && (u64 (cycle_count cpu - start) <? max_cycles) then
    match fuel with
    | O => None
    | S fuel' =>
        let r := d17b_step cpu in
        if fst r <? 0 then Some (snd r)
        else run_loop fuel' start max_cycles (snd r)
    end
  else Some cpu.

Definition d17b_run (fuel : nat) (cpu : d17b_cpu_t) (max_cycles : Z)
  : option (Z * d17b_cpu_t) :=
  let start := cycle_count cpu in
  match run_loop fuel start max_cycles cpu with
  | Some cpu' => Some (if halted cpu' then -1 else 0, cpu')
  | None => None
  end.

(** The state after [n] calls of [d17b_step]. *)
Fixpoint steps (n : nat) (cpu : d17b_cpu_t) : d17b_cpu_t :=
  match n with
  | O => cpu
  | S n' => steps n' (snd (d17b_step cpu))
  end.

(** The instruction word a step fetches, and the channel it fetches from. *)
Definition fetch_channel (cpu : d17b_cpu_t) : Z :=
  Z.land (Z.shiftr (I cpu) 9) 0x3F.
Definition fetch_sector (cpu : d17b_cpu_t) : Z :=
  Z.land (Z.shiftr (I cpu) 2) 0x7F.
Definition fetch (cpu : d17b_cpu_t) : Z :=
  d17b_read cpu (fetch_channel cpu) (fetch_sector cpu).

(** The instruction encoder of the test harness ([ENCODE_INSTR], main.c). *)
Definition ENCODE_INSTR (op flag sp chan sec : Z) : Z :=
  Z.lor (Z.lor (Z.lor (Z.lor
    (Z.shiftl (Z.land op 0xF) 20)
    (Z.shiftl (Z.land flag 0x1) 19))
    (Z.shiftl (Z.land sp 0xF) 15))
    (Z.shiftl (Z.land chan 0x3F) 9))
    (Z.shiftl (Z.land sec 0x7F) 2).

(** The test program of [load_test_program]. *)
Definition load_test_program (cpu : d17b_cpu_t) : d17b_cpu_t :=
  let m := memory cpu in
  let m := upd2 m 0 0 (ENCODE_INSTR 0x9 0 2 0 1) in
  let m := upd2 m 0 1 0x000005 in
  let m := upd2 m 0 2 (ENCODE_INSTR 0xD 0 4 0 3) in
  let m := upd2 m 0 3 0x000003 in
  let m := upd2 m 0 4 (ENCODE_INSTR 0xB 0 5 0 6) in
  let m := upd2 m 0 5 (ENCODE_INSTR 0x8 0 6 0 18) in
  let m := upd2 m 0 6 0x000000 in
  set_memory m cpu.

(** ** Auxiliary definitions for the properties *)

(** *** Division *)

(** The magnitude field of a word. *)
Definition magnitude (w : Z) : Z := Z.land w MAGNITUDE_MASK.

(** The 46-bit dividend the source assembles from [A] and [L]. *)
Definition dividend_of (cpu : d17b_cpu_t) : Z :=
  Z.lor (u64 (Z.shiftl (Z.land (A cpu) MAGNITUDE_MASK) 23))
        (Z.land (L cpu) MAGNITUDE_MASK).

(** A = -2 and L = -3 in sign-magnitude, to be divided by +5. *)
Definition divide_input : d17b_cpu_t :=
  set_L 0x800003 (set_A 0x800002 zero_cpu).

(** *** Reset *)

(** The reading of the reset contract under which the whole main memory
    is cleared and the mode bit is preserved. *)
Definition reset_clears_memory_keeps_mode : Prop :=
  forall cpu : d17b_cpu_t,
    memory (d17b_reset cpu) = zero_memory /\
    d37c_mode (d17b_reset cpu) = d37c_mode cpu.

(** A D17B-mode machine with one word of program on the disc. *)
Definition reset_input : d17b_cpu_t :=
  set_memory (upd2 zero_memory 0 1 0x000005) zero_cpu.

(** *** Flag store on ADD *)

(** The flag-store scenario as the specification words it. *)
Definition add_flag_store_sets_L_to_sum : Prop :=
  forall (cpu : d17b_cpu_t) (instr : Z),
    GET_OPCODE instr = OP_ADD ->
    GET_FLAG instr = 1 ->
    Z.land (GET_SECTOR instr) 7 = 5 ->
    L (d17b_exec_arithmetic cpu instr) = A (d17b_exec_arithmetic cpu instr).

(** A = +1, L = +9, operand +2 at channel 0 sector 5, and the instruction
    ADD with the flag bit, operand address (0, 5), placed at (0, 0). *)
Definition flag_add_instr : Z := ENCODE_INSTR OP_ADD 1 1 0 5.
Definition flag_add_input : d17b_cpu_t :=
  set_L 9 (set_A 1
    (set_memory (upd2 (upd2 zero_memory 0 0 flag_add_instr) 0 5 2)
       d17b_init)).

(** *** The run loop *)

(** The stop rule under which a latched error ends the run: every step
    the run takes starts from a state with neither latch set. *)
Definition run_stops_on_error : Prop :=
  forall (cpu cpu' : d17b_cpu_t) (max_cycles rc : Z) (fuel : nat),
    0 <= max_cycles < 2 ^ 64 ->
    d17b_run fuel cpu max_cycles = Some (rc, cpu') ->
    exists n : nat,
      cpu' = steps n cpu /\
      forall k : nat, (k < n)%nat ->
        halted (steps k cpu) = false /\ error (steps k cpu) = false.

(** DIV by a zero word at (0,0), then CLA of the word 5 at (0,2). *)
Definition run_error_input : d17b_cpu_t :=
  let m := upd2 zero_memory 0 0 (ENCODE_INSTR OP_DIV_MPM 0 2 0 1) in
  let m := upd2 m 0 1 0 in
  let m := upd2 m 0 2 (ENCODE_INSTR OP_CLA 0 4 0 3) in
  let m := upd2 m 0 3 5 in
  set_memory m d17b_init.

(** *** One step *)

(** An op=2 instruction with target (3, 7) and Sp = 4 at (0, 0). *)
Definition op2_input (a : Z) (mode : bool) : d17b_cpu_t :=
  let cpu := set_A a
    (set_memory (upd2 zero_memory 0 0 (ENCODE_INSTR OP_TMI_TZE 0 4 3 7))
       d17b_init) in
  Build_d17b_cpu_t (A cpu) (L cpu) (N cpu) (I cpu) (P cpu) (U cpu) (F cpu)
    (E cpu) (H cpu) (V cpu) (R cpu) (memory cpu) (current_sector cpu)
    (cycle_count cpu) (halted cpu) (error cpu) mode (discrete_in_a cpu)
    (discrete_in_b cpu) (discrete_out_a cpu) (voltage_out cpu)
    (binary_out cpu) (detector cpu) (fine_countdown cpu)
    (countdown_enabled cpu).

(** The HPR of the test program, with the countdown running at 7. *)
Definition hpr_input : d17b_cpu_t :=
  set_fine_countdown 7 (set_countdown_enabled true
    (set_I (Z.shiftl 5 2) (set_A 8 (load_test_program d17b_init)))).

(** *** Split compare and limit (SCL), as specified *)

(** The specification's reading of SCL, lane by lane: the signed value of
    a 12-bit lane, and the clamp to [-|operand_lane|, +|operand_lane|]. *)
Definition lane_signed (x : Z) : Z := if x <? 2048 then x else x - 4096.

Definition scl_clamp_spec (a o : Z) : Z :=
  Z.max (- Z.abs o) (Z.min (Z.abs o) a).

Definition scl_spec (a operand : Z) : Z :=
  let a_hi := lane_signed (Z.land (Z.shiftr a 12) 0xFFF) in
  let a_lo := lane_signed (Z.land a 0xFFF) in
  let o_hi := lane_signed (Z.land (Z.shiftr operand 12) 0xFFF) in
  let o_lo := lane_signed (Z.land operand 0xFFF) in
  Z.lor (Z.shiftl (Z.land (scl_clamp_spec a_hi o_hi) 0xFFF) 12)
        (Z.land (scl_clamp_spec a_lo o_lo) 0xFFF).

(** A = (+3, +3) in the two lanes; the operand at (0, 1) has lanes
    (-5, +5); the instruction is SCL 0,1. *)
Definition scl_instr : Z := ENCODE_INSTR OP_SCL 0 2 0 1.
Definition scl_input : d17b_cpu_t :=
  set_A 0x003003
    (set_memory (upd2 (upd2 zero_memory 0 0 scl_instr) 0 1 0xFFB005)
       d17b_init).

(** *** Split multiply (SMP), as specified *)

(** The specification's reading of SMP: a 10-bit sign-magnitude value
    taken from bits 23..14 (sign from bit 23, magnitude from bits 22..14),
    and the distribution of a signed product over A and L. *)
Definition split_operand_spec (w : Z) : Z :=
  let m := Z.land (Z.shiftr w 14) 0x1FF in
  if Z.testbit w 23 then - m else m.

Definition distribute_product_spec (p : Z) : Z * Z :=
  let m := Z.abs p in
  let hi := Z.land (Z.shiftr m 23) MAGNITUDE_MASK in
  (if p <? 0 then Z.lor SIGN_BIT hi else hi, Z.land m MAGNITUDE_MASK).

Definition smp_spec (a operand : Z) : Z * Z :=
  distribute_product_spec (split_operand_spec a * split_operand_spec operand).

(** A = -1 in split form (sign bit and bit 14), operand = +1 in split form
    at (0, 1), and the instruction SMP 0,1 at (0, 0). *)
Definition smp_instr : Z := ENCODE_INSTR OP_SMP 0 2 0 1.
Definition smp_input : d17b_cpu_t :=
  set_A 0x804000
    (set_memory (upd2 (upd2 zero_memory 0 0 smp_instr) 0 1 0x004000)
       d17b_init).

(** *** Shapes, word sizes and storage cells of a state *)

(** The array fields have the sizes of their C declarations. *)
Definition wf_cpu (cpu : d17b_cpu_t) : Prop :=
  length (F cpu) = F_LOOP_SIZE /\
  length (E cpu) = E_LOOP_SIZE /\
  length (H cpu) = H_LOOP_SIZE /\
  length (V cpu) = V_LOOP_SIZE /\
  length (R cpu) = R_LOOP_SIZE /\
  length (memory cpu) = Z.to_nat CHANNELS /\
  Forall (fun row : list Z => length row = Z.to_nat SECTORS) (memory cpu) /\
  length (voltage_out cpu) = 4%nat /\
  length (binary_out cpu) = 4%nat.

(** A 24-bit word. *)
Definition word24 (w : Z) : Prop := 0 <= w < 2 ^ 24.

(** Every register, loop slot, memory cell and discrete input of the state
    holds a 24-bit word. *)
Definition words24 (cpu : d17b_cpu_t) : Prop :=
  word24 (A cpu) /\ word24 (L cpu) /\ word24 (U cpu) /\
  Forall word24 (F cpu) /\ Forall word24 (E cpu) /\
  Forall word24 (H cpu) /\ Forall word24 (V cpu) /\
  Forall word24 (R cpu) /\
  Forall (Forall word24) (memory cpu) /\
  word24 (discrete_in_a cpu) /\ word24 (discrete_in_b cpu).

(** The storage cell an address (channel, sector) selects in [d17b_read]
    and [d17b_write]: a loop slot, the L register, a word of the main
    disc, or nothing. *)
Inductive cell : Type :=
| cell_U
| cell_L
| cell_F (i : Z)
| cell_E (i : Z)
| cell_H (i : Z)
| cell_V (i : Z)
| cell_R (i : Z)
| cell_memory (channel sector : Z).

Definition cell_of (channel sector : Z) : option cell :=
  if channel =? CHAN_U_LOOP then Some cell_U
  else if channel =? CHAN_L_REG then Some cell_L
  else if channel =? CHAN_F_LOOP then Some (cell_F (Z.land sector 0x03))
  else if channel =? CHAN_E_LOOP then Some (cell_E (Z.land sector 0x07))
  else if channel =? CHAN_H_LOOP then Some (cell_H (Z.land sector 0x0F))
  else if channel =? CHAN_V_LOOP then Some (cell_V (Z.land sector 0x03))
  else if channel =? CHAN_R_LOOP then Some (cell_R (Z.land sector 0x03))
  else if (channel <? CHANNELS) && (sector <? SECTORS)
       then Some (cell_memory channel sector)
       else None.

(** The content of a cell, and the state with a cell overwritten. *)
Definition cell_get (cpu : d17b_cpu_t) (k : cell) : Z :=
  match k with
  | cell_U => U cpu
  | cell_L => L cpu
  | cell_F i => idx (F cpu) i
  | cell_E i => idx (E cpu) i
  | cell_H i => idx (H cpu) i
  | cell_V i => idx (V cpu) i
  | cell_R i => idx (R cpu) i
  | cell_memory c s => idx2 (memory cpu) c s
  end.

Definition cell_set (cpu : d17b_cpu_t) (k : cell) (v : Z) : d17b_cpu_t :=
  match k with
  | cell_U => set_U v cpu
  | cell_L => set_L v cpu
  | cell_F i => set_F (upd (F cpu) i v) cpu
  | cell_E i => set_E (upd (E cpu) i v) cpu
  | cell_H i => set_H (upd (H cpu) i v) cpu
  | cell_V i => set_V (upd (V cpu) i v) cpu
  | cell_R i => set_R (upd (R cpu) i v) cpu
  | cell_memory c s => set_memory (upd2 (memory cpu) c s v) cpu
  end.

(** A cell whose indices lie inside the array it names. *)
Definition cell_in_bounds (k : cell) : Prop :=
  match k with
  | cell_U | cell_L => True
  | cell_F i | cell_V i | cell_R i => 0 <= i < 4
  | cell_E i => 0 <= i < 8
  | cell_H i => 0 <= i < 16
  | cell_memory c s => 0 <= c < CHANNELS /\ 0 <= s < SECTORS
  end.

(** The channel numbers aliased to the rapid-access loops and to L. *)
Definition loop_channels : list Z :=
  [CHAN_U_LOOP; CHAN_L_REG; CHAN_F_LOOP; CHAN_E_LOOP; CHAN_H_LOOP;
   CHAN_V_LOOP; CHAN_R_LOOP].

(** The sizes of the array fields of a state. *)
Definition shape (cpu : d17b_cpu_t)
  : nat * nat * nat * nat * nat * list nat * nat * nat :=
  (length (F cpu), length (E cpu), length (H cpu), length (V cpu),
   length (R cpu), map length (memory cpu),
   length (voltage_out cpu), length (binary_out cpu)).

(** A non-negative integer of at most [n] bits. *)
Definition fits (n w : Z) : Prop := 0 <= w /\ Z.shiftr w n = 0.

(** The fields no instruction writes: the scratch register N, the mode
    bit and the discrete input latches. *)
Definition host_fields (cpu : d17b_cpu_t) : Z * bool * Z * Z :=
  (N cpu, d37c_mode cpu, discrete_in_a cpu, discrete_in_b cpu).

(** The sub-opcode of a special instruction word. *)
Definition special_sub_op (instr : Z) : Z :=
  Z.land (Z.shiftr (GET_SECTOR instr) 1) 0x3F.

(** The sub-opcode and the shift count of a shift instruction word. *)
Definition shift_sub_op (instr : Z) : Z :=
  Z.land (Z.shiftr (GET_SECTOR instr) 3) 0x1F.
Definition shift_count (instr : Z) : Z :=
  if Z.land (GET_SECTOR instr) 0x07 =? 0 then 8
  else Z.land (GET_SECTOR instr) 0x07.

(** The two 12-bit lanes of a word. *)
Definition lane_hi (w : Z) : Z := Z.land (Z.shiftr w 12) 0xFFF.
Definition lane_lo (w : Z) : Z := Z.land w 0xFFF.

(** The sign of a word as a factor: -1 when bit 23 is set, +1 otherwise. *)
Definition sign_factor (w : Z) : Z := if Z.testbit w 23 then -1 else 1.

(** The signed 46-bit dividend of DIV: magnitude from A and L, sign from
    A. *)
Definition signed_dividend (cpu : d17b_cpu_t) : Z :=
  sign_factor (A cpu) * (magnitude (A cpu) * 2 ^ 23 + magnitude (L cpu)).

(** * Properties *)

(** ** The scenarios of the test harness ([run_test], main.c) *)

(** 5 + 3 = 8 is stored at (0, 6) and the machine halts. *)
Example test_add_program :
  match d17b_run 1000 (load_test_program d17b_init) 1000 with
  | Some (rc, cpu) =>
      rc = -1 /\ idx2 (memory cpu) 0 6 = 8 /\ cycle_count cpu = 4
  | None => False
  end.
Proof. vm_compute. repeat split. Qed.

(** 24 / 4 = 6 remainder 0. *)
Example test_division :
  let cpu :=
    set_L 24 (set_A 0 (d17b_reset (load_test_program d17b_init))) in
  let m := upd2 (memory cpu) 0 0 (ENCODE_INSTR 0x7 0 2 0 1) in
  let m := upd2 m 0 1 4 in
  let m := upd2 m 0 2 (ENCODE_INSTR 0x8 0 3 0 18) in
  match d17b_run 100 (set_memory m cpu) 100 with
  | Some (rc, cpu) => rc = -1 /\ A cpu = 6 /\ L cpu = 0 /\ error cpu = false
  | None => False
  end.
Proof. vm_compute. repeat split. Qed.

(** ALC by one bit turns 0x800001 into 0x000003. *)
Example test_rotate :
  let cpu := set_A 0x800001 d17b_init in
  let alc := ENCODE_INSTR 0 0 1 0 (Z.lor (Z.shiftl 0x0B 3) 1) in
  let m := upd2 (memory cpu) 0 0 alc in
  A (snd (d17b_step (set_memory m cpu))) = 0x000003.
Proof. vm_compute. reflexivity. Qed.

Example test_sub : d17b_sub_24bit 5 8 = 0x800003.
Proof. reflexivity. Qed.

Example test_saturate : d17b_add_24bit 0x7FFFFF 1 = 0x7FFFFF.
Proof. reflexivity. Qed.

(** ** Bit-level facts about the sign and magnitude fields *)

Section SignMagnitude.

Lemma land_magnitude_mod (x : Z) :
  Z.land x MAGNITUDE_MASK = x mod 2 ^ 23.
Proof.
  change MAGNITUDE_MASK with (Z.ones 23).
  apply Z.land_ones. lia.
Qed.

Lemma land_magnitude_range (x : Z) :
  0 <= Z.land x MAGNITUDE_MASK <= MAGNITUDE_MASK.
Proof.
  rewrite land_magnitude_mod.
  pose proof (Z.mod_pos_bound x (2 ^ 23) ltac:(lia)) as Hb.
  unfold MAGNITUDE_MASK. lia.
Qed.

Lemma land_magnitude_small (m : Z) :
  0 <= m <= MAGNITUDE_MASK -> Z.land m MAGNITUDE_MASK = m.
Proof.
  intros Hm. rewrite land_magnitude_mod.
  apply Z.mod_small. unfold MAGNITUDE_MASK in Hm. lia.
Qed.

Lemma land_sign_bit (x : Z) :
  Z.land x SIGN_BIT = if Z.testbit x 23 then SIGN_BIT else 0.
Proof.
  change SIGN_BIT with (2 ^ 23).
  apply Z.bits_inj'. intros n Hn.
  rewrite Z.land_spec, Z.pow2_bits_eqb by lia.
  destruct (Z.eqb_spec 23 n) as [<- | Hne].
  - rewrite andb_true_r.
    destruct (Z.testbit x 23); [ | now rewrite Z.bits_0 ].
    rewrite Z.pow2_bits_eqb by lia. now rewrite Z.eqb_refl.
  - rewrite andb_false_r.
    destruct (Z.testbit x 23); [ | now rewrite Z.bits_0 ].
    rewrite Z.pow2_bits_eqb by lia.
    symmetry. now apply Z.eqb_neq.
Qed.

Lemma testbit_23_small (m : Z) :
  0 <= m <= MAGNITUDE_MASK -> Z.testbit m 23 = false.
Proof.
  intros Hm. unfold MAGNITUDE_MASK in Hm.
  destruct (Z.eq_dec m 0) as [-> | Hz]; [ apply Z.bits_0 | ].
  apply Z.bits_above_log2; [ lia | ].
  apply Z.log2_lt_pow2; lia.
Qed.

Lemma land_sign_small (m : Z) :
  0 <= m <= MAGNITUDE_MASK -> Z.land m SIGN_BIT = 0.
Proof.
  intros Hm. now rewrite land_sign_bit, testbit_23_small.
Qed.

(** Or-ing the sign bit onto a magnitude adds 2^23. *)
Lemma lor_sign_small (m : Z) :
  0 <= m <= MAGNITUDE_MASK -> Z.lor m SIGN_BIT = m + SIGN_BIT.
Proof.
  intros Hm.
  pose proof (Z.add_lor_land m SIGN_BIT) as Hadd.
  rewrite (land_sign_small m Hm) in Hadd. lia.
Qed.

Lemma land_sign_of_signed (m : Z) :
  0 <= m <= MAGNITUDE_MASK -> Z.land (m + SIGN_BIT) SIGN_BIT = SIGN_BIT.
Proof.
  intros Hm. rewrite land_sign_bit.
  replace (Z.testbit (m + SIGN_BIT) 23) with true; [ reflexivity | ].
  symmetry. apply Z.testbit_true; [ lia | ].
  unfold SIGN_BIT, MAGNITUDE_MASK in *.
  replace ((m + 0x00800000) / 2 ^ 23) with 1; [ reflexivity | ].
  apply Z.div_unique with (r := m); lia.
Qed.

Lemma land_magnitude_of_signed (m : Z) :
  0 <= m <= MAGNITUDE_MASK -> Z.land (m + SIGN_BIT) MAGNITUDE_MASK = m.
Proof.
  intros Hm. rewrite land_magnitude_mod.
  unfold SIGN_BIT, MAGNITUDE_MASK in *.
  symmetry. apply Z.mod_unique with (q := 1); lia.
Qed.

Lemma to_signed_range (x : Z) :
  - MAGNITUDE_MASK <= to_signed x <= MAGNITUDE_MASK.
Proof.
  unfold to_signed.
  pose proof (land_magnitude_range x).
  destruct (Z.land x SIGN_BIT =? 0); lia.
Qed.

Lemma to_signed_from_signed (r : Z) :
  - MAGNITUDE_MASK <= r <= MAGNITUDE_MASK -> to_signed (from_signed r) = r.
Proof.
  intros Hr. unfold to_signed, from_signed.
  destruct (Z.ltb_spec r 0) as [Hneg | Hpos].
  - rewrite (land_magnitude_small (- r)) by lia.
    rewrite (Z.lor_comm SIGN_BIT), lor_sign_small by lia.
    rewrite land_sign_of_signed, land_magnitude_of_signed by lia.
    change (SIGN_BIT =? 0) with false. cbv iota. lia.
  - rewrite (land_magnitude_small r) by lia.
    rewrite land_sign_small by lia.
    rewrite Z.eqb_refl. apply land_magnitude_small. lia.
Qed.

Lemma clamp_magnitude_range (r : Z) :
  - MAGNITUDE_MASK <= clamp_magnitude r <= MAGNITUDE_MASK.
Proof.
  unfold clamp_magnitude.
  destruct (Z.gtb_spec r MAGNITUDE_MASK);
    destruct (Z.ltb_spec r (- MAGNITUDE_MASK)); unfold MAGNITUDE_MASK in *; lia.
Qed.

Lemma clamp_magnitude_spec (r : Z) :
  clamp_magnitude r = Z.max (- MAGNITUDE_MASK) (Z.min MAGNITUDE_MASK r).
Proof.
  unfold clamp_magnitude.
  destruct (Z.gtb_spec r MAGNITUDE_MASK);
    destruct (Z.ltb_spec r (- MAGNITUDE_MASK)); unfold MAGNITUDE_MASK in *; lia.
Qed.

End SignMagnitude.

(** ** Saturating add and subtract *)

Lemma from_signed_word (r : Z) :
  - MAGNITUDE_MASK <= r <= MAGNITUDE_MASK -> 0 <= from_signed r <= WORD_MASK.
Proof.
  intros Hr. unfold from_signed.
  destruct (Z.ltb_spec r 0) as [Hneg | Hpos].
  - rewrite (land_magnitude_small (- r)) by lia.
    rewrite (Z.lor_comm SIGN_BIT), lor_sign_small by lia.
    unfold SIGN_BIT, WORD_MASK, MAGNITUDE_MASK in *. lia.
  - rewrite land_magnitude_small by lia.
    unfold WORD_MASK, MAGNITUDE_MASK in *. lia.
Qed.

(** C8. The signed reading of [d17b_add_24bit a b] and of
    [d17b_sub_24bit a b] is the exact sum, respectively difference, of the
    signed readings of [a] and [b] clamped to [-(2^23-1), 2^23-1]: it lies
    in that range, equals the nearest bound whenever the exact result is
    outside it, and the result is again a 24-bit word. *)
Theorem add_sub_saturate (a b : Z) :
  let lo := - (2 ^ 23 - 1) in
  let hi := 2 ^ 23 - 1 in
  (lo <= to_signed (d17b_add_24bit a b) <= hi /\
   to_signed (d17b_add_24bit a b)
     = Z.max lo (Z.min hi (to_signed a + to_signed b)) /\
   0 <= d17b_add_24bit a b < 2 ^ 24) /\
  (lo <= to_signed (d17b_sub_24bit a b) <= hi /\
   to_signed (d17b_sub_24bit a b)
     = Z.max lo (Z.min hi (to_signed a - to_signed b)) /\
   0 <= d17b_sub_24bit a b < 2 ^ 24).
Proof.
  intros lo hi. unfold d17b_add_24bit, d17b_sub_24bit. cbv zeta.
  split.
  - pose proof (clamp_magnitude_range (to_signed a + to_signed b)) as Hc.
    pose proof (from_signed_word _ Hc) as Hw.
    rewrite (to_signed_from_signed _ Hc).
    rewrite clamp_magnitude_spec in *.
    subst lo hi. unfold MAGNITUDE_MASK, WORD_MASK in *. lia.
  - pose proof (clamp_magnitude_range (to_signed a - to_signed b)) as Hc.
    pose proof (from_signed_word _ Hc) as Hw.
    rewrite (to_signed_from_signed _ Hc).
    rewrite clamp_magnitude_spec in *.
    subst lo hi. unfold MAGNITUDE_MASK, WORD_MASK in *. lia.
Qed.

(** ** Division *)

(** C9. When every magnitude bit of the divisor is zero (whatever its sign
    bit), [d17b_divide] only sets the error latch: the resulting state is
    the input state with [error := true], so [A], [L] and every other
    field keep their values. *)
Theorem divide_by_zero_atomic (cpu : d17b_cpu_t) (divisor : Z) :
  Z.land divisor MAGNITUDE_MASK = 0 ->
  d17b_divide cpu divisor = set_error true cpu /\
  error (d17b_divide cpu divisor) = true /\
  A (d17b_divide cpu divisor) = A cpu /\
  L (d17b_divide cpu divisor) = L cpu.
Proof.
  intros Hz. unfold d17b_divide. rewrite Hz. cbn. repeat split.
Qed.

Lemma divide_by_zero_atomic_witness :
  Z.land SIGN_BIT MAGNITUDE_MASK = 0 /\
  d17b_divide (set_L 24 (set_A 7 zero_cpu)) SIGN_BIT
    = set_error true (set_L 24 (set_A 7 zero_cpu)).
Proof.
  split; [ reflexivity | ].
  apply (divide_by_zero_atomic (set_L 24 (set_A 7 zero_cpu)) SIGN_BIT).
  reflexivity.
Defined.

Lemma testbit_above (l n k : Z) :
  0 <= l < 2 ^ n -> 0 <= n <= k -> Z.testbit l k = false.
Proof.
  intros Hl Hk.
  destruct (Z.eq_dec l 0) as [-> | Hz]; [ apply Z.bits_0 | ].
  apply Z.bits_above_log2; [ lia | ].
  apply Z.lt_le_trans with n; [ | lia ].
  apply Z.log2_lt_pow2; lia.
Qed.

Lemma lor_shiftl_disjoint (h l n : Z) :
  0 <= n -> 0 <= l < 2 ^ n -> Z.lor (Z.shiftl h n) l = h * 2 ^ n + l.
Proof.
  intros Hn Hl.
  pose proof (Z.add_lor_land (Z.shiftl h n) l) as Hadd.
  assert (Hdis : Z.land (Z.shiftl h n) l = 0).
  { apply Z.bits_inj'. intros k Hk.
    rewrite Z.land_spec, Z.bits_0.
    destruct (Z.lt_ge_cases k n) as [Hlt | Hge].
    - now rewrite Z.shiftl_spec_low.
    - rewrite (testbit_above l n k) by lia. apply andb_false_r. }
  rewrite Hdis in Hadd. rewrite Z.shiftl_mul_pow2 in * by lia. lia.
Qed.

Lemma dividend_of_sum (cpu : d17b_cpu_t) :
  dividend_of cpu = magnitude (A cpu) * 2 ^ 23 + magnitude (L cpu).
Proof.
  unfold dividend_of, magnitude, u64.
  pose proof (land_magnitude_range (A cpu)) as Ha.
  pose proof (land_magnitude_range (L cpu)) as Hl.
  set (a := Z.land (A cpu) MAGNITUDE_MASK) in *.
  set (l := Z.land (L cpu) MAGNITUDE_MASK) in *.
  unfold MAGNITUDE_MASK in Ha, Hl.
  rewrite Z.mod_small.
  - apply lor_shiftl_disjoint; lia.
  - rewrite Z.shiftl_mul_pow2 by lia. lia.
Qed.

Lemma magnitude_store (q : Z) :
  0 <= q <= MAGNITUDE_MASK -> Z.land (u32 q) MAGNITUDE_MASK = q.
Proof.
  intros Hq. unfold u32.
  rewrite Z.mod_small by (unfold MAGNITUDE_MASK in Hq; lia).
  now apply land_magnitude_small.
Qed.

Lemma magnitude_with_sign (q : Z) :
  0 <= q <= MAGNITUDE_MASK -> magnitude (Z.lor q SIGN_BIT) = q.
Proof.
  intros Hq. unfold magnitude.
  rewrite lor_sign_small by assumption.
  now apply land_magnitude_of_signed.
Qed.

(** C6. When the divisor magnitude is nonzero and the quotient magnitude
    fits in 23 bits (the two conditions under which DIV does not set the
    error latch), the magnitudes before and after [d17b_divide] satisfy
    |A_pre| * 2^23 + |L_pre| = |A_post| * |divisor| + |L_post| with
    |L_post| < |divisor|, and the error latch keeps its value. *)
Theorem divide_consistency (cpu : d17b_cpu_t) (divisor : Z) :
  magnitude divisor <> 0 ->
  (magnitude (A cpu) * 2 ^ 23 + magnitude (L cpu)) / magnitude divisor
    <= 2 ^ 23 - 1 ->
  let post := d17b_divide cpu divisor in
  magnitude (A cpu) * 2 ^ 23 + magnitude (L cpu)
    = magnitude (A post) * magnitude divisor + magnitude (L post) /\
  magnitude (L post) < magnitude divisor /\
  error post = error cpu.
Proof.
  intros Hd Hq post. subst post.
  rewrite <- dividend_of_sum in *.
  pose proof (land_magnitude_range divisor) as Hdr.
  fold (magnitude divisor) in Hdr.
  assert (H0 : 0 <= dividend_of cpu).
  { rewrite dividend_of_sum. unfold magnitude.
    pose proof (land_magnitude_range (A cpu)).
    pose proof (land_magnitude_range (L cpu)). lia. }
  unfold d17b_divide. cbv zeta.
  fold (magnitude divisor). fold (dividend_of cpu).
  set (d := magnitude divisor) in *.
  set (D := dividend_of cpu) in *.
  destruct (Z.eqb_spec d 0) as [Heq | _]; [ contradiction | ].
  pose proof (Z.div_mod D d Hd) as Hdm.
  pose proof (Z.mod_pos_bound D d ltac:(lia)) as Hr.
  assert (Hq0 : 0 <= D / d) by (apply Z.div_pos; lia).
  destruct (Z.gtb_spec (D / d) MAGNITUDE_MASK) as [Hov | _];
    [ unfold MAGNITUDE_MASK in Hov; lia | ].
  assert (HqM : 0 <= D / d <= MAGNITUDE_MASK)
    by (unfold MAGNITUDE_MASK; lia).
  assert (HrM : 0 <= D mod d <= MAGNITUDE_MASK) by lia.
  destruct (xorb _ _ && negb (D / d =? 0));
    destruct (negb (Z.land (A cpu) SIGN_BIT =? 0) && negb (D mod d =? 0));
    cbn [A L error set_A set_L];
    rewrite ?magnitude_store by assumption;
    rewrite ?magnitude_with_sign by assumption;
    unfold magnitude; rewrite ?land_magnitude_small by assumption;
    (split; [ lia | split; [ lia | reflexivity ] ]).
Qed.

Lemma divide_consistency_witness :
  magnitude 5 <> 0 /\
  magnitude (A (d17b_divide divide_input 5)) = 3355443 /\
  magnitude (L (d17b_divide divide_input 5)) = 4 /\
  magnitude (A divide_input) * 2 ^ 23 + magnitude (L divide_input)
    = magnitude (A (d17b_divide divide_input 5)) * magnitude 5
      + magnitude (L (d17b_divide divide_input 5)).
Proof.
  split; [ vm_compute; lia | ].
  split; [ reflexivity | ].
  split; [ reflexivity | ].
  apply (divide_consistency divide_input 5);
    [ vm_compute; lia | vm_compute; discriminate ].
Defined.

(** The two hypotheses of [divide_consistency] are exactly the condition
    that a division started with a clear error latch ends with it clear. *)
Lemma divide_no_error_iff (cpu : d17b_cpu_t) (divisor : Z) :
  error cpu = false ->
  error (d17b_divide cpu divisor) = false <->
  magnitude divisor <> 0 /\
  (magnitude (A cpu) * 2 ^ 23 + magnitude (L cpu)) / magnitude divisor
    <= 2 ^ 23 - 1.
Proof.
  intros He. rewrite <- dividend_of_sum.
  unfold d17b_divide. cbv zeta.
  fold (magnitude divisor). fold (dividend_of cpu).
  set (d := magnitude divisor). set (D := dividend_of cpu).
  destruct (Z.eqb_spec d 0) as [Heq | Hne].
  - cbn. split; [ discriminate | intros [Hc _]; contradiction ].
  - destruct (Z.gtb_spec (D / d) MAGNITUDE_MASK) as [Hov | Hok];
      destruct (xorb _ _ && negb (_ =? 0));
      destruct (negb (Z.land (A cpu) SIGN_BIT =? 0) && negb (D mod d =? 0));
      cbn [A L error set_A set_L set_error];
      unfold MAGNITUDE_MASK in *;
      (split; [ intros Hf; first [ discriminate | split; [ assumption | lia ] ]
              | intros [_ Hle]; first [ assumption | lia ] ]).
Qed.

(** ** Reset *)

(** C1, counterexample.  Resetting [reset_input] leaves the word 5 at
    channel 0, sector 1 of the disc, and turns D17B mode into D37C mode:
    neither "memory is zeroed" nor "the mode bit is left alone" holds. *)
Lemma reset_counterexample :
  d37c_mode reset_input = false /\
  idx2 (memory (d17b_reset reset_input)) 0 1 = 5 /\
  memory (d17b_reset reset_input) <> zero_memory /\
  d37c_mode (d17b_reset reset_input) <> d37c_mode reset_input /\
  ~ reset_clears_memory_keeps_mode.
Proof.
  assert (Hm : memory (d17b_reset reset_input) <> zero_memory)
    by (vm_compute; discriminate).
  repeat split; try reflexivity; try assumption.
  - cbn. discriminate.
  - intros Hclaim. destruct (Hclaim reset_input) as [Hc _]. contradiction.
Qed.

(** C1, as the code has it.  [d17b_reset] zeroes the registers A, L, N, I
    and P, every rapid-access loop, the disc position and cycle count, the
    I/O latches, the detector and countdown state and the halted and error
    latches; it leaves the main disc memory as it was and sets the mode
    bit to D37C. *)
Theorem reset_effect (cpu : d17b_cpu_t) :
  let r := d17b_reset cpu in
  (A r = 0 /\ L r = 0 /\ N r = 0 /\ I r = 0 /\ P r = 0) /\
  (U r = 0 /\ F r = [0; 0; 0; 0] /\ E r = replicate 8%nat 0 /\
   H r = replicate 16%nat 0 /\ V r = [0; 0; 0; 0] /\ R r = [0; 0; 0; 0]) /\
  (current_sector r = 0 /\ cycle_count r = 0) /\
  (discrete_in_a r = 0 /\ discrete_in_b r = 0 /\ discrete_out_a r = 0 /\
   voltage_out r = [0; 0; 0; 0] /\ binary_out r = [0; 0; 0; 0]) /\
  (detector r = false /\ fine_countdown r = 0 /\
   countdown_enabled r = false) /\
  (halted r = false /\ error r = false) /\
  memory r = memory cpu /\
  d37c_mode r = true.
Proof.
  cbn. repeat split.
Qed.

(** ** Flag store on ADD *)

(** C2, counterexample.  On [flag_add_input] the flagged ADD, whether
    executed directly or fetched by a step, ends with A = 3 and L = 9. *)
Lemma add_flag_store_counterexample :
  (GET_OPCODE flag_add_instr = OP_ADD /\ GET_FLAG flag_add_instr = 1 /\
   Z.land (GET_SECTOR flag_add_instr) 7 = 5) /\
  (A (d17b_exec_arithmetic flag_add_input flag_add_instr) = 3 /\
   L (d17b_exec_arithmetic flag_add_input flag_add_instr) = 9) /\
  (fetch flag_add_input = flag_add_instr /\
   A (snd (d17b_step flag_add_input)) = 3 /\
   L (snd (d17b_step flag_add_input)) = 9) /\
  ~ add_flag_store_sets_L_to_sum.
Proof.
  split; [ repeat split | ].
  split; [ split; vm_compute; reflexivity | ].
  split; [ repeat split; vm_compute; reflexivity | ].
  intros Hclaim.
  specialize (Hclaim flag_add_input flag_add_instr eq_refl eq_refl eq_refl).
  vm_compute in Hclaim. discriminate.
Qed.

Section FlagStoreFrame.

Variable cpu : d17b_cpu_t.

Lemma write_A (channel sector value : Z) :
  A (d17b_write cpu channel sector value) = A cpu.
Proof.
  unfold d17b_write. cbv zeta.
  repeat match goal with
         | |- context [if ?b then _ else _] => destruct b
         end; reflexivity.
Qed.

Lemma flag_store_A (flag_code operand_sector : Z) :
  A (d17b_flag_store cpu flag_code operand_sector) = A cpu.
Proof.
  unfold d17b_flag_store. cbv zeta.
  repeat match goal with
         | |- context [if (?x =? ?y) then _ else _] => destruct (x =? y)
         end; try reflexivity.
  apply write_A.
Qed.

End FlagStoreFrame.

(** C2, as the code has it.  For an ADD with the flag bit set, the operand
    is read and the flag store is run before the addition, so the flag
    store sees the accumulator as it was before the ADD: the state after
    the instruction is the flag-stored state with A replaced by the
    saturated sum of the old A and the operand, L after the instruction is
    the L the flag store left, and the L-register case of
    [d17b_flag_store] (flag code 0x0A, octal 12) sets L to the old A. *)
Theorem add_flag_store_order (cpu : d17b_cpu_t) (instr : Z) :
  GET_OPCODE instr = OP_ADD ->
  GET_FLAG instr = 1 ->
  let operand := d17b_read cpu (GET_CHANNEL instr) (GET_SECTOR instr) in
  let stored :=
    d17b_flag_store cpu (GET_FLAG_CODE instr) (GET_SECTOR instr) in
  let post := d17b_exec_arithmetic cpu instr in
  post = set_A (d17b_add_24bit (A cpu) operand) stored /\
  A post = d17b_add_24bit (A cpu) operand /\
  L post = L stored /\
  (forall s : Z, L (d17b_flag_store cpu 0x0A s) = A cpu) /\
  (forall s : Z, A (d17b_flag_store cpu 0x0A s) = A cpu).
Proof.
  intros Hop Hflag operand stored post.
  assert (Hpost : post = set_A (d17b_add_24bit (A cpu) operand) stored).
  { subst post. unfold d17b_exec_arithmetic. cbv zeta.
    rewrite Hop, Hflag. cbn [Z.eqb OP_ADD OP_CLA Pos.eqb].
    rewrite flag_store_A. reflexivity. }
  rewrite Hpost. repeat split.
Qed.

Lemma add_flag_store_order_witness :
  A (d17b_exec_arithmetic flag_add_input flag_add_instr)
    = d17b_add_24bit 1 2 /\
  L (d17b_exec_arithmetic flag_add_input flag_add_instr)
    = L (d17b_flag_store flag_add_input (GET_FLAG_CODE flag_add_instr) 5).
Proof.
  pose proof (add_flag_store_order flag_add_input flag_add_instr
                eq_refl eq_refl) as Hthm.
  cbv zeta in Hthm. destruct Hthm as (_ & Ha & Hl & _).
  split; [ exact Ha | exact Hl ].
Defined.

(** ** The cycle counter across one step *)

Ltac break_ifs :=
  repeat match goal with
         | |- context [if ?b then _ else _] => destruct b
         end.

Lemma write_cycle_count (cpu : d17b_cpu_t) (channel sector value : Z) :
  cycle_count (d17b_write cpu channel sector value) = cycle_count cpu.
Proof. unfold d17b_write. cbv zeta. break_ifs; reflexivity. Qed.

Lemma flag_store_cycle_count (cpu : d17b_cpu_t) (flag_code sector : Z) :
  cycle_count (d17b_flag_store cpu flag_code sector) = cycle_count cpu.
Proof.
  unfold d17b_flag_store. cbv zeta.
  repeat match goal with
         | |- context [if (?x =? ?y) then _ else _] => destruct (x =? y)
         end; try reflexivity.
  apply write_cycle_count.
Qed.

Lemma multiply_cycle_count (cpu : d17b_cpu_t) (operand : Z) (split : bool) :
  cycle_count (d17b_multiply cpu operand split) = cycle_count cpu.
Proof. unfold d17b_multiply. cbv zeta. break_ifs; reflexivity. Qed.

Lemma divide_cycle_count (cpu : d17b_cpu_t) (divisor : Z) :
  cycle_count (d17b_divide cpu divisor) = cycle_count cpu.
Proof. unfold d17b_divide. cbv zeta. break_ifs; reflexivity. Qed.

Create Rewrite HintDb cycle_frame.
#[local] Hint Rewrite write_cycle_count flag_store_cycle_count
  multiply_cycle_count divide_cycle_count : cycle_frame.

Lemma exec_arithmetic_cycle_count (cpu : d17b_cpu_t) (instr : Z) :
  cycle_count (d17b_exec_arithmetic cpu instr) = cycle_count cpu.
Proof.
  unfold d17b_exec_arithmetic. cbv zeta.
  repeat match goal with
         | |- context [if (?x =? ?y) then _ else _] => destruct (x =? y)
         | |- context [if d37c_mode ?c then _ else _] => destruct (d37c_mode c)
         end;
    cbn [cycle_count set_A]; autorewrite with cycle_frame;
    cbn [cycle_count set_A]; autorewrite with cycle_frame; reflexivity.
Qed.

Lemma exec_shift_cycle_count (cpu : d17b_cpu_t) (instr : Z) :
  cycle_count (d17b_exec_shift cpu instr) = cycle_count cpu.
Proof. unfold d17b_exec_shift. cbv zeta. break_ifs; reflexivity. Qed.

Lemma exec_control_cycle_count (cpu : d17b_cpu_t) (instr : Z) :
  cycle_count (d17b_exec_control cpu instr) = cycle_count cpu.
Proof.
  unfold d17b_exec_control. cbv zeta.
  destruct (GET_OPCODE instr =? OP_SCL); reflexivity.
Qed.

Lemma exec_special_cycle_count (cpu : d17b_cpu_t) (instr : Z) :
  cycle_count (d17b_exec_special cpu instr) = cycle_count cpu.
Proof. unfold d17b_exec_special. cbv zeta. break_ifs; reflexivity. Qed.

#[local] Hint Rewrite exec_arithmetic_cycle_count exec_shift_cycle_count
  exec_control_cycle_count exec_special_cycle_count : cycle_frame.

Lemma dispatch_cycle_count (cpu : d17b_cpu_t) (instr : Z) :
  cycle_count (fst (dispatch cpu instr)) = cycle_count cpu.
Proof.
  unfold dispatch. cbv zeta.
  break_ifs; cbn [fst cycle_count set_I];
    autorewrite with cycle_frame; reflexivity.
Qed.

Lemma advance_cycle_count (channel next_sp : Z) (cpu : d17b_cpu_t)
      (jumped : bool) :
  cycle_count (advance channel next_sp cpu jumped)
    = u64 (cycle_count cpu + 1).
Proof.
  unfold advance. cbv zeta. break_ifs; reflexivity.
Qed.

(** A step from a state that is not halted returns 0 and advances the
    cycle counter by one (modulo 2^64). *)
Lemma step_running (cpu : d17b_cpu_t) :
  halted cpu = false ->
  fst (d17b_step cpu) = 0 /\
  cycle_count (snd (d17b_step cpu)) = u64 (cycle_count cpu + 1).
Proof.
  intros Hrun. unfold d17b_step. rewrite Hrun. cbv zeta.
  match goal with
  | |- context [dispatch ?c ?i] =>
      pose proof (dispatch_cycle_count c i) as Hd;
      destruct (dispatch c i) as [c' jumped]
  end.
  cbn [fst snd] in *. split; [ reflexivity | ].
  now rewrite advance_cycle_count, Hd.
Qed.

(** A step from a halted state changes nothing and returns -1. *)
Lemma step_halted (cpu : d17b_cpu_t) :
  halted cpu = true -> d17b_step cpu = (-1, cpu).
Proof. intros Hh. unfold d17b_step. now rewrite Hh. Qed.

(** ** The run loop *)

(** C3, counterexample.  On [run_error_input] the first step latches the
    error (division by zero); a run with a budget of two cycles goes on to
    execute the CLA as its second step, ending with A = 5 after two
    cycles. *)
Lemma run_error_counterexample :
  error (steps 1 run_error_input) = true /\
  halted (steps 1 run_error_input) = false /\
  A (steps 1 run_error_input) = 0 /\
  d17b_run 2 run_error_input 2 = Some (0, steps 2 run_error_input) /\
  A (steps 2 run_error_input) = 5 /\
  cycle_count (steps 2 run_error_input) = 2 /\
  ~ run_stops_on_error.
Proof.
  assert (Herr : error (steps 1 run_error_input) = true)
    by (vm_compute; reflexivity).
  assert (Hrun : d17b_run 2 run_error_input 2
                 = Some (0, steps 2 run_error_input))
    by (vm_compute; reflexivity).
  assert (Hc0 : cycle_count (steps 0 run_error_input) = 0)
    by (vm_compute; reflexivity).
  assert (Hc1 : cycle_count (steps 1 run_error_input) = 1)
    by (vm_compute; reflexivity).
  assert (Hc2 : cycle_count (steps 2 run_error_input) = 2)
    by (vm_compute; reflexivity).
  split; [ exact Herr | ].
  split; [ vm_compute; reflexivity | ].
  split; [ vm_compute; reflexivity | ].
  split; [ exact Hrun | ].
  split; [ vm_compute; reflexivity | ].
  split; [ exact Hc2 | ].
  intros Hclaim.
  destruct (Hclaim run_error_input (steps 2 run_error_input) 2 0 2%nat
              ltac:(lia) Hrun) as (n & Heq & Hpre).
  destruct n as [ | [ | n ] ].
  - apply (f_equal cycle_count) in Heq. rewrite Hc2, Hc0 in Heq. discriminate.
  - apply (f_equal cycle_count) in Heq. rewrite Hc2, Hc1 in Heq. discriminate.
  - destruct (Hpre 1%nat ltac:(lia)) as [_ Hne].
    rewrite Herr in Hne. discriminate.
Qed.

Lemma u64_count_next (cc start : Z) (k : nat) :
  u64 (cc - start) = Z.of_nat k ->
  Z.of_nat k + 1 < 2 ^ 64 ->
  u64 (u64 (cc + 1) - start) = Z.of_nat (S k).
Proof.
  unfold u64. intros Hk Hlt.
  rewrite Zminus_mod_idemp_l.
  replace (cc + 1 - start) with ((cc - start) + 1) by lia.
  rewrite <- Zplus_mod_idemp_l, Hk.
  rewrite Z.mod_small; lia.
Qed.

(** Loop invariant of [run_loop]: after [k] iterations the counter has
    advanced by [k]; with fuel for the remaining budget the loop ends. *)
Lemma run_loop_spec (start max_cycles : Z) :
  0 <= max_cycles < 2 ^ 64 ->
  forall (fuel k : nat) (cpu : d17b_cpu_t),
    u64 (cycle_count cpu - start) = Z.of_nat k ->
    Z.of_nat k <= max_cycles ->
    (Z.to_nat max_cycles - k <= fuel)%nat ->
    exists n : nat,
      run_loop fuel start max_cycles cpu = Some (steps n cpu) /\
      Z.of_nat (k + n) <= max_cycles /\
      (forall j : nat, (j < n)%nat -> halted (steps j cpu) = false) /\
      (halted (steps n cpu) = true \/ Z.of_nat (k + n) = max_cycles).
Proof.
  intros Hmax fuel.
  induction fuel as [ | fuel IH ]; intros k cpu Hcount Hk Hfuel.
  - exists 0%nat. cbn [run_loop steps]. rewrite Hcount.
    destruct (halted cpu) eqn:Hh; cbn [negb andb].
    + repeat split; [ lia | intros j Hj; lia | now left ].
    + destruct (Z.ltb_spec (Z.of_nat k) max_cycles) as [Hlt | Hge]; [ lia | ].
      repeat split; [ lia | intros j Hj; lia | right; lia ].
  - cbn [run_loop]. rewrite Hcount.
    destruct (halted cpu) eqn:Hh; cbn [negb andb].
    + exists 0%nat. cbn [steps].
      repeat split; [ lia | intros j Hj; lia | now left ].
    + destruct (Z.ltb_spec (Z.of_nat k) max_cycles) as [Hlt | Hge].
      * destruct (step_running cpu Hh) as [Hrc Hcc].
        rewrite Hrc. change (0 <? 0) with false. cbv iota.
        destruct (IH (S k) (snd (d17b_step cpu))) as (n & Hrun & Hle & Hpre & Hend).
        { rewrite Hcc. apply u64_count_next; [ assumption | lia ]. }
        { lia. }
        { lia. }
        exists (S n). cbn [steps]. rewrite Hrun.
        repeat split.
        -- lia.
        -- intros [ | j ] Hj; cbn [steps]; [ assumption | apply Hpre; lia ].
        -- destruct Hend as [Hhalt | Hbudget]; [ now left | right; lia ].
      * exists 0%nat. cbn [steps].
        repeat split; [ lia | intros j Hj; lia | right; lia ].
Qed.

(** C3, as the code has it.  For every state and every budget
    [max_cycles] (a [uint64_t]), [d17b_run] terminates: it performs [n]
    steps, where [n] is the first index at which the halted latch is set
    or the budget is used up, and returns -1 exactly when it ends halted.
    The error latch is not part of the loop condition. *)
Theorem run_stops_on_halt_or_budget (cpu : d17b_cpu_t) (max_cycles : Z)
        (fuel : nat) :
  0 <= max_cycles < 2 ^ 64 ->
  (Z.to_nat max_cycles <= fuel)%nat ->
  exists n : nat,
    d17b_run fuel cpu max_cycles
      = Some (if halted (steps n cpu) then -1 else 0, steps n cpu) /\
    Z.of_nat n <= max_cycles /\
    (forall k : nat, (k < n)%nat -> halted (steps k cpu) = false) /\
    (halted (steps n cpu) = true \/ Z.of_nat n = max_cycles).
Proof.
  intros Hmax Hfuel.
  destruct (run_loop_spec (cycle_count cpu) max_cycles Hmax fuel 0%nat cpu)
    as (n & Hrun & Hle & Hpre & Hend).
  - now rewrite Z.sub_diag.
  - cbn. lia.
  - lia.
  - exists n. unfold d17b_run. cbv zeta. rewrite Hrun.
    repeat split; assumption.
Qed.

Lemma run_stops_on_halt_or_budget_witness :
  exists n : nat,
    d17b_run 2 run_error_input 2
      = Some (if halted (steps n run_error_input) then -1 else 0,
              steps n run_error_input) /\
    Z.of_nat n <= 2 /\
    (forall k : nat, (k < n)%nat -> halted (steps k run_error_input) = false) /\
    (halted (steps n run_error_input) = true \/ Z.of_nat n = 2).
Proof.
  apply (run_stops_on_halt_or_budget run_error_input 2 2%nat); [ lia | lia ].
Defined.

(** ** One step: the op=2 transfer and HPR *)

Lemma step_unfold (cpu : d17b_cpu_t) :
  halted cpu = false ->
  d17b_step cpu
    = (0, advance (fetch_channel cpu) (GET_SP (fetch cpu))
            (fst (dispatch cpu (fetch cpu))) (snd (dispatch cpu (fetch cpu)))).
Proof.
  intros Hrun. unfold d17b_step. rewrite Hrun. cbv zeta.
  fold (fetch_channel cpu). fold (fetch_sector cpu). fold (fetch cpu).
  now destruct (dispatch cpu (fetch cpu)).
Qed.

Lemma advance_I_jumped (channel next_sp : Z) (cpu : d17b_cpu_t) :
  I (advance channel next_sp cpu true) = I cpu.
Proof. unfold advance. cbv zeta. break_ifs; reflexivity. Qed.

Lemma advance_I_next (channel next_sp : Z) (cpu : d17b_cpu_t) :
  I (advance channel next_sp cpu false)
    = Z.lor (Z.shiftl channel 9) (Z.shiftl next_sp 2).
Proof. unfold advance. cbv zeta. break_ifs; reflexivity. Qed.

Lemma sign_test_testbit (a : Z) :
  negb (Z.land a SIGN_BIT =? 0) = Z.testbit a 23.
Proof.
  rewrite land_sign_bit. now destruct (Z.testbit a 23).
Qed.

(** The dispatch of primary opcode 2. *)
Lemma dispatch_op2 (cpu : d17b_cpu_t) (instr : Z) :
  GET_OPCODE instr = OP_TMI_TZE ->
  dispatch cpu instr
    = let target :=
        Z.lor (Z.shiftl (GET_CHANNEL instr) 9) (Z.shiftl (GET_SECTOR instr) 2)
      in
      if (if d37c_mode cpu
          then Z.land (A cpu) MAGNITUDE_MASK =? 0
          else Z.testbit (A cpu) 23)
      then (set_I target cpu, true) else (cpu, false).
Proof.
  intros Hop. unfold dispatch. cbv zeta. rewrite Hop.
  change (OP_TMI_TZE =? OP_SHIFT) with false.
  change (OP_TMI_TZE =? OP_SPECIAL) with false.
  change (OP_TMI_TZE =? OP_TRA) with false.
  change (OP_TMI_TZE =? OP_TMI_TZE) with true.
  cbv iota. rewrite sign_test_testbit.
  now destruct (d37c_mode cpu).
Qed.

(** C7. A step from a state that is not halted whose fetched instruction
    has primary opcode 2 sets I to the target (C << 9) | (S << 2) exactly
    when, in D37C mode, the magnitude bits of A are all zero and, in D17B
    mode, bit 23 of A is set; otherwise I becomes
    (fetch channel << 9) | (Sp << 2), the next-sector rule of every
    instruction that does not jump.  Both +0 and -0 jump in D37C mode. *)
Theorem step_op2_jump (cpu : d17b_cpu_t) :
  halted cpu = false ->
  GET_OPCODE (fetch cpu) = 2 ->
  let instr := fetch cpu in
  let target :=
    Z.lor (Z.shiftl (GET_CHANNEL instr) 9) (Z.shiftl (GET_SECTOR instr) 2) in
  let next :=
    Z.lor (Z.shiftl (fetch_channel cpu) 9) (Z.shiftl (GET_SP instr) 2) in
  let post := snd (d17b_step cpu) in
  (d37c_mode cpu = true ->
     (Z.land (A cpu) MAGNITUDE_MASK = 0 -> I post = target) /\
     (Z.land (A cpu) MAGNITUDE_MASK <> 0 -> I post = next) /\
     (A cpu = 0x000000 \/ A cpu = 0x800000 -> I post = target)) /\
  (d37c_mode cpu = false ->
     (Z.testbit (A cpu) 23 = true -> I post = target) /\
     (Z.testbit (A cpu) 23 = false -> I post = next)).
Proof.
  intros Hrun Hop instr target next post.
  assert (Hpost : post = advance (fetch_channel cpu) (GET_SP instr)
                           (fst (dispatch cpu instr))
                           (snd (dispatch cpu instr))).
  { subst post. now rewrite (step_unfold cpu Hrun). }
  rewrite (dispatch_op2 cpu instr Hop) in Hpost. cbv zeta in Hpost.
  fold target in Hpost.
  assert (Hzero : Z.land (A cpu) MAGNITUDE_MASK = 0 ->
                  d37c_mode cpu = true -> I post = target).
  { intros Hz Hmode. rewrite Hpost, Hmode, Hz. cbn [Z.eqb fst snd].
    now rewrite advance_I_jumped. }
  split; intros Hmode.
  - split; [ | split ].
    + intros Hz. now apply Hzero.
    + intros Hnz. rewrite Hpost, Hmode.
      destruct (Z.eqb_spec (Z.land (A cpu) MAGNITUDE_MASK) 0) as [Hz | _];
        [ contradiction | ].
      cbn [fst snd]. apply advance_I_next.
    + intros [Ha | Ha]; apply Hzero; try assumption; now rewrite Ha.
  - rewrite Hmode in Hpost. split; intros Hbit; rewrite Hbit in Hpost;
      rewrite Hpost; cbn [fst snd].
    + now rewrite advance_I_jumped.
    + apply advance_I_next.
Qed.

Lemma step_op2_jump_witness :
  I (snd (d17b_step (op2_input 0x800000 true)))
    = Z.lor (Z.shiftl 3 9) (Z.shiftl 7 2) /\
  I (snd (d17b_step (op2_input 0x800001 false)))
    = Z.lor (Z.shiftl 3 9) (Z.shiftl 7 2).
Proof.
  split.
  - pose proof (step_op2_jump (op2_input 0x800000 true) eq_refl eq_refl)
      as Hthm.
    cbv zeta in Hthm. destruct Hthm as [Hd37c _].
    destruct (Hd37c eq_refl) as (_ & _ & Hzero).
    exact (Hzero (or_intror eq_refl)).
  - pose proof (step_op2_jump (op2_input 0x800001 false) eq_refl eq_refl)
      as Hthm.
    cbv zeta in Hthm. destruct Hthm as [_ Hd17b].
    destruct (Hd17b eq_refl) as (Hminus & _).
    exact (Hminus eq_refl).
Defined.

(** Scenario 8 of the specification, on the same program. *)
Example op2_tze_vs_tmi :
  I (snd (d17b_step (op2_input 0 true))) = Z.lor (Z.shiftl 3 9) (Z.shiftl 7 2) /\
  I (snd (d17b_step (op2_input 0 false))) = Z.shiftl 4 2 /\
  I (snd (d17b_step (op2_input 0x800001 true))) = Z.shiftl 4 2 /\
  I (snd (d17b_step (op2_input 0x800001 false)))
    = Z.lor (Z.shiftl 3 9) (Z.shiftl 7 2).
Proof.
  split; [ vm_compute; reflexivity | ].
  split; [ vm_compute; reflexivity | ].
  split; vm_compute; reflexivity.
Qed.

Lemma sector_advance_mod (x : Z) : Z.land (u32 x) 0x7F = x mod 128.
Proof.
  change 0x7F with (Z.ones 7). rewrite Z.land_ones by lia.
  unfold u32. change (2 ^ 7) with 128.
  apply Z.mod_mod_divide. exists (2 ^ 25). reflexivity.
Qed.

(** The special executor on the HPR sub-opcode only sets [halted]. *)
Lemma exec_special_hpr (cpu : d17b_cpu_t) (instr : Z) :
  Z.land (Z.shiftr (GET_SECTOR instr) 1) 0x3F = 0x09 ->
  d17b_exec_special cpu instr = set_halted true cpu.
Proof.
  intros Hsub. unfold d17b_exec_special. cbv zeta. rewrite Hsub.
  reflexivity.
Qed.

(** C10. A step from a state that is not halted whose fetched instruction
    is HPR (primary opcode 8, sub-opcode 0x09) returns 0 and yields the
    input state with exactly these fields changed: [halted] is set, [I]
    becomes (fetch channel << 9) | (Sp << 2), [current_sector] advances by
    one modulo 128, [cycle_count] is incremented (as a [uint64_t]) and
    [fine_countdown] is decremented when the countdown is enabled and the
    counter is positive.  A further step is refused. *)
Theorem step_hpr (cpu : d17b_cpu_t) :
  halted cpu = false ->
  GET_OPCODE (fetch cpu) = 8 ->
  Z.land (Z.shiftr (GET_SECTOR (fetch cpu)) 1) 0x3F = 0x09 ->
  let post := snd (d17b_step cpu) in
  d17b_step cpu =
    (0,
     {| A := A cpu; L := L cpu; N := N cpu;
        I := Z.lor (Z.shiftl (fetch_channel cpu) 9)
                   (Z.shiftl (GET_SP (fetch cpu)) 2);
        P := P cpu; U := U cpu;
        F := F cpu; E := E cpu; H := H cpu; V := V cpu; R := R cpu;
        memory := memory cpu;
        current_sector := (current_sector cpu + 1) mod 128;
        cycle_count := (cycle_count cpu + 1) mod 2 ^ 64;
        halted := true; error := error cpu; d37c_mode := d37c_mode cpu;
        discrete_in_a := discrete_in_a cpu;
        discrete_in_b := discrete_in_b cpu;
        discrete_out_a := discrete_out_a cpu;
        voltage_out := voltage_out cpu; binary_out := binary_out cpu;
        detector := detector cpu;
        fine_countdown :=
          if countdown_enabled cpu && (0 <? fine_countdown cpu)
          then (fine_countdown cpu - 1) mod 2 ^ 32
          else fine_countdown cpu;
        countdown_enabled := countdown_enabled cpu |}) /\
  (0 <= cycle_count cpu < 2 ^ 64 - 1 ->
   cycle_count post = cycle_count cpu + 1) /\
  (countdown_enabled cpu = true -> 0 < fine_countdown cpu < 2 ^ 32 ->
   fine_countdown post = fine_countdown cpu - 1) /\
  (countdown_enabled cpu = false \/ fine_countdown cpu <= 0 ->
   fine_countdown post = fine_countdown cpu) /\
  d17b_step post = (-1, post).
Proof.
  intros Hrun Hop Hsub post.
  assert (Hstep : d17b_step cpu
            = (0, advance (fetch_channel cpu) (GET_SP (fetch cpu))
                    (set_halted true cpu) false)).
  { rewrite (step_unfold cpu Hrun). unfold dispatch. cbv zeta.
    rewrite Hop.
    change (8 =? OP_SHIFT) with false.
    change (8 =? OP_SPECIAL) with true. cbv iota.
    now rewrite (exec_special_hpr cpu (fetch cpu) Hsub). }
  subst post. rewrite Hstep. cbn [snd].
  unfold advance. cbv zeta.
  cbn [set_halted set_I set_current_sector set_cycle_count
         set_fine_countdown A L N I P U F E H V R memory current_sector
         cycle_count halted error d37c_mode discrete_in_a discrete_in_b
         discrete_out_a voltage_out binary_out detector fine_countdown
         countdown_enabled].
  rewrite sector_advance_mod, Z.gtb_ltb. unfold u64, u32.
  split; [ | split; [ | split; [ | split ] ] ].
  - now destruct (countdown_enabled cpu && (0 <? fine_countdown cpu)).
  - intros Hcc.
    destruct (countdown_enabled cpu && (0 <? fine_countdown cpu));
      cbn [cycle_count set_fine_countdown]; apply Z.mod_small; lia.
  - intros Hen Hfc. rewrite Hen.
    destruct (Z.ltb_spec 0 (fine_countdown cpu)) as [_ | Hle]; [ | lia ].
    cbn [andb fine_countdown set_fine_countdown]. apply Z.mod_small. lia.
  - intros [Hen | Hfc].
    + rewrite Hen. reflexivity.
    + destruct (Z.ltb_spec 0 (fine_countdown cpu)) as [Hlt | _]; [ lia | ].
      rewrite andb_false_r. reflexivity.
  - apply step_halted.
    now destruct (countdown_enabled cpu && (0 <? fine_countdown cpu)).
Qed.

Lemma step_hpr_witness :
  halted (snd (d17b_step hpr_input)) = true /\
  I (snd (d17b_step hpr_input)) = Z.shiftl 6 2 /\
  cycle_count (snd (d17b_step hpr_input)) = 1 /\
  fine_countdown (snd (d17b_step hpr_input)) = 6 /\
  A (snd (d17b_step hpr_input)) = 8.
Proof.
  pose proof (step_hpr hpr_input eq_refl eq_refl eq_refl) as Hthm.
  cbv zeta in Hthm. destruct Hthm as (Hstep & _).
  rewrite Hstep. cbn [snd halted I cycle_count fine_countdown A].
  repeat split.
Defined.

(** ** Split compare and limit (SCL) *)

Lemma i16_small (x : Z) : - 2 ^ 15 <= x < 2 ^ 15 -> i16 x = x.
Proof.
  intros Hx. unfold i16. rewrite Z.mod_small; lia.
Qed.

(** With a non-negative operand lane the limit step is the symmetric
    clamp. *)
Lemma scl_limit_nonneg (a o : Z) :
  - 2048 <= a <= 2047 -> 0 <= o <= 2047 ->
  scl_limit a o = scl_clamp_spec a o.
Proof.
  intros Ha Ho. unfold scl_limit, scl_clamp_spec. cbv zeta.
  rewrite i16_small by lia.
  destruct (Z.gtb_spec a o); destruct (Z.ltb_spec a (- o));
    try destruct (Z.ltb_spec o (- o)); lia.
Qed.

(** With a negative operand lane the limit step returns [- o] whatever
    the accumulator lane is: the first test pulls the lane down to [o],
    the second then lifts it to [- o]. *)
Lemma scl_limit_negative (a o : Z) :
  - 2048 <= a <= 2047 -> - 2048 <= o < 0 ->
  scl_limit a o = - o.
Proof.
  intros Ha Ho. unfold scl_limit. cbv zeta.
  rewrite i16_small by lia.
  destruct (Z.gtb_spec a o) as [Hgt | Hle].
  - destruct (Z.ltb_spec o (- o)); lia.
  - destruct (Z.ltb_spec a (- o)); lia.
Qed.

(** C4, the code at a negative operand lane.  With accumulator lanes
    (+3, +3) and operand lanes (-5, +5), clamping to [-5, +5] leaves both
    lanes at +3 (word 0x003003); [d17b_exec_control], and a step that
    fetches the SCL, write +5 into the high lane (word 0x005003). *)
Theorem scl_negative_lane_failure :
  GET_OPCODE scl_instr = OP_SCL /\
  d17b_read scl_input (GET_CHANNEL scl_instr) (GET_SECTOR scl_instr)
    = 0xFFB005 /\
  scl_spec (A scl_input) 0xFFB005 = 0x003003 /\
  A (d17b_exec_control scl_input scl_instr) = 0x005003 /\
  A (snd (d17b_step scl_input)) = 0x005003 /\
  scl_limit 3 (-5) = 5 /\
  scl_clamp_spec 3 (-5) = 3.
Proof.
  split; [ reflexivity | ].
  split; [ vm_compute; reflexivity | ].
  split; [ vm_compute; reflexivity | ].
  split; [ vm_compute; reflexivity | ].
  split; [ vm_compute; reflexivity | ].
  split; reflexivity.
Qed.

(** ** Split multiply (SMP) *)

(** Bits 22..14 of a word, read off its magnitude field. *)
Lemma split_magnitude_bits (w : Z) :
  Z.land (Z.shiftr (Z.land w MAGNITUDE_MASK) 14) 0x3FF
    = Z.land (Z.shiftr w 14) 0x1FF.
Proof.
  change MAGNITUDE_MASK with (Z.ones 23).
  change 0x3FF with (Z.ones 10). change 0x1FF with (Z.ones 9).
  apply Z.bits_inj'. intros n Hn.
  rewrite !Z.land_spec, !Z.shiftr_spec, Z.land_spec by lia.
  rewrite !Z.testbit_ones_nonneg by lia.
  destruct (Z.ltb_spec (n + 14) 23); destruct (Z.ltb_spec n 10);
    destruct (Z.ltb_spec n 9); try lia;
    now rewrite ?andb_true_r, ?andb_false_r.
Qed.

(** On words whose sign bits are clear [d17b_multiply] in split mode
    computes what the specification describes. *)
Lemma smp_positive_operands (cpu : d17b_cpu_t) (operand : Z) :
  Z.testbit (A cpu) 23 = false ->
  Z.testbit operand 23 = false ->
  (A (d17b_multiply cpu operand true), L (d17b_multiply cpu operand true))
    = smp_spec (A cpu) operand.
Proof.
  intros Ha Ho.
  unfold d17b_multiply, smp_spec, split_operand_spec, to_signed. cbv zeta.
  rewrite !land_sign_bit, Ha, Ho, !Z.eqb_refl, !split_magnitude_bits.
  set (p := Z.land (Z.shiftr (A cpu) 14) 0x1FF
            * Z.land (Z.shiftr operand 14) 0x1FF).
  unfold distribute_product_spec. cbv zeta.
  destruct (Z.ltb_spec p 0) as [Hneg | Hpos]; cbn [A L set_A set_L].
  - rewrite Z.abs_neq by lia. reflexivity.
  - rewrite Z.abs_eq by lia. reflexivity.
Qed.

(** C5, the code at a negative split operand.  Bits 23..14 of 0x804000
    read as the 10-bit sign-magnitude value -1 and those of 0x004000 as
    +1; their product -1 goes to A = 0x800000, L = 1.  [d17b_multiply]
    shifts the already negated magnitude and so multiplies -1023 by 1:
    it leaves A = 0x800000 and L = 0x3FF. *)
Theorem smp_negative_operand_failure :
  split_operand_spec 0x804000 = -1 /\
  split_operand_spec 0x004000 = 1 /\
  smp_spec 0x804000 0x004000 = (0x800000, 1) /\
  (A (d17b_multiply smp_input 0x004000 true) = 0x800000 /\
   L (d17b_multiply smp_input 0x004000 true) = 0x3FF) /\
  (GET_OPCODE smp_instr = OP_SMP /\
   A (d17b_exec_arithmetic smp_input smp_instr) = 0x800000 /\
   L (d17b_exec_arithmetic smp_input smp_instr) = 0x3FF) /\
  L (snd (d17b_step smp_input)) = 0x3FF.
Proof.
  split; [ reflexivity | ].
  split; [ reflexivity | ].
  split; [ reflexivity | ].
  split; [ split; vm_compute; reflexivity | ].
  split; [ split; [ reflexivity | split; vm_compute; reflexivity ] | ].
  vm_compute; reflexivity.
Qed.

(** * Further properties of the arithmetic unit *)

Lemma to_signed_sign_factor (w : Z) :
  to_signed w = sign_factor w * magnitude w.
Proof.
  unfold to_signed, sign_factor, magnitude.
  rewrite land_sign_bit.
  destruct (Z.testbit w 23); cbn [Z.eqb SIGN_BIT]; lia.
Qed.

Lemma complement_magnitude (w : Z) :
  magnitude (d17b_complement w) = magnitude w.
Proof.
  unfold magnitude, d17b_complement.
  change MAGNITUDE_MASK with (Z.ones 23). change SIGN_BIT with (2 ^ 23).
  apply Z.bits_inj'. intros n Hn.
  rewrite !Z.land_spec, Z.lxor_spec, Z.pow2_bits_eqb by lia.
  rewrite Z.testbit_ones_nonneg by lia.
  destruct (Z.ltb_spec n 23) as [Hlt | Hge].
  - destruct (Z.eqb_spec 23 n); [ lia | ]. now rewrite xorb_false_r.
  - now rewrite !andb_false_r.
Qed.

Lemma complement_testbit (w : Z) :
  Z.testbit (d17b_complement w) 23 = negb (Z.testbit w 23).
Proof.
  unfold d17b_complement. change SIGN_BIT with (2 ^ 23).
  rewrite Z.lxor_spec, Z.pow2_bits_eqb by lia.
  cbn [Z.eqb Pos.eqb]. now destruct (Z.testbit w 23).
Qed.

Lemma complement_to_signed (w : Z) :
  to_signed (d17b_complement w) = - to_signed w.
Proof.
  rewrite !to_signed_sign_factor, complement_magnitude.
  unfold sign_factor. rewrite complement_testbit.
  destruct (Z.testbit w 23); cbn [negb]; lia.
Qed.

(** X1. [d17b_complement] is an involution, and it negates the signed
    reading of every word. *)
Theorem complement_involutive_negates (w : Z) :
  d17b_complement (d17b_complement w) = w /\
  to_signed (d17b_complement w) = - to_signed w.
Proof.
  split.
  - unfold d17b_complement.
    now rewrite Z.lxor_assoc, Z.lxor_nilpotent, Z.lxor_0_r.
  - apply complement_to_signed.
Qed.

(** X2. Subtraction is addition of the complemented operand, and a word
    minus itself is positive zero. *)
Theorem sub_is_add_complement (a b : Z) :
  d17b_sub_24bit a b = d17b_add_24bit a (d17b_complement b) /\
  d17b_sub_24bit a a = 0.
Proof.
  unfold d17b_sub_24bit, d17b_add_24bit. cbv zeta. split.
  - rewrite complement_to_signed. reflexivity.
  - now rewrite Z.sub_diag.
Qed.

Lemma word24_split (w : Z) :
  word24 w -> w = (if Z.testbit w 23 then SIGN_BIT else 0) + magnitude w.
Proof.
  intros [Hlo Hhi]. unfold magnitude.
  rewrite land_magnitude_mod.
  assert (Hbit : Z.testbit w 23 = (w / 2 ^ 23 =? 1)).
  { destruct (Z.eqb_spec (w / 2 ^ 23) 1) as [H1 | H1].
    - apply Z.testbit_true; [ lia | ]. now rewrite H1.
    - apply Z.testbit_false; [ lia | ].
      assert (w / 2 ^ 23 = 0); [ | now replace (w / 2 ^ 23) with 0 ].
      Z.to_euclidean_division_equations. lia. }
  rewrite Hbit. unfold SIGN_BIT.
  destruct (Z.eqb_spec (w / 2 ^ 23) 1);
    Z.to_euclidean_division_equations; lia.
Qed.

(** X3. Re-encoding the signed reading of a 24-bit word gives the word
    back, except for negative zero 0x800000, which re-encodes as positive
    zero. *)
Theorem from_signed_to_signed (w : Z) :
  word24 w ->
  (w <> SIGN_BIT -> from_signed (to_signed w) = w) /\
  (w = SIGN_BIT -> from_signed (to_signed w) = 0).
Proof.
  intros Hw. split.
  - intros Hnz.
    pose proof (word24_split w Hw) as Hsplit.
    pose proof (land_magnitude_range w) as Hm. fold (magnitude w) in Hm.
    rewrite to_signed_sign_factor. unfold sign_factor, from_signed.
    destruct (Z.testbit w 23).
    + assert (Hpos : 0 < magnitude w) by (unfold SIGN_BIT in *; lia).
      destruct (Z.ltb_spec (-1 * magnitude w) 0) as [_ | Hge]; [ | lia ].
      replace (- (-1 * magnitude w)) with (magnitude w) by lia.
      rewrite land_magnitude_small by lia.
      rewrite Z.lor_comm, lor_sign_small by lia. lia.
    + destruct (Z.ltb_spec (1 * magnitude w) 0) as [Hlt | _]; [ lia | ].
      rewrite land_magnitude_small by lia. lia.
  - intros ->. reflexivity.
Qed.

Lemma from_signed_to_signed_witness :
  from_signed (to_signed 0x800005) = 0x800005 /\
  from_signed (to_signed SIGN_BIT) = 0.
Proof.
  split.
  - apply (from_signed_to_signed 0x800005); [ unfold word24; lia | ].
    unfold SIGN_BIT; lia.
  - apply (from_signed_to_signed SIGN_BIT); [ unfold word24, SIGN_BIT; lia | ].
    reflexivity.
Defined.

Lemma to_signed_plain (h : Z) :
  0 <= h <= MAGNITUDE_MASK ->
  to_signed h = h /\ Z.testbit h 23 = false /\ magnitude h = h /\ word24 h.
Proof.
  intros Hh. unfold to_signed, magnitude, word24.
  rewrite land_sign_small, land_magnitude_small by assumption.
  rewrite testbit_23_small by assumption.
  unfold MAGNITUDE_MASK in Hh. repeat split; lia.
Qed.

Lemma to_signed_signed (h : Z) :
  0 <= h <= MAGNITUDE_MASK ->
  to_signed (Z.lor h SIGN_BIT) = - h /\
  Z.testbit (Z.lor h SIGN_BIT) 23 = true /\
  magnitude (Z.lor h SIGN_BIT) = h /\
  word24 (Z.lor h SIGN_BIT).
Proof.
  intros Hh.
  assert (Hbit : Z.testbit (Z.lor h SIGN_BIT) 23 = true).
  { rewrite Z.lor_spec. change SIGN_BIT with (2 ^ 23).
    rewrite Z.pow2_bits_eqb by lia. apply orb_true_r. }
  unfold to_signed, word24. rewrite magnitude_with_sign by assumption.
  rewrite land_sign_bit, Hbit. fold (magnitude (Z.lor h SIGN_BIT)).
  rewrite magnitude_with_sign by assumption.
  rewrite lor_sign_small by assumption.
  unfold SIGN_BIT, MAGNITUDE_MASK in *. cbn [Z.eqb]. repeat split; lia.
Qed.

(** A magnitude below 2^46 splits into the high and low 23-bit halves
    that multiply and divide store in A and L. *)
Lemma product_split (m : Z) :
  0 <= m < 2 ^ 46 ->
  0 <= Z.land (Z.shiftr m 23) MAGNITUDE_MASK <= MAGNITUDE_MASK /\
  0 <= Z.land m MAGNITUDE_MASK <= MAGNITUDE_MASK /\
  Z.land (Z.shiftr m 23) MAGNITUDE_MASK * 2 ^ 23 + Z.land m MAGNITUDE_MASK
    = m.
Proof.
  intros Hm.
  rewrite !land_magnitude_mod, Z.shiftr_div_pow2 by lia.
  unfold MAGNITUDE_MASK.
  Z.to_euclidean_division_equations. lia.
Qed.

Lemma multiply_product (cpu : d17b_cpu_t) (operand : Z) :
  let post := d17b_multiply cpu operand false in
  sign_factor (A post) * (magnitude (A post) * 2 ^ 23 + magnitude (L post))
    = to_signed (A cpu) * to_signed operand /\
  word24 (A post) /\
  0 <= L post < 2 ^ 23.
Proof.
  intros post. subst post. unfold d17b_multiply. cbv zeta.
  pose proof (to_signed_range (A cpu)) as Ha.
  pose proof (to_signed_range operand) as Hb.
  set (p := to_signed (A cpu) * to_signed operand).
  assert (Hp : - 2 ^ 46 < p < 2 ^ 46)
    by (subst p; unfold MAGNITUDE_MASK in *; nia).
  destruct (Z.ltb_spec p 0) as [Hneg | Hpos]; cbn [A L set_A set_L].
  - destruct (product_split (- p) ltac:(lia)) as (Hhi & Hlo & Hsum).
    rewrite Z.lor_comm.
    destruct (to_signed_signed _ Hhi) as (_ & Hbit & Hmag & Hw).
    destruct (to_signed_plain _ Hlo) as (_ & _ & Hlmag & _).
    unfold sign_factor. rewrite Hbit, Hmag, Hlmag.
    unfold MAGNITUDE_MASK in *. repeat split; try lia; apply Hw.
  - destruct (product_split p ltac:(lia)) as (Hhi & Hlo & Hsum).
    destruct (to_signed_plain _ Hhi) as (_ & Hbit & Hmag & Hw).
    destruct (to_signed_plain _ Hlo) as (_ & _ & Hlmag & _).
    unfold sign_factor. rewrite Hbit, Hmag, Hlmag.
    unfold MAGNITUDE_MASK in *. repeat split; try lia; apply Hw.
Qed.

(** X4. Full multiply: the sign of A and the 46-bit magnitude held in the
    magnitude fields of A (high) and L (low) after [d17b_multiply] are the
    sign and magnitude of the product of the signed readings of A and the
    operand; L never carries a sign bit and A is a 24-bit word. *)
Theorem multiply_full_product (cpu : d17b_cpu_t) (operand : Z) :
  let post := d17b_multiply cpu operand false in
  sign_factor (A post) * (magnitude (A post) * 2 ^ 23 + magnitude (L post))
    = to_signed (A cpu) * to_signed operand /\
  word24 (A post) /\
  0 <= L post < 2 ^ 23.
Proof. exact (multiply_product cpu operand). Qed.

Lemma quot_rem_signs (D d s1 s2 : Z) :
  0 <= D -> 0 < d -> (s1 = 1 \/ s1 = -1) -> (s2 = 1 \/ s2 = -1) ->
  Z.quot (s1 * D) (s2 * d) = s1 * s2 * (D / d) /\
  Z.rem (s1 * D) (s2 * d) = s1 * (D mod d).
Proof.
  intros HD Hd [-> | ->] [-> | ->];
    rewrite ?Z.mul_1_l;
    replace (-1 * D) with (- D) by lia;
    replace (-1 * d) with (- d) by lia;
    rewrite ?Z.quot_opp_l, ?Z.quot_opp_r, ?Z.rem_opp_l, ?Z.rem_opp_r by lia;
    rewrite Z.quot_div_nonneg, Z.rem_mod_nonneg by lia; lia.
Qed.

(** X5. DIV is truncated signed division.  When the divisor magnitude is
    nonzero and the quotient fits in 23 bits, the signed reading of A
    after [d17b_divide] is the quotient, rounded toward zero, of the
    signed dividend (magnitude |A|*2^23 + |L|, sign of A) by the signed
    divisor, the signed reading of L is the remainder with the sign of
    the dividend, and neither A nor L is left as negative zero. *)
Theorem divide_truncates (cpu : d17b_cpu_t) (divisor : Z) :
  magnitude divisor <> 0 ->
  (magnitude (A cpu) * 2 ^ 23 + magnitude (L cpu)) / magnitude divisor
    <= 2 ^ 23 - 1 ->
  let post := d17b_divide cpu divisor in
  to_signed (A post) = Z.quot (signed_dividend cpu) (to_signed divisor) /\
  to_signed (L post) = Z.rem (signed_dividend cpu) (to_signed divisor) /\
  A post <> SIGN_BIT /\ L post <> SIGN_BIT /\
  word24 (A post) /\ word24 (L post).
Proof.
  intros Hd Hq post. subst post.
  unfold signed_dividend. rewrite (to_signed_sign_factor divisor).
  rewrite <- dividend_of_sum in *.
  pose proof (land_magnitude_range divisor) as Hdr.
  fold (magnitude divisor) in Hdr.
  assert (H0 : 0 <= dividend_of cpu).
  { rewrite dividend_of_sum. unfold magnitude.
    pose proof (land_magnitude_range (A cpu)).
    pose proof (land_magnitude_range (L cpu)). lia. }
  unfold d17b_divide. cbv zeta.
  rewrite !sign_test_testbit.
  fold (magnitude divisor). fold (dividend_of cpu).
  set (d := magnitude divisor) in *.
  set (D := dividend_of cpu) in *.
  destruct (Z.eqb_spec d 0) as [Heq | _]; [ contradiction | ].
  pose proof (Z.mod_pos_bound D d ltac:(lia)) as Hr.
  assert (Hq0 : 0 <= D / d) by (apply Z.div_pos; lia).
  destruct (Z.gtb_spec (D / d) MAGNITUDE_MASK) as [Hov | _];
    [ unfold MAGNITUDE_MASK in Hov; lia | ].
  assert (HqM : 0 <= D / d <= MAGNITUDE_MASK)
    by (unfold MAGNITUDE_MASK; lia).
  assert (HrM : 0 <= D mod d <= MAGNITUDE_MASK) by lia.
  assert (Hsa : sign_factor (A cpu) = 1 \/ sign_factor (A cpu) = -1)
    by (unfold sign_factor; destruct (Z.testbit (A cpu) 23); auto).
  assert (Hsd : sign_factor divisor = 1 \/ sign_factor divisor = -1)
    by (unfold sign_factor; destruct (Z.testbit divisor 23); auto).
  destruct (quot_rem_signs D d _ _ H0 ltac:(lia) Hsa Hsd) as [Hquot Hrem].
  rewrite Hquot, Hrem. unfold sign_factor.
  destruct (to_signed_plain _ HqM) as (Hq1 & _ & _ & Hq2).
  destruct (to_signed_signed _ HqM) as (Hq3 & _ & _ & Hq4).
  destruct (to_signed_plain _ HrM) as (Hr1 & _ & _ & Hr2).
  destruct (to_signed_signed _ HrM) as (Hr3 & _ & _ & Hr4).
  pose proof (lor_sign_small _ HqM) as Hq5.
  pose proof (lor_sign_small _ HrM) as Hr5.
  destruct (Z.testbit (A cpu) 23); destruct (Z.testbit divisor 23);
    destruct (Z.eqb_spec (D / d) 0) as [Hqz | Hqz];
    destruct (Z.eqb_spec (D mod d) 0) as [Hrz | Hrz];
    cbn [xorb andb negb A L set_A set_L];
    rewrite ?magnitude_store by assumption;
    rewrite ?Hq1, ?Hq3, ?Hr1, ?Hr3;
    unfold SIGN_BIT, MAGNITUDE_MASK in *;
    (repeat split; try lia; try apply Hq2; try apply Hq4;
     try apply Hr2; try apply Hr4).
Qed.

Lemma divide_truncates_witness :
  to_signed (A (d17b_divide divide_input 5)) = Z.quot (-16777219) 5 /\
  to_signed (L (d17b_divide divide_input 5)) = Z.rem (-16777219) 5.
Proof.
  pose proof (divide_truncates divide_input 5) as Hthm.
  destruct Hthm as (Hq & Hr & _);
    [ vm_compute; lia | vm_compute; discriminate | ].
  split; [ exact Hq | exact Hr ].
Defined.

(** X6. A division started with a clear error latch ends with it clear
    exactly when the divisor magnitude exceeds the magnitude of A (the
    validity condition stated in the source); otherwise the latch is set,
    and when the divisor is nonzero the quotient magnitude written to A
    is saturated at 2^23-1. *)
Theorem divide_valid_iff (cpu : d17b_cpu_t) (divisor : Z) :
  error cpu = false ->
  (error (d17b_divide cpu divisor) = false <->
   magnitude (A cpu) < magnitude divisor) /\
  (magnitude divisor <> 0 -> magnitude divisor <= magnitude (A cpu) ->
   magnitude (A (d17b_divide cpu divisor)) = 2 ^ 23 - 1).
Proof.
  intros He.
  pose proof (land_magnitude_range (A cpu)) as Ha.
  pose proof (land_magnitude_range (L cpu)) as Hl.
  pose proof (land_magnitude_range divisor) as Hd.
  fold (magnitude (A cpu)) in Ha. fold (magnitude (L cpu)) in Hl.
  fold (magnitude divisor) in Hd. unfold MAGNITUDE_MASK in Ha, Hl, Hd.
  split.
  - rewrite (divide_no_error_iff cpu divisor He).
    set (a := magnitude (A cpu)) in *. set (l := magnitude (L cpu)) in *.
    set (d := magnitude divisor) in *.
    split.
    + intros [Hnz Hq]. Z.to_euclidean_division_equations. nia.
    + intros Hlt. split; [ lia | ].
      Z.to_euclidean_division_equations. nia.
  - intros Hnz Hle.
    unfold d17b_divide. cbv zeta.
    fold (magnitude divisor). fold (dividend_of cpu).
    rewrite dividend_of_sum.
    set (a := magnitude (A cpu)) in *. set (l := magnitude (L cpu)) in *.
    set (d := magnitude divisor) in *.
    destruct (Z.eqb_spec d 0) as [Heq | _]; [ contradiction | ].
    destruct (Z.gtb_spec ((a * 2 ^ 23 + l) / d) MAGNITUDE_MASK)
      as [_ | Hno].
    + assert (HM : 0 <= MAGNITUDE_MASK <= MAGNITUDE_MASK)
        by (unfold MAGNITUDE_MASK; lia).
      destruct (xorb _ _ && negb (MAGNITUDE_MASK =? 0));
        destruct (_ && negb ((a * 2 ^ 23 + l) mod d =? 0));
        cbn [A L set_A set_L set_error];
        rewrite ?magnitude_store by assumption;
        rewrite ?magnitude_with_sign by assumption;
        unfold magnitude; rewrite ?land_magnitude_small by assumption;
        reflexivity.
    + exfalso. unfold MAGNITUDE_MASK in Hno.
      Z.to_euclidean_division_equations. nia.
Qed.

Lemma divide_valid_iff_witness :
  error (d17b_divide divide_input 5) = false /\
  magnitude (A (d17b_divide divide_input 2)) = 2 ^ 23 - 1.
Proof.
  destruct (divide_valid_iff divide_input 5 eq_refl) as [Hiff _].
  destruct (divide_valid_iff divide_input 2 eq_refl) as [_ Hsat].
  split.
  - apply Hiff. vm_compute. reflexivity.
  - apply Hsat; vm_compute; discriminate.
Defined.

(** * The memory model *)

Lemma read_cell (cpu : d17b_cpu_t) (channel sector : Z) :
  d17b_read cpu channel sector
    = match cell_of channel sector with
      | Some k => cell_get cpu k
      | None => 0
      end.
Proof.
  unfold d17b_read, cell_of.
  repeat match goal with
         | |- context [if (?x =? ?y) then _ else _] => destruct (x =? y)
         end; try reflexivity.
  now destruct ((channel <? CHANNELS) && (sector <? SECTORS)).
Qed.

Lemma write_cell (cpu : d17b_cpu_t) (channel sector value : Z) :
  d17b_write cpu channel sector value
    = match cell_of channel sector with
      | Some k => cell_set cpu k (Z.land value WORD_MASK)
      | None => cpu
      end.
Proof.
  unfold d17b_write, cell_of. cbv zeta.
  repeat match goal with
         | |- context [if (?x =? ?y) then _ else _] => destruct (x =? y)
         end; try reflexivity.
  now destruct ((channel <? CHANNELS) && (sector <? SECTORS)).
Qed.

Lemma land_ones_range (x n : Z) :
  0 <= n -> 0 <= Z.land x (Z.ones n) < 2 ^ n.
Proof.
  intros Hn. rewrite Z.land_ones by assumption.
  apply Z.mod_pos_bound. apply Z.pow_pos_nonneg; lia.
Qed.

Lemma cell_of_in_bounds (channel sector : Z) (k : cell) :
  0 <= channel -> 0 <= sector ->
  cell_of channel sector = Some k -> cell_in_bounds k.
Proof.
  intros Hc Hs. unfold cell_of.
  pose proof (land_ones_range sector 2 ltac:(lia)) as H4.
  pose proof (land_ones_range sector 3 ltac:(lia)) as H8.
  pose proof (land_ones_range sector 4 ltac:(lia)) as H16.
  change (Z.ones 2) with 0x03 in H4. change (Z.ones 3) with 0x07 in H8.
  change (Z.ones 4) with 0x0F in H16.
  repeat match goal with
         | |- context [if (?x =? ?y) then _ else _] => destruct (x =? y)
         end;
    try (intros [= <-]; cbn [cell_in_bounds]; first [ exact Logic.I | lia ]).
  destruct (Z.ltb_spec channel CHANNELS); destruct (Z.ltb_spec sector SECTORS);
    cbn [andb]; intros [= <-]; cbn [cell_in_bounds]; lia.
Qed.

Lemma idx_upd_eq (l : list Z) (i v : Z) :
  (Z.to_nat i < length l)%nat -> idx (upd l i v) i = v.
Proof.
  intros Hi. unfold idx, upd. now rewrite list_lookup_insert_eq.
Qed.

Lemma idx_upd_ne (l : list Z) (i j v : Z) :
  0 <= i -> 0 <= j -> i <> j -> idx (upd l i v) j = idx l j.
Proof.
  intros Hi Hj Hne. unfold idx, upd.
  rewrite list_lookup_insert_ne; [ reflexivity | lia ].
Qed.

Lemma idx2_upd2_eq (m : list (list Z)) (c s v : Z) :
  (Z.to_nat c < length m)%nat ->
  Forall (fun row : list Z => length row = Z.to_nat SECTORS) m ->
  0 <= s < SECTORS ->
  idx2 (upd2 m c s v) c s = v.
Proof.
  intros Hc Hrows Hs. unfold idx2, upd2.
  rewrite list_lookup_alter_eq.
  destruct (lookup_lt_is_Some_2 m (Z.to_nat c) Hc) as [row Hrow].
  rewrite Hrow. cbn [fmap option_fmap option_map default].
  apply idx_upd_eq.
  rewrite (Forall_lookup_1 _ _ _ _ Hrows Hrow). lia.
Qed.

Lemma idx2_upd2_ne (m : list (list Z)) (c s c' s' v : Z) :
  0 <= c -> 0 <= s -> 0 <= c' -> 0 <= s' ->
  c <> c' \/ s <> s' ->
  idx2 (upd2 m c s v) c' s' = idx2 m c' s'.
Proof.
  intros Hc Hs Hc' Hs' Hne. unfold idx2, upd2.
  destruct (Z.eq_dec c c') as [<- | Hcc].
  - rewrite list_lookup_alter_eq.
    destruct (m !! Z.to_nat c) as [row | ];
      cbn [fmap option_fmap option_map default]; [ | reflexivity ].
    apply idx_upd_ne; lia.
  - rewrite list_lookup_alter_ne by lia. reflexivity.
Qed.

Lemma cell_get_set_eq (cpu : d17b_cpu_t) (k : cell) (v : Z) :
  wf_cpu cpu -> cell_in_bounds k -> cell_get (cell_set cpu k v) k = v.
Proof.
  intros (HF & HE & HH & HV & HR & Hm & Hrows & _) Hk.
  destruct k; cbn [cell_in_bounds] in Hk;
    cbn [cell_get cell_set U L F E H V R memory set_U set_L set_F set_E
           set_H set_V set_R set_memory];
    try reflexivity;
    try (apply idx_upd_eq;
         unfold F_LOOP_SIZE, E_LOOP_SIZE, H_LOOP_SIZE, V_LOOP_SIZE,
           R_LOOP_SIZE in *; lia).
  apply idx2_upd2_eq; [ | assumption | lia ].
  unfold CHANNELS in *. lia.
Qed.

Lemma cell_get_set_ne (cpu : d17b_cpu_t) (k k' : cell) (v : Z) :
  cell_in_bounds k -> cell_in_bounds k' -> k <> k' ->
  cell_get (cell_set cpu k v) k' = cell_get cpu k'.
Proof.
  intros Hk Hk' Hne.
  destruct k, k'; cbn [cell_in_bounds] in Hk, Hk';
    cbn [cell_get cell_set U L F E H V R memory set_U set_L set_F set_E
           set_H set_V set_R set_memory];
    try reflexivity; try congruence;
    try (apply idx_upd_ne; [ lia | lia | congruence ]).
  apply idx2_upd2_ne; try lia.
  destruct (Z.eq_dec channel channel0) as [-> | ]; [ | now left ].
  right. congruence.
Qed.

(** X7. Read after write.  In a state whose arrays have their declared
    sizes, reading any address that selects the cell just written (the
    same address, or for a loop channel any sector with the same index
    modulo the loop size) returns the written value masked to 24 bits. *)
Theorem read_after_write (cpu : d17b_cpu_t) (k : cell)
        (channel sector channel' sector' value : Z) :
  wf_cpu cpu ->
  0 <= channel -> 0 <= sector -> 0 <= channel' -> 0 <= sector' ->
  cell_of channel sector = Some k ->
  cell_of channel' sector' = Some k ->
  d17b_read (d17b_write cpu channel sector value) channel' sector'
    = Z.land value WORD_MASK.
Proof.
  intros Hwf Hc Hs Hc' Hs' Hk Hk'.
  rewrite read_cell, write_cell, Hk, Hk'.
  apply cell_get_set_eq; [ assumption | ].
  exact (cell_of_in_bounds channel sector k Hc Hs Hk).
Qed.

(** X8. A write leaves every other cell alone: reading an address that
    selects a different cell than the one written, or no cell at all,
    returns what it returned before the write. *)
Theorem read_other_after_write (cpu : d17b_cpu_t)
        (channel sector channel' sector' value : Z) :
  0 <= channel -> 0 <= sector -> 0 <= channel' -> 0 <= sector' ->
  cell_of channel' sector' <> cell_of channel sector ->
  d17b_read (d17b_write cpu channel sector value) channel' sector'
    = d17b_read cpu channel' sector'.
Proof.
  intros Hc Hs Hc' Hs' Hne.
  rewrite !read_cell, write_cell.
  destruct (cell_of channel sector) as [k | ] eqn:Hk; [ | reflexivity ].
  destruct (cell_of channel' sector') as [k' | ] eqn:Hk'; [ | reflexivity ].
  apply cell_get_set_ne.
  - exact (cell_of_in_bounds channel sector k Hc Hs Hk).
  - exact (cell_of_in_bounds channel' sector' k' Hc' Hs' Hk').
  - congruence.
Qed.

(** X9. An address whose channel is not one of the seven aliased
    channels and which lies outside the 47 x 128 grid (channel 47 or
    above, or sector 128 or above) reads as zero, and a write to it
    changes nothing. *)
Theorem unmapped_address (cpu : d17b_cpu_t) (channel sector value : Z) :
  ~ In channel loop_channels ->
  CHANNELS <= channel \/ SECTORS <= sector ->
  d17b_read cpu channel sector = 0 /\
  d17b_write cpu channel sector value = cpu.
Proof.
  intros Hloop Hout.
  assert (Hnone : cell_of channel sector = None).
  { unfold cell_of.
    repeat match goal with
           | |- context [if (?x =? ?y) then _ else _] =>
               destruct (Z.eqb_spec x y) as [-> | ?]
           end;
      try (exfalso; apply Hloop; unfold loop_channels; cbn [In]; tauto).
    destruct (Z.ltb_spec channel CHANNELS);
      destruct (Z.ltb_spec sector SECTORS); cbn [andb];
      first [ reflexivity | lia ]. }
  now rewrite read_cell, write_cell, Hnone.
Qed.

Lemma read_other_after_write_witness :
  d17b_read (d17b_write d17b_init CHAN_F_LOOP 1 0x1234567) CHAN_F_LOOP 2
    = d17b_read d17b_init CHAN_F_LOOP 2.
Proof.
  apply (read_other_after_write d17b_init CHAN_F_LOOP 1 CHAN_F_LOOP 2
           0x1234567);
    first [ unfold CHAN_F_LOOP; lia | vm_compute; discriminate ].
Defined.

Lemma unmapped_address_witness :
  d17b_read d17b_init 50 3 = 0 /\ d17b_write d17b_init 50 3 9 = d17b_init.
Proof.
  apply (unmapped_address d17b_init 50 3 9).
  - unfold loop_channels, CHAN_U_LOOP, CHAN_L_REG, CHAN_F_LOOP, CHAN_E_LOOP,
      CHAN_H_LOOP, CHAN_V_LOOP, CHAN_R_LOOP. cbn [In]. lia.
  - left. unfold CHANNELS. lia.
Defined.

(** * Invariants of the state *)

(** ** Values of bounded width *)

Lemma fits_iff (n w : Z) : 0 <= n -> fits n w <-> 0 <= w < 2 ^ n.
Proof.
  intros Hn. unfold fits. rewrite Z.shiftr_div_pow2 by assumption.
  assert (0 < 2 ^ n) by (apply Z.pow_pos_nonneg; lia).
  split.
  - intros [Hw Hz]. split; [ assumption | ].
    Z.to_euclidean_division_equations. nia.
  - intros Hw. split; [ lia | ]. apply Z.div_small. assumption.
Qed.

Lemma word24_fits (w : Z) : word24 w <-> fits 24 w.
Proof. unfold word24. symmetry. apply fits_iff. lia. Qed.

Lemma fits_mono (n m w : Z) : 0 <= n <= m -> fits n w -> fits m w.
Proof.
  intros Hnm Hw. apply fits_iff in Hw; [ | lia ]. apply fits_iff; [ lia | ].
  assert (2 ^ n <= 2 ^ m) by (apply Z.pow_le_mono_r; lia). lia.
Qed.

Lemma fits_land_ones (n x : Z) : 0 <= n -> fits n (Z.land x (Z.ones n)).
Proof.
  intros Hn. apply fits_iff; [ assumption | ]. now apply land_ones_range.
Qed.

Lemma fits_land_l (n a b : Z) : fits n a -> fits n (Z.land a b).
Proof.
  intros [Ha Hz]. split.
  - apply Z.land_nonneg. now left.
  - now rewrite Z.shiftr_land, Hz.
Qed.

Lemma fits_land_r (n a b : Z) : fits n b -> fits n (Z.land a b).
Proof. rewrite Z.land_comm. apply fits_land_l. Qed.

Lemma fits_lor (n a b : Z) : fits n a -> fits n b -> fits n (Z.lor a b).
Proof.
  intros [Ha Hza] [Hb Hzb]. split.
  - now apply Z.lor_nonneg.
  - now rewrite Z.shiftr_lor, Hza, Hzb.
Qed.

Lemma fits_lxor (n a b : Z) : fits n a -> fits n b -> fits n (Z.lxor a b).
Proof.
  intros [Ha Hza] [Hb Hzb]. split.
  - apply Z.lxor_nonneg. tauto.
  - now rewrite Z.shiftr_lxor, Hza, Hzb.
Qed.

Lemma fits_shiftr (n a k : Z) : 0 <= n -> 0 <= k -> fits n a -> fits n (Z.shiftr a k).
Proof.
  intros Hn Hk [Ha Hz]. split.
  - now apply Z.shiftr_nonneg.
  - rewrite Z.shiftr_shiftr by assumption.
    rewrite Z.add_comm, <- Z.shiftr_shiftr by assumption.
    rewrite Hz. apply Z.shiftr_0_l.
Qed.

Lemma fits_shiftl (n a k : Z) :
  0 <= n -> 0 <= k -> fits n a -> fits (n + k) (Z.shiftl a k).
Proof.
  intros Hn Hk [Ha Hz]. split.
  - now apply Z.shiftl_nonneg.
  - rewrite Z.shiftr_shiftl_r by assumption.
    now replace (n + k - k) with n by lia.
Qed.

(** Two 12-bit lanes packed into a word. *)
Lemma word24_lanes (h l : Z) :
  fits 12 h -> fits 12 l -> word24 (Z.lor (Z.shiftl h 12) l).
Proof.
  intros Hh Hl. apply word24_fits. apply fits_lor.
  - apply (fits_shiftl 12 h 12); [ lia | lia | assumption ].
  - apply (fits_mono 12); [ lia | assumption ].
Qed.

Lemma fits_lane (x : Z) : fits 12 (Z.land x 0xFFF).
Proof. apply (fits_land_ones 12). lia. Qed.

Lemma word24_land_mask (x : Z) : word24 (Z.land x WORD_MASK).
Proof. apply word24_fits. apply (fits_land_ones 24). lia. Qed.

Lemma word24_magnitude (x : Z) : word24 (Z.land x MAGNITUDE_MASK).
Proof.
  apply word24_fits. apply (fits_mono 23); [ lia | ].
  apply (fits_land_ones 23). lia.
Qed.

Lemma word24_sign_or (x : Z) : word24 x -> word24 (Z.lor x SIGN_BIT).
Proof.
  intros Hx. apply word24_fits. apply fits_lor; [ now apply word24_fits | ].
  apply fits_iff; [ lia | ]. unfold SIGN_BIT. lia.
Qed.

Lemma word24_u32 (x : Z) : word24 x -> word24 (u32 x).
Proof.
  intros Hx. unfold u32. rewrite Z.mod_small; [ assumption | ].
  unfold word24 in Hx. lia.
Qed.

Lemma word24_from_signed_clamp (r : Z) :
  word24 (from_signed (clamp_magnitude r)).
Proof.
  pose proof (from_signed_word _ (clamp_magnitude_range r)) as Hw.
  unfold word24, WORD_MASK in *. lia.
Qed.

Lemma word24_add (a b : Z) : word24 (d17b_add_24bit a b).
Proof. apply word24_from_signed_clamp. Qed.

Lemma word24_sub (a b : Z) : word24 (d17b_sub_24bit a b).
Proof. apply word24_from_signed_clamp. Qed.

(** ** Every stored word has 24 bits *)

Ltac words24_fields :=
  unfold words24 in *;
  cbn [A L U F E H V R memory discrete_in_a discrete_in_b
       set_A set_L set_N set_I set_P set_U set_F set_E set_H set_V set_R
       set_memory set_current_sector set_cycle_count set_halted set_error
       set_d37c_mode set_discrete_in_a set_discrete_in_b set_discrete_out_a
       set_voltage_out set_binary_out set_detector set_fine_countdown
       set_countdown_enabled] in *.

Ltac split_conj :=
  repeat match goal with
         | |- _ /\ _ => split
         end.

Lemma word24_zero : word24 0.
Proof. unfold word24. lia. Qed.

Lemma word24_idx (l : list Z) (i : Z) : Forall word24 l -> word24 (idx l i).
Proof.
  intros Hl. unfold idx.
  destruct (l !! Z.to_nat i) as [x | ] eqn:Hx; cbn [default].
  - exact (Forall_lookup_1 _ _ _ _ Hl Hx).
  - apply word24_zero.
Qed.

Lemma Forall_word24_upd (l : list Z) (i v : Z) :
  Forall word24 l -> word24 v -> Forall word24 (upd l i v).
Proof. intros Hl Hv. unfold upd. now apply Forall_insert. Qed.

Lemma word24_idx2 (m : list (list Z)) (c s : Z) :
  Forall (Forall word24) m -> word24 (idx2 m c s).
Proof.
  intros Hm. unfold idx2. apply word24_idx.
  destruct (m !! Z.to_nat c) as [row | ] eqn:Hrow; cbn [default].
  - exact (Forall_lookup_1 _ _ _ _ Hm Hrow).
  - constructor.
Qed.

Lemma Forall_word24_upd2 (m : list (list Z)) (c s v : Z) :
  Forall (Forall word24) m -> word24 v ->
  Forall (Forall word24) (upd2 m c s v).
Proof.
  intros Hm Hv. unfold upd2. apply Forall_alter; [ assumption | ].
  intros row _ Hrow. now apply Forall_word24_upd.
Qed.

Create HintDb word24.
#[local] Hint Resolve word24_zero word24_idx word24_idx2 Forall_word24_upd
  Forall_word24_upd2 word24_land_mask word24_magnitude word24_sign_or
  word24_u32 word24_add word24_sub word24_lanes fits_lane : word24.

Lemma read_word24 (cpu : d17b_cpu_t) (channel sector : Z) :
  words24 cpu -> word24 (d17b_read cpu channel sector).
Proof.
  intros Hw. rewrite read_cell.
  destruct (cell_of channel sector) as [k | ]; [ | apply word24_zero ].
  words24_fields. destruct Hw as (? & ? & ? & ? & ? & ? & ? & ? & ? & ? & ?).
  destruct k; cbn [cell_get]; auto with word24.
Qed.

Lemma write_words24 (cpu : d17b_cpu_t) (channel sector value : Z) :
  words24 cpu -> words24 (d17b_write cpu channel sector value).
Proof.
  intros Hw. rewrite write_cell.
  destruct (cell_of channel sector) as [k | ]; [ | assumption ].
  destruct k; cbn [cell_set]; words24_fields;
    destruct Hw as (? & ? & ? & ? & ? & ? & ? & ? & ? & ? & ?);
    split_conj; auto with word24.
Qed.

Lemma flag_store_words24 (cpu : d17b_cpu_t) (flag_code sector : Z) :
  words24 cpu -> words24 (d17b_flag_store cpu flag_code sector).
Proof.
  intros Hw. unfold d17b_flag_store. cbv zeta.
  repeat match goal with
         | |- context [if (?x =? ?y) then _ else _] => destruct (x =? y)
         end;
    try assumption; try (now apply write_words24);
    words24_fields;
    destruct Hw as (? & ? & ? & ? & ? & ? & ? & ? & ? & ? & ?);
    split_conj; auto with word24.
Qed.

Lemma multiply_words24 (cpu : d17b_cpu_t) (operand : Z) (split : bool) :
  words24 cpu -> words24 (d17b_multiply cpu operand split).
Proof.
  intros Hw. unfold d17b_multiply. cbv zeta.
  match goal with
  | |- context [if ?p <? 0 then _ else _] => destruct (p <? 0)
  end;
    words24_fields;
    destruct Hw as (? & ? & ? & ? & ? & ? & ? & ? & ? & ? & ?);
    split_conj; auto with word24.
  rewrite Z.lor_comm. auto with word24.
Qed.

Lemma divide_words24 (cpu : d17b_cpu_t) (divisor : Z) :
  words24 cpu -> words24 (d17b_divide cpu divisor).
Proof.
  intros Hw. unfold d17b_divide. cbv zeta.
  break_ifs; words24_fields;
    destruct Hw as (? & ? & ? & ? & ? & ? & ? & ? & ? & ? & ?);
    split_conj; auto with word24.
Qed.

Lemma word24_shiftr (a k : Z) : 0 <= k -> word24 a -> word24 (Z.shiftr a k).
Proof.
  intros Hk Ha. apply word24_fits. apply fits_shiftr; [ lia | lia | ].
  now apply word24_fits.
Qed.

Lemma fits_lane_shiftr (a k : Z) :
  0 <= k -> fits 12 a -> fits 12 (Z.shiftr a k).
Proof. intros Hk Ha. apply fits_shiftr; [ lia | lia | assumption ]. Qed.

Lemma word24_lor (a b : Z) : word24 a -> word24 b -> word24 (Z.lor a b).
Proof.
  intros Ha Hb. apply word24_fits. apply fits_lor; now apply word24_fits.
Qed.

Lemma word24_land_l (a b : Z) : word24 a -> word24 (Z.land a b).
Proof.
  intros Ha. apply word24_fits. apply fits_land_l. now apply word24_fits.
Qed.

Lemma word24_of_lane (a : Z) : fits 12 a -> word24 a.
Proof.
  intros Ha. apply word24_fits. apply (fits_mono 12); [ lia | assumption ].
Qed.

Lemma word24_sign_or_l (x : Z) : word24 x -> word24 (Z.lor SIGN_BIT x).
Proof. intros Hx. rewrite Z.lor_comm. now apply word24_sign_or. Qed.

Lemma word24_complement (x : Z) : word24 x -> word24 (d17b_complement x).
Proof.
  intros Hx. unfold d17b_complement. apply word24_fits. apply fits_lxor.
  - now apply word24_fits.
  - apply fits_iff; [ lia | ]. unfold SIGN_BIT. lia.
Qed.

#[local] Hint Resolve word24_shiftr fits_lane_shiftr word24_lor word24_land_l
  word24_of_lane word24_sign_or_l word24_complement read_word24
  write_words24 flag_store_words24 multiply_words24 divide_words24 : word24.

Lemma set_A_words24 (v : Z) (cpu : d17b_cpu_t) :
  word24 v -> words24 cpu -> words24 (set_A v cpu).
Proof.
  intros Hv Hw. words24_fields.
  destruct Hw as (? & ? & ? & ? & ? & ? & ? & ? & ? & ? & ?).
  split_conj; assumption.
Qed.

#[local] Hint Resolve set_A_words24 : word24.

Lemma exec_arithmetic_words24 (cpu : d17b_cpu_t) (instr : Z) :
  words24 cpu -> words24 (d17b_exec_arithmetic cpu instr).
Proof.
  intros Hw. unfold d17b_exec_arithmetic. cbv zeta.
  assert (Hop : word24 (d17b_read cpu (GET_CHANNEL instr) (GET_SECTOR instr)))
    by auto with word24.
  set (operand := d17b_read cpu (GET_CHANNEL instr) (GET_SECTOR instr)) in *.
  assert (Hw1 : words24 (if GET_FLAG instr =? 0 then cpu
                         else d17b_flag_store cpu (GET_FLAG_CODE instr)
                                (GET_SECTOR instr)))
    by (destruct (GET_FLAG instr =? 0); auto with word24).
  set (cpu1 := if GET_FLAG instr =? 0 then cpu else _) in *.
  clearbody cpu1 operand.
  assert (HA : word24 (A cpu1)) by (destruct Hw1 as [HA _]; exact HA).
  repeat match goal with
         | |- context [if (?x =? ?y) then _ else _] => destruct (x =? y)
         end;
    try destruct (d37c_mode cpu1); auto 6 with word24.
Qed.

Lemma shift_count_nonneg (sector : Z) :
  0 <= (if Z.land sector 0x07 =? 0 then 8 else Z.land sector 0x07).
Proof.
  pose proof (land_ones_range sector 3 ltac:(lia)) as Hr.
  change (Z.ones 3) with 0x07 in Hr.
  destruct (Z.land sector 0x07 =? 0); lia.
Qed.

Lemma exec_shift_words24 (cpu : d17b_cpu_t) (instr : Z) :
  words24 cpu -> words24 (d17b_exec_shift cpu instr).
Proof.
  intros Hw. unfold d17b_exec_shift. cbv zeta.
  pose proof (shift_count_nonneg (GET_SECTOR instr)) as Hk.
  set (k := if Z.land (GET_SECTOR instr) 0x07 =? 0 then 8 else _) in *.
  clearbody k.
  assert (HA : word24 (A cpu)) by (destruct Hw as [HA _]; exact HA).
  repeat match goal with
         | |- context [if (?x =? ?y) then _ else _] => destruct (x =? y)
         end;
    try destruct (d37c_mode cpu); auto 7 with word24.
Qed.

Lemma exec_control_words24 (cpu : d17b_cpu_t) (instr : Z) :
  words24 cpu -> words24 (d17b_exec_control cpu instr).
Proof.
  intros Hw. unfold d17b_exec_control. cbv zeta.
  destruct (GET_OPCODE instr =? OP_SCL); auto 6 with word24.
Qed.

Lemma exec_special_words24 (cpu : d17b_cpu_t) (instr : Z) :
  words24 cpu -> words24 (d17b_exec_special cpu instr).
Proof.
  intros Hw. unfold d17b_exec_special. cbv zeta.
  assert (Hfields := Hw).
  destruct Hfields as (HA & HL & _ & _ & _ & _ & _ & _ & _ & Hia & Hib).
  break_ifs; try exact Hw; auto 6 with word24.
Qed.

Lemma dispatch_words24 (cpu : d17b_cpu_t) (instr : Z) :
  words24 cpu -> words24 (fst (dispatch cpu instr)).
Proof.
  intros Hw. unfold dispatch. cbv zeta.
  break_ifs; cbn [fst];
    auto using exec_shift_words24, exec_special_words24,
      exec_control_words24, exec_arithmetic_words24.
Qed.

Lemma advance_words24 (channel next_sp : Z) (cpu : d17b_cpu_t)
      (jumped : bool) :
  words24 cpu -> words24 (advance channel next_sp cpu jumped).
Proof.
  intros Hw. unfold advance. cbv zeta. break_ifs; exact Hw.
Qed.

(** ** The arrays keep their declared sizes *)

Lemma length_upd (l : list Z) (i v : Z) : length (upd l i v) = length l.
Proof. unfold upd. apply length_insert. Qed.

Lemma map_length_upd2 (m : list (list Z)) (c s v : Z) :
  map length (upd2 m c s v) = map length m.
Proof.
  unfold upd2. generalize (Z.to_nat c) as n.
  induction m as [ | row m IH ]; intros [ | n ]; cbn; try reflexivity.
  - now rewrite length_upd.
  - f_equal. apply IH.
Qed.

Ltac shape_fields :=
  unfold shape;
  cbn [F E H V R memory voltage_out binary_out
       set_A set_L set_N set_I set_P set_U set_F set_E set_H set_V set_R
       set_memory set_current_sector set_cycle_count set_halted set_error
       set_d37c_mode set_discrete_in_a set_discrete_in_b set_discrete_out_a
       set_voltage_out set_binary_out set_detector set_fine_countdown
       set_countdown_enabled];
  rewrite ?length_upd, ?map_length_upd2.

Lemma write_shape (cpu : d17b_cpu_t) (channel sector value : Z) :
  shape (d17b_write cpu channel sector value) = shape cpu.
Proof.
  rewrite write_cell.
  destruct (cell_of channel sector) as [k | ]; [ | reflexivity ].
  destruct k; cbn [cell_set]; shape_fields; reflexivity.
Qed.

Lemma flag_store_shape (cpu : d17b_cpu_t) (flag_code sector : Z) :
  shape (d17b_flag_store cpu flag_code sector) = shape cpu.
Proof.
  unfold d17b_flag_store. cbv zeta.
  repeat match goal with
         | |- context [if (?x =? ?y) then _ else _] => destruct (x =? y)
         end;
    try apply write_shape; shape_fields; reflexivity.
Qed.

Lemma multiply_shape (cpu : d17b_cpu_t) (operand : Z) (split : bool) :
  shape (d17b_multiply cpu operand split) = shape cpu.
Proof. unfold d17b_multiply. cbv zeta. break_ifs; reflexivity. Qed.

Lemma divide_shape (cpu : d17b_cpu_t) (divisor : Z) :
  shape (d17b_divide cpu divisor) = shape cpu.
Proof. unfold d17b_divide. cbv zeta. break_ifs; reflexivity. Qed.

Lemma set_A_shape (v : Z) (cpu : d17b_cpu_t) : shape (set_A v cpu) = shape cpu.
Proof. reflexivity. Qed.

Create Rewrite HintDb shape_frame.
#[local] Hint Rewrite set_A_shape write_shape flag_store_shape multiply_shape
  divide_shape : shape_frame.

Lemma exec_arithmetic_shape (cpu : d17b_cpu_t) (instr : Z) :
  shape (d17b_exec_arithmetic cpu instr) = shape cpu.
Proof.
  unfold d17b_exec_arithmetic. cbv zeta.
  repeat match goal with
         | |- context [if (?x =? ?y) then _ else _] => destruct (x =? y)
         | |- context [if d37c_mode ?c then _ else _] => destruct (d37c_mode c)
         end;
    autorewrite with shape_frame; reflexivity.
Qed.

Lemma exec_shift_shape (cpu : d17b_cpu_t) (instr : Z) :
  shape (d17b_exec_shift cpu instr) = shape cpu.
Proof. unfold d17b_exec_shift. cbv zeta. break_ifs; reflexivity. Qed.

Lemma exec_control_shape (cpu : d17b_cpu_t) (instr : Z) :
  shape (d17b_exec_control cpu instr) = shape cpu.
Proof.
  unfold d17b_exec_control. cbv zeta.
  destruct (GET_OPCODE instr =? OP_SCL); reflexivity.
Qed.

Lemma exec_special_shape (cpu : d17b_cpu_t) (instr : Z) :
  shape (d17b_exec_special cpu instr) = shape cpu.
Proof.
  unfold d17b_exec_special. cbv zeta.
  break_ifs; shape_fields; reflexivity.
Qed.

Lemma step_shape (cpu : d17b_cpu_t) :
  shape (snd (d17b_step cpu)) = shape cpu.
Proof.
  destruct (halted cpu) eqn:Hh.
  - now rewrite (step_halted cpu Hh).
  - rewrite (step_unfold cpu Hh). cbn [snd].
    transitivity (shape (fst (dispatch cpu (fetch cpu)))).
    + unfold advance. cbv zeta. break_ifs; reflexivity.
    + unfold dispatch. cbv zeta.
      break_ifs; cbn [fst];
        auto using exec_shift_shape, exec_special_shape,
          exec_control_shape, exec_arithmetic_shape.
Qed.

Lemma map_length_replicate (m : list (list Z)) (n k : nat) :
  length m = n /\ Forall (fun row : list Z => length row = k) m
  <-> map length m = replicate n k.
Proof.
  revert n. induction m as [ | row m IH ]; intros n.
  - destruct n; cbn; split; try discriminate; try (intros [? _]; discriminate);
      intros _; try reflexivity.
    split; [ reflexivity | constructor ].
  - destruct n as [ | n ]; cbn [length map replicate].
    + split; [ intros [? _]; discriminate | discriminate ].
    + rewrite Forall_cons. specialize (IH n). split.
      * intros ([= Hlen] & Hrow & Hall). f_equal; [ assumption | ].
        apply IH. now split.
      * intros [= Hrow Hm]. apply IH in Hm as [Hlen Hall].
        repeat split; [ now f_equal | assumption | assumption ].
Qed.

Lemma wf_cpu_shape (cpu : d17b_cpu_t) :
  wf_cpu cpu <->
  shape cpu = (4, 8, 16, 4, 4, replicate 47 128, 4, 4)%nat.
Proof.
  unfold wf_cpu, shape, F_LOOP_SIZE, E_LOOP_SIZE, H_LOOP_SIZE, V_LOOP_SIZE,
    R_LOOP_SIZE.
  pose proof (map_length_replicate (memory cpu) (Z.to_nat CHANNELS)
                (Z.to_nat SECTORS)) as Hrows.
  change (replicate (Z.to_nat CHANNELS) (Z.to_nat SECTORS))
    with (replicate 47 128%nat) in Hrows.
  split.
  - intros (-> & -> & -> & -> & -> & Hlen & Hall & -> & ->).
    destruct Hrows as [Hr _]. now rewrite (Hr (conj Hlen Hall)).
  - intros [= -> -> -> -> -> Hm -> ->].
    destruct Hrows as [_ Hr]. destruct (Hr Hm) as [Hlen Hall].
    repeat split; assumption.
Qed.

Lemma wf_cpu_of_shape (cpu cpu' : d17b_cpu_t) :
  shape cpu' = shape cpu -> wf_cpu cpu -> wf_cpu cpu'.
Proof.
  intros Heq Hwf. apply wf_cpu_shape. rewrite Heq. now apply wf_cpu_shape.
Qed.

(** ** The invariants along a run *)

Lemma run_loop_invariant (P : d17b_cpu_t -> Prop) :
  (forall cpu, P cpu -> P (snd (d17b_step cpu))) ->
  forall (fuel : nat) (start max_cycles : Z) (cpu cpu' : d17b_cpu_t),
    P cpu -> run_loop fuel start max_cycles cpu = Some cpu' -> P cpu'.
Proof.
  intros Hstep fuel start max_cycles.
  induction fuel as [ | fuel IH ]; intros cpu cpu' Hp; cbn [run_loop];
    destruct (negb (halted cpu) && _); try discriminate;
    try (intros [= <-]; assumption).
  destruct (fst (d17b_step cpu) <? 0).
  - intros [= <-]. now apply Hstep.
  - apply IH. now apply Hstep.
Qed.

Lemma step_words24 (cpu : d17b_cpu_t) :
  words24 cpu -> words24 (snd (d17b_step cpu)).
Proof.
  intros Hw. destruct (halted cpu) eqn:Hh.
  - now rewrite (step_halted cpu Hh).
  - rewrite (step_unfold cpu Hh). cbn [snd].
    apply advance_words24. now apply dispatch_words24.
Qed.

(** X10. Word-size invariant.  If every register (A, L, U), loop slot,
    memory cell and discrete input of a state is a 24-bit word, the same
    holds after a write, after a step, after a reset and in the state a
    run returns: no instruction stores a wider value. *)
Theorem words24_invariant (cpu : d17b_cpu_t) :
  words24 cpu ->
  (forall channel sector value : Z,
     words24 (d17b_write cpu channel sector value)) /\
  words24 (snd (d17b_step cpu)) /\
  words24 (d17b_reset cpu) /\
  (forall (fuel : nat) (max_cycles rc : Z) (cpu' : d17b_cpu_t),
     d17b_run fuel cpu max_cycles = Some (rc, cpu') -> words24 cpu').
Proof.
  intros Hw. split; [ | split; [ | split ] ].
  - intros. now apply write_words24.
  - now apply step_words24.
  - destruct Hw as (_ & _ & _ & _ & _ & _ & _ & _ & Hm & _).
    unfold words24. cbn [d17b_reset A L U F E H V R memory discrete_in_a
                           discrete_in_b].
    split_conj; try apply word24_zero; try assumption;
      apply Forall_replicate, word24_zero.
  - intros fuel max_cycles rc cpu'. unfold d17b_run. cbv zeta.
    destruct (run_loop fuel (cycle_count cpu) max_cycles cpu) as [c | ] eqn:Hr;
      [ | discriminate ].
    intros [= _ <-].
    exact (run_loop_invariant words24 step_words24 _ _ _ _ _ Hw Hr).
Qed.

Lemma init_words24 : words24 d17b_init.
Proof.
  unfold words24.
  cbn [d17b_init d17b_reset zero_cpu A L U F E H V R memory discrete_in_a
         discrete_in_b].
  split_conj; try apply word24_zero;
    repeat apply Forall_replicate; apply word24_zero.
Qed.

Lemma words24_invariant_witness :
  words24 (snd (d17b_step (load_test_program d17b_init))).
Proof.
  apply (words24_invariant (load_test_program d17b_init)).
  unfold load_test_program. cbv zeta.
  pose proof init_words24 as Hi.
  destruct Hi as (? & ? & ? & ? & ? & ? & ? & ? & Hm & ? & ?).
  unfold words24.
  cbn [A L U F E H V R memory discrete_in_a discrete_in_b set_memory].
  split_conj; try assumption.
  repeat apply Forall_word24_upd2; try assumption; vm_compute; split;
    congruence.
Defined.

Lemma init_wf : wf_cpu d17b_init.
Proof. apply wf_cpu_shape. reflexivity. Qed.

(** The array fields keep the sizes of their C declarations (loops
    of 4, 8, 16, 4 and 4 words, 47 channels of 128 sectors, 4 voltage and
    4 binary outputs) across a write, a step, a reset and a run, so every
    masked index the code computes addresses an existing element. *)
Theorem wf_invariant (cpu : d17b_cpu_t) :
  wf_cpu cpu ->
  (forall channel sector value : Z,
     wf_cpu (d17b_write cpu channel sector value)) /\
  wf_cpu (snd (d17b_step cpu)) /\
  wf_cpu (d17b_reset cpu) /\
  (forall (fuel : nat) (max_cycles rc : Z) (cpu' : d17b_cpu_t),
     d17b_run fuel cpu max_cycles = Some (rc, cpu') -> wf_cpu cpu').
Proof.
  intros Hwf. split; [ | split; [ | split ] ].
  - intros. apply (wf_cpu_of_shape cpu); [ apply write_shape | assumption ].
  - apply (wf_cpu_of_shape cpu); [ apply step_shape | assumption ].
  - apply wf_cpu_shape. apply wf_cpu_shape in Hwf.
    unfold shape in *. cbn [d17b_reset F E H V R memory voltage_out binary_out].
    injection Hwf as _ _ _ _ _ Hm _ _. now rewrite Hm.
  - intros fuel max_cycles rc cpu'. unfold d17b_run. cbv zeta.
    destruct (run_loop fuel (cycle_count cpu) max_cycles cpu) as [c | ] eqn:Hr;
      [ | discriminate ].
    intros [= _ <-].
    refine (run_loop_invariant wf_cpu _ _ _ _ _ _ Hwf Hr).
    intros c0 Hc0. apply (wf_cpu_of_shape c0); [ apply step_shape | assumption ].
Qed.

Lemma wf_invariant_witness :
  wf_cpu (snd (d17b_step (load_test_program d17b_init))).
Proof.
  apply (wf_invariant (load_test_program d17b_init)).
  apply wf_cpu_shape. vm_compute. reflexivity.
Defined.

Lemma read_after_write_witness :
  d17b_read (d17b_write d17b_init CHAN_F_LOOP 1 0x1234567) CHAN_F_LOOP 5
    = 0x234567.
Proof.
  apply (read_after_write d17b_init (cell_F 1) CHAN_F_LOOP 1 CHAN_F_LOOP 5
           0x1234567 init_wf);
    first [ reflexivity | unfold CHAN_F_LOOP; lia ].
Defined.


(** * What a step never changes, and who sets the latches *)

Ltac frame_by_cases := cbv zeta; break_ifs; reflexivity.

Lemma write_host_fields (cpu : d17b_cpu_t) (channel sector value : Z) :
  host_fields (d17b_write cpu channel sector value) = host_fields cpu /\
  halted (d17b_write cpu channel sector value) = halted cpu /\
  error (d17b_write cpu channel sector value) = error cpu.
Proof. unfold d17b_write. split_conj; frame_by_cases. Qed.

Lemma flag_store_host_fields (cpu : d17b_cpu_t) (flag_code sector : Z) :
  host_fields (d17b_flag_store cpu flag_code sector) = host_fields cpu /\
  halted (d17b_flag_store cpu flag_code sector) = halted cpu /\
  error (d17b_flag_store cpu flag_code sector) = error cpu /\
  d37c_mode (d17b_flag_store cpu flag_code sector) = d37c_mode cpu.
Proof.
  unfold d17b_flag_store. cbv zeta.
  repeat match goal with
         | |- context [if (?x =? ?y) then _ else _] => destruct (x =? y)
         end;
    try (split_conj; reflexivity).
  destruct (write_host_fields cpu 0x28
              (Z.land (u32 (sector - 2)) 0x7F) (A cpu)) as (Hh & Hl & He).
  split_conj; try assumption.
  now injection Hh.
Qed.

Lemma multiply_host_fields (cpu : d17b_cpu_t) (operand : Z) (split : bool) :
  host_fields (d17b_multiply cpu operand split) = host_fields cpu /\
  halted (d17b_multiply cpu operand split) = halted cpu /\
  error (d17b_multiply cpu operand split) = error cpu.
Proof. unfold d17b_multiply. split_conj; frame_by_cases. Qed.

Lemma divide_host_fields (cpu : d17b_cpu_t) (divisor : Z) :
  host_fields (d17b_divide cpu divisor) = host_fields cpu /\
  halted (d17b_divide cpu divisor) = halted cpu /\
  (error cpu = true -> error (d17b_divide cpu divisor) = true).
Proof.
  unfold d17b_divide. split_conj; try frame_by_cases.
  intros He. cbv zeta. break_ifs; cbn [error set_error set_A set_L];
    first [ reflexivity | assumption ].
Qed.

Lemma exec_shift_host_fields (cpu : d17b_cpu_t) (instr : Z) :
  host_fields (d17b_exec_shift cpu instr) = host_fields cpu /\
  halted (d17b_exec_shift cpu instr) = halted cpu /\
  error (d17b_exec_shift cpu instr) = error cpu.
Proof. unfold d17b_exec_shift. split_conj; frame_by_cases. Qed.

Lemma exec_control_host_fields (cpu : d17b_cpu_t) (instr : Z) :
  host_fields (d17b_exec_control cpu instr) = host_fields cpu /\
  halted (d17b_exec_control cpu instr) = halted cpu /\
  error (d17b_exec_control cpu instr) = error cpu.
Proof. unfold d17b_exec_control. split_conj; frame_by_cases. Qed.

Lemma exec_special_host_fields (cpu : d17b_cpu_t) (instr : Z) :
  host_fields (d17b_exec_special cpu instr) = host_fields cpu /\
  error (d17b_exec_special cpu instr) = error cpu /\
  halted (d17b_exec_special cpu instr)
    = halted cpu || (special_sub_op instr =? 0x09).
Proof.
  unfold d17b_exec_special, special_sub_op. cbv zeta.
  split_conj; try (break_ifs; reflexivity).
  set (sub_op := Z.land (Z.shiftr (GET_SECTOR instr) 1) 0x3F).
  destruct (Z.eqb_spec sub_op 0x09) as [-> | Hne].
  - cbn. now rewrite orb_true_r.
  - rewrite orb_false_r. break_ifs; reflexivity.
Qed.

Lemma exec_arithmetic_host_fields (cpu : d17b_cpu_t) (instr : Z) :
  host_fields (d17b_exec_arithmetic cpu instr) = host_fields cpu /\
  halted (d17b_exec_arithmetic cpu instr) = halted cpu /\
  (error cpu = true -> error (d17b_exec_arithmetic cpu instr) = true) /\
  (error (d17b_exec_arithmetic cpu instr) <> error cpu ->
   GET_OPCODE instr = OP_DIV_MPM /\ d37c_mode cpu = true).
Proof.
  unfold d17b_exec_arithmetic. cbv zeta.
  set (operand := d17b_read cpu (GET_CHANNEL instr) (GET_SECTOR instr)).
  assert (H1 : host_fields (if GET_FLAG instr =? 0 then cpu
                else d17b_flag_store cpu (GET_FLAG_CODE instr)
                       (GET_SECTOR instr)) = host_fields cpu /\
               halted (if GET_FLAG instr =? 0 then cpu
                else d17b_flag_store cpu (GET_FLAG_CODE instr)
                       (GET_SECTOR instr)) = halted cpu /\
               error (if GET_FLAG instr =? 0 then cpu
                else d17b_flag_store cpu (GET_FLAG_CODE instr)
                       (GET_SECTOR instr)) = error cpu /\
               d37c_mode (if GET_FLAG instr =? 0 then cpu
                else d17b_flag_store cpu (GET_FLAG_CODE instr)
                       (GET_SECTOR instr)) = d37c_mode cpu).
  { destruct (GET_FLAG instr =? 0); [ split_conj; reflexivity | ].
    apply flag_store_host_fields. }
  set (cpu1 := if GET_FLAG instr =? 0 then cpu else _) in *.
  clearbody cpu1 operand.
  destruct H1 as (Hh & Hl & He & Hm). rewrite <- Hh, <- Hl, <- He, <- Hm.
  clear Hh Hl He Hm.
  repeat match goal with
         | |- context [if (?x =? ?y) then _ else _] =>
             destruct (Z.eqb_spec x y)
         end;
    try (split_conj; first [ reflexivity | tauto | congruence ]).
  - destruct (multiply_host_fields cpu1 operand false) as (Hh & Hl & He).
    split_conj; try assumption; first [ congruence | tauto ].
  - destruct (multiply_host_fields cpu1 operand true) as (Hh & Hl & He).
    split_conj; try assumption; first [ congruence | tauto ].
  - destruct (d37c_mode cpu1) eqn:Hmode.
    + destruct (divide_host_fields cpu1 operand) as (Hh & Hl & He).
      split_conj; try assumption. intros _. now split.
    + destruct (multiply_host_fields
                  (set_A (Z.land (A cpu1) MAGNITUDE_MASK) cpu1)
                  (Z.land operand MAGNITUDE_MASK) false) as (Hh & Hl & He).
      split_conj; try assumption.
      * rewrite He. tauto.
      * rewrite He. cbn [error set_A]. congruence.
  - destruct (write_host_fields cpu1 (GET_CHANNEL instr) (GET_SECTOR instr)
                (A cpu1)) as (Hh & Hl & He).
    split_conj; try assumption; first [ congruence | tauto ].
Qed.

Lemma advance_host_fields (channel next_sp : Z) (cpu : d17b_cpu_t)
      (jumped : bool) :
  host_fields (advance channel next_sp cpu jumped) = host_fields cpu /\
  halted (advance channel next_sp cpu jumped) = halted cpu /\
  error (advance channel next_sp cpu jumped) = error cpu.
Proof. unfold advance. split_conj; frame_by_cases. Qed.

Lemma dispatch_latches (cpu : d17b_cpu_t) (instr : Z) :
  host_fields (fst (dispatch cpu instr)) = host_fields cpu /\
  (error cpu = true -> error (fst (dispatch cpu instr)) = true) /\
  (error (fst (dispatch cpu instr)) <> error cpu ->
   GET_OPCODE instr = OP_DIV_MPM /\ d37c_mode cpu = true) /\
  (halted cpu = true -> halted (fst (dispatch cpu instr)) = true) /\
  (halted (fst (dispatch cpu instr)) <> halted cpu ->
   GET_OPCODE instr = OP_SPECIAL /\ special_sub_op instr = 0x09).
Proof.
  unfold dispatch. cbv zeta.
  destruct (Z.eqb_spec (GET_OPCODE instr) OP_SHIFT) as [Hop | _].
  { destruct (exec_shift_host_fields cpu instr) as (Hh & Hl & He).
    cbn [fst]. rewrite Hh, Hl, He. split_conj; tauto. }
  destruct (Z.eqb_spec (GET_OPCODE instr) OP_SPECIAL) as [Hop | _].
  { destruct (exec_special_host_fields cpu instr) as (Hh & He & Hl).
    cbn [fst]. rewrite Hh, He, Hl. split_conj; try tauto.
    - intros ->. reflexivity.
    - destruct (Z.eqb_spec (special_sub_op instr) 0x09) as [Hs | _].
      + intros _. now split.
      + rewrite orb_false_r. congruence. }
  destruct (Z.eqb_spec (GET_OPCODE instr) OP_TRA) as [Hop | _].
  { cbn [fst]. split_conj; first [ reflexivity | tauto | congruence ]. }
  destruct (Z.eqb_spec (GET_OPCODE instr) OP_TMI_TZE) as [Hop | _].
  { break_ifs; cbn [fst];
      split_conj; first [ reflexivity | tauto | congruence ]. }
  destruct (Z.eqb_spec (GET_OPCODE instr) OP_TMI) as [Hop | _].
  { break_ifs; cbn [fst];
      split_conj; first [ reflexivity | tauto | congruence ]. }
  destruct (Z.eqb_spec (GET_OPCODE instr) OP_SCL) as [Hop | _].
  { destruct (exec_control_host_fields cpu instr) as (Hh & Hl & He).
    cbn [fst]. rewrite Hh, Hl, He. split_conj; tauto. }
  destruct (exec_arithmetic_host_fields cpu instr) as (Hh & Hl & He & Hd).
  cbn [fst]. rewrite Hh, Hl. split_conj; tauto.
Qed.

Lemma step_latches (cpu : d17b_cpu_t) :
  host_fields (snd (d17b_step cpu)) = host_fields cpu /\
  (error cpu = true -> error (snd (d17b_step cpu)) = true) /\
  (error (snd (d17b_step cpu)) <> error cpu ->
   GET_OPCODE (fetch cpu) = OP_DIV_MPM /\ d37c_mode cpu = true) /\
  (halted cpu = true -> halted (snd (d17b_step cpu)) = true) /\
  (halted (snd (d17b_step cpu)) <> halted cpu ->
   GET_OPCODE (fetch cpu) = OP_SPECIAL /\ special_sub_op (fetch cpu) = 0x09).
Proof.
  destruct (halted cpu) eqn:Hh.
  - rewrite (step_halted cpu Hh). cbn [snd]. rewrite Hh.
    split_conj; first [ reflexivity | tauto | congruence ].
  - rewrite (step_unfold cpu Hh). cbn [snd].
    destruct (advance_host_fields (fetch_channel cpu) (GET_SP (fetch cpu))
                (fst (dispatch cpu (fetch cpu)))
                (snd (dispatch cpu (fetch cpu)))) as (Ha1 & Ha2 & Ha3).
    rewrite Ha1, Ha2, Ha3. rewrite <- Hh.
    apply dispatch_latches.
Qed.

(** X11. No instruction writes the scratch register N, the mode bit or
    the discrete input latches, and the error latch is sticky: a step
    never clears it, and the only step that sets it is a DIV (primary
    opcode 7) executed in D37C mode. *)
Theorem step_error_latch (cpu : d17b_cpu_t) :
  (N (snd (d17b_step cpu)) = N cpu /\
   d37c_mode (snd (d17b_step cpu)) = d37c_mode cpu /\
   discrete_in_a (snd (d17b_step cpu)) = discrete_in_a cpu /\
   discrete_in_b (snd (d17b_step cpu)) = discrete_in_b cpu) /\
  (error cpu = true -> error (snd (d17b_step cpu)) = true) /\
  (error cpu = false -> error (snd (d17b_step cpu)) = true ->
   GET_OPCODE (fetch cpu) = 7 /\ d37c_mode cpu = true).
Proof.
  destruct (step_latches cpu) as (Hh & He & Hd & _).
  unfold host_fields in Hh. injection Hh as HN Hm Ha Hb.
  split_conj; try assumption.
  intros Hf Ht. apply Hd. congruence.
Qed.

(** X12. The halted latch is sticky and only HPR sets it: if a step takes
    a machine that is not halted to a halted one, the fetched instruction
    has primary opcode 8 and special sub-opcode 0x09. *)
Theorem step_halted_latch (cpu : d17b_cpu_t) :
  (halted cpu = true -> snd (d17b_step cpu) = cpu) /\
  (halted cpu = false -> halted (snd (d17b_step cpu)) = true ->
   GET_OPCODE (fetch cpu) = 8 /\
   Z.land (Z.shiftr (GET_SECTOR (fetch cpu)) 1) 0x3F = 0x09).
Proof.
  destruct (step_latches cpu) as (_ & _ & _ & _ & Hd).
  split.
  - intros Hh. now rewrite (step_halted cpu Hh).
  - intros Hf Ht. apply Hd. congruence.
Qed.

(** * Cycle accounting of a run *)

Lemma steps_cycle_count (n : nat) :
  forall cpu : d17b_cpu_t,
    (forall k : nat, (k < n)%nat -> halted (steps k cpu) = false) ->
    u64 (cycle_count (steps n cpu) - cycle_count cpu) = u64 (Z.of_nat n).
Proof.
  induction n as [ | n IH ]; intros cpu Hrun.
  - cbn [steps]. now rewrite Z.sub_diag.
  - cbn [steps].
    assert (Hh : halted cpu = false) by (apply (Hrun 0%nat); lia).
    destruct (step_running cpu Hh) as [_ Hcc].
    assert (Hrest : forall k : nat, (k < n)%nat ->
                      halted (steps k (snd (d17b_step cpu))) = false).
    { intros k Hk. apply (Hrun (S k)). lia. }
    specialize (IH (snd (d17b_step cpu)) Hrest).
    rewrite Hcc in IH. unfold u64 in *.
    rewrite Nat2Z.inj_succ.
    Z.to_euclidean_division_equations. lia.
Qed.

(** X13. Cycle accounting.  With a budget [max_cycles] (a [uint64_t]) a
    run executes some number n <= max_cycles of steps, the cycle counter
    advances by exactly n (modulo 2^64), the return value is -1 exactly
    when the final state is halted, and a run that returns 0 has used up
    the whole budget. *)
Theorem run_cycle_budget (cpu : d17b_cpu_t) (max_cycles : Z) (fuel : nat) :
  0 <= max_cycles < 2 ^ 64 ->
  (Z.to_nat max_cycles <= fuel)%nat ->
  exists (rc n : Z) (cpu' : d17b_cpu_t),
    d17b_run fuel cpu max_cycles = Some (rc, cpu') /\
    0 <= n <= max_cycles /\
    u64 (cycle_count cpu' - cycle_count cpu) = n /\
    (rc = -1 /\ halted cpu' = true \/
     rc = 0 /\ halted cpu' = false /\ n = max_cycles).
Proof.
  intros Hmax Hfuel.
  destruct (run_loop_spec (cycle_count cpu) max_cycles Hmax fuel 0%nat cpu)
    as (n & Hrun & Hle & Hpre & Hend).
  - now rewrite Z.sub_diag.
  - cbn. lia.
  - lia.
  - exists (if halted (steps n cpu) then -1 else 0), (Z.of_nat n),
      (steps n cpu).
    unfold d17b_run. cbv zeta. rewrite Hrun.
    split; [ reflexivity | ]. split; [ lia | ]. split.
    + rewrite (steps_cycle_count n cpu Hpre). unfold u64.
      apply Z.mod_small. lia.
    + destruct (halted (steps n cpu)); [ left; now split | right ].
      destruct Hend as [Hh | Hb]; [ discriminate | ].
      repeat split. lia.
Qed.

Lemma run_cycle_budget_witness :
  exists (rc n : Z) (cpu' : d17b_cpu_t),
    d17b_run 1000 (load_test_program d17b_init) 1000 = Some (rc, cpu') /\
    0 <= n <= 1000 /\
    u64 (cycle_count cpu' - cycle_count (load_test_program d17b_init)) = n /\
    (rc = -1 /\ halted cpu' = true \/
     rc = 0 /\ halted cpu' = false /\ n = 1000).
Proof.
  apply (run_cycle_budget (load_test_program d17b_init) 1000 1000%nat);
    lia.
Defined.

(** * Instruction words and the location counter *)

Lemma lor_add_disjoint (a b n : Z) :
  0 <= n -> 0 <= b < 2 ^ n -> a mod 2 ^ n = 0 -> Z.lor a b = a + b.
Proof.
  intros Hn Hb Ha.
  assert (Hpos : 0 < 2 ^ n) by (apply Z.pow_pos_nonneg; lia).
  replace a with (Z.shiftl (a / 2 ^ n) n) at 1.
  - rewrite lor_shiftl_disjoint by assumption.
    pose proof (Z.div_mod a (2 ^ n) ltac:(lia)). lia.
  - rewrite Z.shiftl_mul_pow2 by assumption.
    pose proof (Z.div_mod a (2 ^ n) ltac:(lia)). lia.
Qed.

(** The encoder packs its masked arguments side by side. *)
Lemma ENCODE_INSTR_sum (op flag sp chan sec : Z) :
  ENCODE_INSTR op flag sp chan sec
    = Z.land op 0xF * 2 ^ 20 + Z.land flag 0x1 * 2 ^ 19
      + Z.land sp 0xF * 2 ^ 15 + Z.land chan 0x3F * 2 ^ 9
      + Z.land sec 0x7F * 2 ^ 2.
Proof.
  unfold ENCODE_INSTR.
  pose proof (land_ones_range op 4 ltac:(lia)) as Ho.
  pose proof (land_ones_range flag 1 ltac:(lia)) as Hf.
  pose proof (land_ones_range sp 4 ltac:(lia)) as Hs.
  pose proof (land_ones_range chan 6 ltac:(lia)) as Hc.
  pose proof (land_ones_range sec 7 ltac:(lia)) as He.
  change (Z.ones 4) with 0xF in *. change (Z.ones 1) with 0x1 in *.
  change (Z.ones 6) with 0x3F in *. change (Z.ones 7) with 0x7F in *.
  set (o := Z.land op 0xF) in *. set (f := Z.land flag 0x1) in *.
  set (s := Z.land sp 0xF) in *. set (c := Z.land chan 0x3F) in *.
  set (e := Z.land sec 0x7F) in *.
  rewrite !Z.shiftl_mul_pow2 by lia.
  rewrite (lor_add_disjoint (o * 2 ^ 20) (f * 2 ^ 19) 20);
    [ | lia | lia | Z.to_euclidean_division_equations; lia ].
  rewrite (lor_add_disjoint _ (s * 2 ^ 15) 19);
    [ | lia | lia | Z.to_euclidean_division_equations; lia ].
  rewrite (lor_add_disjoint _ (c * 2 ^ 9) 15);
    [ | lia | lia | Z.to_euclidean_division_equations; lia ].
  rewrite (lor_add_disjoint _ (e * 2 ^ 2) 9);
    [ | lia | lia | Z.to_euclidean_division_equations; lia ].
  reflexivity.
Qed.

(** X14. Decoding an encoded instruction.  The field extractors of the
    header recover from [ENCODE_INSTR op flag sp chan sec] each argument
    masked to its field width; the encoded word has 24 bits, its two low
    bits are clear, and its flag code (the low three bits) is 4 when the
    sector is odd and 0 otherwise. *)
Theorem decode_encode (op flag sp chan sec : Z) :
  let w := ENCODE_INSTR op flag sp chan sec in
  GET_OPCODE w = Z.land op 0xF /\
  GET_FLAG w = Z.land flag 0x1 /\
  GET_SP w = Z.land sp 0xF /\
  GET_CHANNEL w = Z.land chan 0x3F /\
  GET_SECTOR w = Z.land sec 0x7F /\
  GET_FLAG_CODE w = 4 * (sec mod 2) /\
  word24 w.
Proof.
  intros w. subst w. rewrite ENCODE_INSTR_sum.
  unfold GET_OPCODE, GET_FLAG, GET_SP, GET_CHANNEL, GET_SECTOR,
    GET_FLAG_CODE, word24.
  pose proof (land_ones_range op 4 ltac:(lia)) as Ho.
  pose proof (land_ones_range flag 1 ltac:(lia)) as Hf.
  pose proof (land_ones_range sp 4 ltac:(lia)) as Hs.
  pose proof (land_ones_range chan 6 ltac:(lia)) as Hc.
  pose proof (land_ones_range sec 7 ltac:(lia)) as He.
  assert (Hodd : Z.land sec (Z.ones 7) mod 2 = sec mod 2).
  { rewrite Z.land_ones by lia. change (2 ^ 7) with (2 * 64).
    rewrite Z.rem_mul_r by lia.
    Z.to_euclidean_division_equations. lia. }
  change (Z.ones 4) with 0xF in *. change (Z.ones 1) with 0x1 in *.
  change (Z.ones 6) with 0x3F in *. change (Z.ones 7) with 0x7F in *.
  set (o := Z.land op 0xF) in *. set (f := Z.land flag 0x1) in *.
  set (s := Z.land sp 0xF) in *. set (c := Z.land chan 0x3F) in *.
  set (e := Z.land sec 0x7F) in *.
  rewrite !Z.shiftr_div_pow2 by lia.
  pose proof (fun x => Z.land_ones x 4 ltac:(lia)) as M4.
  pose proof (fun x => Z.land_ones x 1 ltac:(lia)) as M1.
  pose proof (fun x => Z.land_ones x 6 ltac:(lia)) as M6.
  pose proof (fun x => Z.land_ones x 7 ltac:(lia)) as M7.
  pose proof (fun x => Z.land_ones x 3 ltac:(lia)) as M3.
  change (Z.ones 4) with 0x0F in M4. change (Z.ones 1) with 0x01 in M1.
  change (Z.ones 6) with 0x3F in M6. change (Z.ones 7) with 0x7F in M7.
  change (Z.ones 3) with 0x07 in M3.
  rewrite M4, M1, M4, M6, M7, M3.
  rewrite <- Hodd.
  split_conj; Z.to_euclidean_division_equations; lia.
Qed.

(** A location (channel << 9) | (sector << 2) decodes to its fields. *)
Lemma location_decode (c s : Z) :
  0 <= c < 64 -> 0 <= s < 128 ->
  Z.land (Z.shiftr (Z.lor (Z.shiftl c 9) (Z.shiftl s 2)) 9) 0x3F = c /\
  Z.land (Z.shiftr (Z.lor (Z.shiftl c 9) (Z.shiftl s 2)) 2) 0x7F = s /\
  0 <= Z.lor (Z.shiftl c 9) (Z.shiftl s 2) < 2 ^ 15.
Proof.
  intros Hc Hs.
  rewrite !Z.shiftl_mul_pow2 by lia.
  rewrite (lor_add_disjoint (c * 2 ^ 9) (s * 2 ^ 2) 9);
    [ | lia | lia | Z.to_euclidean_division_equations; lia ].
  rewrite !Z.shiftr_div_pow2 by lia.
  pose proof (fun x => Z.land_ones x 6 ltac:(lia)) as M6.
  pose proof (fun x => Z.land_ones x 7 ltac:(lia)) as M7.
  change (Z.ones 6) with 0x3F in M6. change (Z.ones 7) with 0x7F in M7.
  rewrite M6, M7.
  split_conj; Z.to_euclidean_division_equations; lia.
Qed.

Lemma field_ranges (w : Z) :
  0 <= GET_CHANNEL w < 64 /\ 0 <= GET_SECTOR w < 128 /\ 0 <= GET_SP w < 16.
Proof.
  unfold GET_CHANNEL, GET_SECTOR, GET_SP.
  exact (conj (land_ones_range (Z.shiftr w 9) 6 ltac:(lia))
           (conj (land_ones_range (Z.shiftr w 2) 7 ltac:(lia))
              (land_ones_range (Z.shiftr w 15) 4 ltac:(lia)))).
Qed.

Lemma fetch_channel_range (cpu : d17b_cpu_t) : 0 <= fetch_channel cpu < 64.
Proof.
  unfold fetch_channel.
  exact (land_ones_range (Z.shiftr (I cpu) 9) 6 ltac:(lia)).
Qed.

(** What the dispatch leaves in I, by the value of the jump flag. *)
Lemma dispatch_jump (cpu : d17b_cpu_t) (instr : Z) :
  (snd (dispatch cpu instr) = true ->
   I (fst (dispatch cpu instr))
     = Z.lor (Z.shiftl (GET_CHANNEL instr) 9) (Z.shiftl (GET_SECTOR instr) 2) /\
   (GET_OPCODE instr = OP_TRA \/ GET_OPCODE instr = OP_TMI_TZE \/
    GET_OPCODE instr = OP_TMI)) /\
  (GET_OPCODE instr = OP_TRA -> snd (dispatch cpu instr) = true) /\
  (GET_OPCODE instr = OP_TMI ->
   snd (dispatch cpu instr) = Z.testbit (A cpu) 23).
Proof.
  unfold dispatch. cbv zeta. rewrite !sign_test_testbit.
  repeat match goal with
         | |- context [if (?x =? ?y) then _ else _] =>
             destruct (Z.eqb_spec x y)
         end;
    try destruct (d37c_mode cpu); try destruct (Z.testbit (A cpu) 23);
    cbn [fst snd I set_I];
    split_conj; intros; try discriminate; try congruence;
    try (split; [ reflexivity | tauto ]);
    exfalso;
    unfold OP_SHIFT, OP_SPECIAL, OP_TRA, OP_TMI_TZE, OP_TMI, OP_SCL in *;
    lia.
Qed.

(** X15. The location counter after a step.  After any executed step I
    holds a well-formed location below 2^15 whose channel and sector
    fields are either (fetch channel, Sp) or the target (C, S) of the
    instruction; for every primary opcode other than 2, 6 and 10 it is
    (fetch channel, Sp), so the next sector is below 16. *)
Theorem step_location_counter (cpu : d17b_cpu_t) :
  halted cpu = false ->
  let instr := fetch cpu in
  let post := snd (d17b_step cpu) in
  0 <= I post < 2 ^ 15 /\
  (fetch_channel post = fetch_channel cpu /\ fetch_sector post = GET_SP instr
   \/ fetch_channel post = GET_CHANNEL instr /\
      fetch_sector post = GET_SECTOR instr) /\
  (GET_OPCODE instr <> 2 -> GET_OPCODE instr <> 6 -> GET_OPCODE instr <> 10 ->
   fetch_channel post = fetch_channel cpu /\
   fetch_sector post = GET_SP instr /\ fetch_sector post < 16).
Proof.
  intros Hrun instr post. subst post.
  rewrite (step_unfold cpu Hrun). cbn [snd]. fold instr.
  destruct (field_ranges instr) as (Hc & Hs & Hp).
  pose proof (fetch_channel_range cpu) as Hf.
  destruct (dispatch_jump cpu instr) as (Hjump & _ & _).
  set (P := advance (fetch_channel cpu) (GET_SP instr)
              (fst (dispatch cpu instr)) (snd (dispatch cpu instr))).
  change (fetch_channel P) with (Z.land (Z.shiftr (I P) 9) 0x3F).
  change (fetch_sector P) with (Z.land (Z.shiftr (I P) 2) 0x7F).
  subst P.
  destruct (snd (dispatch cpu instr)) eqn:Hj.
  - destruct (Hjump eq_refl) as (HI & Hop).
    rewrite advance_I_jumped, HI.
    destruct (location_decode _ _ Hc Hs) as (H1 & H2 & H3).
    rewrite H1, H2. clear Hj Hjump.
    split_conj; [ lia | lia | right; split; reflexivity | ].
    intros H2' H6 H10. exfalso.
    unfold OP_TRA, OP_TMI_TZE, OP_TMI in Hop. lia.
  - rewrite advance_I_next.
    destruct (location_decode (fetch_channel cpu) (GET_SP instr) Hf
                ltac:(lia)) as (H1 & H2 & H3).
    rewrite H1, H2. clear Hj Hjump.
    split_conj; [ lia | lia | left; split; reflexivity | ].
    intros _ _ _. split_conj; [ reflexivity | reflexivity | lia ].
Qed.

Lemma step_location_counter_witness :
  fetch_channel (snd (d17b_step (load_test_program d17b_init))) = 0 /\
  fetch_sector (snd (d17b_step (load_test_program d17b_init))) = 2.
Proof.
  pose proof (step_location_counter (load_test_program d17b_init) eq_refl)
    as Hthm.
  cbv zeta in Hthm. destruct Hthm as (_ & _ & Hnext).
  destruct Hnext as (Hc & Hs & _); [ vm_compute; discriminate .. | ].
  split; [ exact Hc | exact Hs ].
Defined.

(** * Split add and subtract, rotates, and the special accumulator ops *)

(** The word the split operations assemble from a high and a low lane
    value, each reduced modulo 2^12. *)
Lemma lanes_pack (x y : Z) :
  Z.land (Z.lor (u32 (Z.shiftl (u32 x) 12)) (Z.land (u32 y) 0xFFF)) WORD_MASK
    = (x mod 4096) * 4096 + y mod 4096.
Proof.
  pose proof (fun z => Z.land_ones z 12 ltac:(lia)) as M12.
  pose proof (fun z => Z.land_ones z 24 ltac:(lia)) as M24.
  change (Z.ones 12) with 0xFFF in M12.
  change (Z.ones 24) with WORD_MASK in M24.
  rewrite M12. unfold u32. rewrite Z.shiftl_mul_pow2 by lia.
  rewrite (lor_add_disjoint _ ((y mod 2 ^ 32) mod 2 ^ 12) 12);
    [ | lia | apply Z.mod_pos_bound; lia
      | Z.to_euclidean_division_equations; lia ].
  rewrite M24.
  Z.to_euclidean_division_equations. lia.
Qed.

Lemma lanes_of_packed (h l : Z) :
  0 <= h < 4096 -> 0 <= l < 4096 ->
  lane_hi (h * 4096 + l) = h /\ lane_lo (h * 4096 + l) = l /\
  word24 (h * 4096 + l).
Proof.
  intros Hh Hl. unfold lane_hi, lane_lo, word24.
  pose proof (fun z => Z.land_ones z 12 ltac:(lia)) as M12.
  change (Z.ones 12) with 0xFFF in M12.
  rewrite !M12, Z.shiftr_div_pow2 by lia.
  split_conj; Z.to_euclidean_division_equations; lia.
Qed.

Lemma word24_lanes_split (w : Z) :
  word24 w -> w = lane_hi w * 4096 + lane_lo w.
Proof.
  intros Hw. unfold lane_hi, lane_lo, word24 in *.
  pose proof (fun z => Z.land_ones z 12 ltac:(lia)) as M12.
  change (Z.ones 12) with 0xFFF in M12.
  rewrite !M12, Z.shiftr_div_pow2 by lia.
  Z.to_euclidean_division_equations. lia.
Qed.

Lemma lane_range (w : Z) : 0 <= lane_hi w < 4096 /\ 0 <= lane_lo w < 4096.
Proof.
  unfold lane_hi, lane_lo.
  exact (conj (land_ones_range (Z.shiftr w 12) 12 ltac:(lia))
           (land_ones_range w 12 ltac:(lia))).
Qed.

(** The accumulator after SAD and SSU, whatever the flag bit. *)
Lemma exec_split_add_sub (cpu : d17b_cpu_t) (instr : Z) :
  let operand := d17b_read cpu (GET_CHANNEL instr) (GET_SECTOR instr) in
  (GET_OPCODE instr = OP_SAD ->
   A (d17b_exec_arithmetic cpu instr)
     = ((lane_hi (A cpu) + lane_hi operand) mod 4096) * 4096
       + (lane_lo (A cpu) + lane_lo operand) mod 4096) /\
  (GET_OPCODE instr = OP_SSU ->
   A (d17b_exec_arithmetic cpu instr)
     = ((lane_hi (A cpu) - lane_hi operand) mod 4096) * 4096
       + (lane_lo (A cpu) - lane_lo operand) mod 4096).
Proof.
  intros operand. unfold d17b_exec_arithmetic. cbv zeta. fold operand.
  assert (HA : A (if GET_FLAG instr =? 0 then cpu
                  else d17b_flag_store cpu (GET_FLAG_CODE instr)
                         (GET_SECTOR instr)) = A cpu)
    by (destruct (GET_FLAG instr =? 0); [ reflexivity | apply flag_store_A ]).
  set (cpu1 := if GET_FLAG instr =? 0 then cpu else _) in *.
  split; intros Hop; rewrite Hop; cbn [Z.eqb Pos.eqb OP_CLA OP_ADD OP_SUB
                                         OP_SAD OP_SSU];
    cbn [A set_A]; rewrite HA; apply lanes_pack.
Qed.

(** X16. Split add and split subtract work lane by lane with wrap-around
    and no saturation: after SAD (SSU) each 12-bit lane of A is the sum
    (difference) of the corresponding lanes of A and the operand modulo
    2^12, and A is a 24-bit word. *)
Theorem split_add_sub_lanes (cpu : d17b_cpu_t) (instr : Z) :
  GET_OPCODE instr = OP_SAD \/ GET_OPCODE instr = OP_SSU ->
  let operand := d17b_read cpu (GET_CHANNEL instr) (GET_SECTOR instr) in
  let post := d17b_exec_arithmetic cpu instr in
  let op (x y : Z) := if GET_OPCODE instr =? OP_SAD then x + y else x - y in
  lane_hi (A post) = op (lane_hi (A cpu)) (lane_hi operand) mod 4096 /\
  lane_lo (A post) = op (lane_lo (A cpu)) (lane_lo operand) mod 4096 /\
  word24 (A post).
Proof.
  intros Hop operand post op. subst operand post op.
  destruct (exec_split_add_sub cpu instr) as [Hsad Hssu].
  cbv zeta in Hsad, Hssu.
  destruct Hop as [Hop | Hop]; rewrite Hop;
    [ rewrite (Hsad Hop) | rewrite (Hssu Hop) ];
    cbn [Z.eqb Pos.eqb OP_SAD OP_SSU];
    apply lanes_of_packed; apply Z.mod_pos_bound; lia.
Qed.

Lemma split_add_sub_lanes_witness :
  lane_hi (A (d17b_exec_arithmetic
                (set_A 0xFFF001 (load_test_program d17b_init))
                (ENCODE_INSTR OP_SAD 0 0 0 1)))
    = (0xFFF + 0) mod 4096 /\
  lane_lo (A (d17b_exec_arithmetic
                (set_A 0xFFF001 (load_test_program d17b_init))
                (ENCODE_INSTR OP_SAD 0 0 0 1)))
    = (1 + 5) mod 4096.
Proof.
  pose proof (split_add_sub_lanes
                (set_A 0xFFF001 (load_test_program d17b_init))
                (ENCODE_INSTR OP_SAD 0 0 0 1) (or_introl eq_refl)) as Hthm.
  cbv zeta in Hthm. destruct Hthm as (Hhi & Hlo & _).
  split; [ exact Hhi | exact Hlo ].
Defined.

Lemma read_set_A (v : Z) (cpu : d17b_cpu_t) (channel sector : Z) :
  d17b_read (set_A v cpu) channel sector = d17b_read cpu channel sector.
Proof. reflexivity. Qed.

(** X17. Split subtract followed by split add of the same operand (flag
    bits clear) restores a 24-bit accumulator, and so does split add
    followed by split subtract. *)
Theorem split_sub_add_roundtrip (cpu : d17b_cpu_t) (sub add : Z) :
  word24 (A cpu) ->
  GET_OPCODE sub = OP_SSU -> GET_OPCODE add = OP_SAD ->
  GET_FLAG sub = 0 -> GET_FLAG add = 0 ->
  GET_CHANNEL sub = GET_CHANNEL add -> GET_SECTOR sub = GET_SECTOR add ->
  A (d17b_exec_arithmetic (d17b_exec_arithmetic cpu sub) add) = A cpu /\
  A (d17b_exec_arithmetic (d17b_exec_arithmetic cpu add) sub) = A cpu.
Proof.
  intros Hw Hsub Hadd Hfs Hfa Hc Hs.
  assert (Hstate : forall i, GET_FLAG i = 0 ->
            GET_OPCODE i = OP_SSU \/ GET_OPCODE i = OP_SAD ->
            d17b_exec_arithmetic cpu i
              = set_A (A (d17b_exec_arithmetic cpu i)) cpu).
  { intros i Hf Hop. unfold d17b_exec_arithmetic. cbv zeta. rewrite Hf.
    destruct Hop as [-> | ->]; reflexivity. }
  destruct (lane_range (A cpu)) as [Hh Hl].
  set (operand := d17b_read cpu (GET_CHANNEL add) (GET_SECTOR add)).
  destruct (lane_range operand) as [Hoh Hol].
  pose proof (word24_lanes_split (A cpu) Hw) as Hsplit.
  split.
  - rewrite (Hstate sub Hfs (or_introl Hsub)).
    destruct (exec_split_add_sub (set_A (A (d17b_exec_arithmetic cpu sub)) cpu)
                add) as [Hsad _].
    rewrite (Hsad Hadd). cbn [A set_A]. rewrite read_set_A. fold operand.
    destruct (exec_split_add_sub cpu sub) as [_ Hssu].
    rewrite (Hssu Hsub), Hc, Hs. fold operand.
    set (h := (lane_hi (A cpu) - lane_hi operand) mod 4096).
    set (l := (lane_lo (A cpu) - lane_lo operand) mod 4096).
    destruct (lanes_of_packed h l) as (Hph & Hpl & _);
      [ apply Z.mod_pos_bound; lia | apply Z.mod_pos_bound; lia | ].
    rewrite Hph, Hpl. subst h l.
    rewrite Hsplit at 3.
    Z.to_euclidean_division_equations. lia.
  - rewrite (Hstate add Hfa (or_intror Hadd)).
    destruct (exec_split_add_sub (set_A (A (d17b_exec_arithmetic cpu add)) cpu)
                sub) as [_ Hssu].
    rewrite (Hssu Hsub). cbn [A set_A]. rewrite read_set_A, Hc, Hs.
    fold operand.
    destruct (exec_split_add_sub cpu add) as [Hsad _].
    rewrite (Hsad Hadd). fold operand.
    set (h := (lane_hi (A cpu) + lane_hi operand) mod 4096).
    set (l := (lane_lo (A cpu) + lane_lo operand) mod 4096).
    destruct (lanes_of_packed h l) as (Hph & Hpl & _);
      [ apply Z.mod_pos_bound; lia | apply Z.mod_pos_bound; lia | ].
    rewrite Hph, Hpl. subst h l.
    rewrite Hsplit at 3.
    Z.to_euclidean_division_equations. lia.
Qed.

Lemma split_sub_add_roundtrip_witness :
  A (d17b_exec_arithmetic
       (d17b_exec_arithmetic (set_A 0x123456 (load_test_program d17b_init))
          (ENCODE_INSTR OP_SSU 0 0 0 1))
       (ENCODE_INSTR OP_SAD 0 0 0 1)) = 0x123456.
Proof.
  apply (split_sub_add_roundtrip
           (set_A 0x123456 (load_test_program d17b_init))
           (ENCODE_INSTR OP_SSU 0 0 0 1) (ENCODE_INSTR OP_SAD 0 0 0 1));
    first [ reflexivity | unfold word24; cbn [A set_A]; lia ].
Defined.

Lemma shift_count_cases (instr : Z) :
  shift_count instr = 1 \/ shift_count instr = 2 \/ shift_count instr = 3 \/
  shift_count instr = 4 \/ shift_count instr = 5 \/ shift_count instr = 6 \/
  shift_count instr = 7 \/ shift_count instr = 8.
Proof.
  unfold shift_count.
  pose proof (land_ones_range (GET_SECTOR instr) 3 ltac:(lia)) as Hr.
  change (Z.ones 3) with 0x07 in Hr.
  destruct (Z.eqb_spec (Z.land (GET_SECTOR instr) 0x07) 0); lia.
Qed.

(** The two rotates as arithmetic on a 24-bit value. *)
Lemma rotate_left_value (v k : Z) :
  0 <= v < 2 ^ 24 ->
  k = 1 \/ k = 2 \/ k = 3 \/ k = 4 \/ k = 5 \/ k = 6 \/ k = 7 \/ k = 8 ->
  Z.land (Z.lor (u32 (Z.shiftl v k)) (Z.shiftr v (24 - k))) WORD_MASK
    = (v mod 2 ^ (24 - k)) * 2 ^ k + v / 2 ^ (24 - k).
Proof.
  intros Hv Hk.
  pose proof (fun z => Z.land_ones z 24 ltac:(lia)) as M24.
  change (Z.ones 24) with WORD_MASK in M24.
  rewrite M24. unfold u32.
  destruct Hk as [-> | [-> | [-> | [-> | [-> | [-> | [-> | ->]]]]]]];
    rewrite Z.shiftl_mul_pow2, Z.shiftr_div_pow2 by lia;
    match goal with
    | |- context [24 - ?c] =>
        let e := eval compute in (24 - c) in change (24 - c) with e
    end;
    match goal with
    | |- (Z.lor ((v * 2 ^ ?k) mod _) _) mod _ = _ =>
        rewrite (lor_add_disjoint _ _ k);
          [ | lia | Z.to_euclidean_division_equations; lia
            | Z.to_euclidean_division_equations; lia ]
    end;
    Z.to_euclidean_division_equations; lia.
Qed.

Lemma rotate_right_value (w k : Z) :
  0 <= w < 2 ^ 24 ->
  k = 1 \/ k = 2 \/ k = 3 \/ k = 4 \/ k = 5 \/ k = 6 \/ k = 7 \/ k = 8 ->
  Z.land (Z.lor (Z.shiftr w k) (u32 (Z.shiftl w (24 - k)))) WORD_MASK
    = w / 2 ^ k + (w mod 2 ^ k) * 2 ^ (24 - k).
Proof.
  intros Hw Hk.
  pose proof (fun z => Z.land_ones z 24 ltac:(lia)) as M24.
  change (Z.ones 24) with WORD_MASK in M24.
  rewrite M24, Z.lor_comm. unfold u32.
  destruct Hk as [-> | [-> | [-> | [-> | [-> | [-> | [-> | ->]]]]]]];
    rewrite Z.shiftl_mul_pow2, Z.shiftr_div_pow2 by lia;
    match goal with
    | |- context [24 - ?c] =>
        let e := eval compute in (24 - c) in change (24 - c) with e
    end;
    match goal with
    | |- (Z.lor ((w * 2 ^ ?k) mod _) _) mod _ = _ =>
        rewrite (lor_add_disjoint _ _ k);
          [ | lia | Z.to_euclidean_division_equations; lia
            | Z.to_euclidean_division_equations; lia ]
    end;
    Z.to_euclidean_division_equations; lia.
Qed.

Lemma exec_shift_rotates (cpu : d17b_cpu_t) (instr : Z) :
  d37c_mode cpu = true ->
  let val := Z.land (A cpu) WORD_MASK in
  let k := shift_count instr in
  (shift_sub_op instr = 0x0B ->
   d17b_exec_shift cpu instr
     = set_A (Z.land (Z.lor (u32 (Z.shiftl val k)) (Z.shiftr val (24 - k)))
                WORD_MASK) cpu) /\
  (shift_sub_op instr = 0x0F ->
   d17b_exec_shift cpu instr
     = set_A (Z.land (Z.lor (Z.shiftr val k) (u32 (Z.shiftl val (24 - k))))
                WORD_MASK) cpu).
Proof.
  intros Hmode val k. subst val k.
  unfold d17b_exec_shift, shift_sub_op, shift_count. cbv zeta.
  rewrite Hmode.
  split; intros ->; reflexivity.
Qed.

(** X18. In D37C mode a left rotate (ALC) followed by a right rotate
    (ARC) with the same count, or the other way round, gives back the
    accumulator masked to 24 bits: the rotates are inverse permutations of
    the 24 bits. *)
Theorem rotate_roundtrip (cpu : d17b_cpu_t) (alc arc : Z) :
  d37c_mode cpu = true ->
  shift_sub_op alc = 0x0B ->
  shift_sub_op arc = 0x0F ->
  shift_count alc = shift_count arc ->
  A (d17b_exec_shift (d17b_exec_shift cpu alc) arc)
    = Z.land (A cpu) WORD_MASK /\
  A (d17b_exec_shift (d17b_exec_shift cpu arc) alc)
    = Z.land (A cpu) WORD_MASK.
Proof.
  intros Hmode Halc Harc Hk.
  pose proof (shift_count_cases arc) as Hcases.
  pose proof (word24_land_mask (A cpu)) as Hv. unfold word24 in Hv.
  destruct (exec_shift_rotates cpu alc Hmode) as [Hl _].
  destruct (exec_shift_rotates cpu arc Hmode) as [_ Hr].
  cbv zeta in Hl, Hr. rewrite Hk in Hl.
  set (v := Z.land (A cpu) WORD_MASK) in *.
  set (k := shift_count arc) in *.
  split.
  - rewrite (Hl Halc).
    destruct (exec_shift_rotates
                (set_A (Z.land (Z.lor (u32 (Z.shiftl v k))
                                  (Z.shiftr v (24 - k))) WORD_MASK) cpu)
                arc Hmode) as [_ Hr2].
    cbv zeta in Hr2. rewrite (Hr2 Harc). cbn [A set_A]. fold k.
    rewrite (rotate_left_value v k Hv Hcases).
    set (w := v mod 2 ^ (24 - k) * 2 ^ k + v / 2 ^ (24 - k)).
    assert (Hw : 0 <= w < 2 ^ 24).
    { subst w.
      destruct Hcases as [-> | [-> | [-> | [-> | [-> | [-> | [-> | ->]]]]]]];
        Z.to_euclidean_division_equations; lia. }
    pose proof (fun z => Z.land_ones z 24 ltac:(lia)) as M24.
    change (Z.ones 24) with WORD_MASK in M24.
    rewrite (M24 w), (Z.mod_small w) by assumption.
    rewrite (rotate_right_value w k Hw Hcases). subst w.
    destruct Hcases as [-> | [-> | [-> | [-> | [-> | [-> | [-> | ->]]]]]]];
      Z.to_euclidean_division_equations; lia.
  - rewrite (Hr Harc).
    destruct (exec_shift_rotates
                (set_A (Z.land (Z.lor (Z.shiftr v k)
                                  (u32 (Z.shiftl v (24 - k)))) WORD_MASK) cpu)
                alc Hmode) as [Hl2 _].
    cbv zeta in Hl2. rewrite (Hl2 Halc). cbn [A set_A]. rewrite Hk. fold k.
    rewrite (rotate_right_value v k Hv Hcases).
    set (w := v / 2 ^ k + v mod 2 ^ k * 2 ^ (24 - k)).
    assert (Hw : 0 <= w < 2 ^ 24).
    { subst w.
      destruct Hcases as [-> | [-> | [-> | [-> | [-> | [-> | [-> | ->]]]]]]];
        Z.to_euclidean_division_equations; lia. }
    pose proof (fun z => Z.land_ones z 24 ltac:(lia)) as M24.
    change (Z.ones 24) with WORD_MASK in M24.
    rewrite (M24 w), (Z.mod_small w) by assumption.
    rewrite (rotate_left_value w k Hw Hcases). subst w.
    destruct Hcases as [-> | [-> | [-> | [-> | [-> | [-> | [-> | ->]]]]]]];
      Z.to_euclidean_division_equations; lia.
Qed.

Lemma rotate_roundtrip_witness :
  A (d17b_exec_shift
       (d17b_exec_shift (set_A 0x800001 d17b_init)
          (ENCODE_INSTR 0 0 1 0 (Z.lor (Z.shiftl 0x0B 3) 3)))
       (ENCODE_INSTR 0 0 1 0 (Z.lor (Z.shiftl 0x0F 3) 3)))
    = Z.land 0x800001 WORD_MASK.
Proof.
  apply (rotate_roundtrip (set_A 0x800001 d17b_init)
           (ENCODE_INSTR 0 0 1 0 (Z.lor (Z.shiftl 0x0B 3) 3))
           (ENCODE_INSTR 0 0 1 0 (Z.lor (Z.shiftl 0x0F 3) 3)));
    reflexivity.
Defined.

Lemma magnitude_abs (w : Z) : magnitude w = Z.abs (to_signed w).
Proof.
  rewrite to_signed_sign_factor. unfold sign_factor.
  pose proof (land_magnitude_range w) as Hm. fold (magnitude w) in Hm.
  destruct (Z.testbit w 23); lia.
Qed.

(** X19. The special accumulator operations in signed terms: after MIM
    (sub-opcode 0x12) the accumulator reads as minus the absolute value of
    what it read before, after COM (sub-opcode 0x13) as its negation; both
    leave every other field of the state alone. *)
Theorem special_mim_com (cpu : d17b_cpu_t) (instr : Z) :
  special_sub_op instr = 0x12 \/ special_sub_op instr = 0x13 ->
  let post := d17b_exec_special cpu instr in
  post = set_A (A post) cpu /\
  (special_sub_op instr = 0x12 ->
   to_signed (A post) = - Z.abs (to_signed (A cpu))) /\
  (special_sub_op instr = 0x13 ->
   to_signed (A post) = - to_signed (A cpu)).
Proof.
  intros Hsub post. subst post.
  unfold d17b_exec_special. cbv zeta. fold (special_sub_op instr).
  destruct Hsub as [Hsub | Hsub]; rewrite Hsub;
    cbn [Z.eqb Pos.eqb A set_A];
    (split; [ reflexivity | ]); split; intros Heq; try discriminate.
  - rewrite <- magnitude_abs.
    pose proof (land_magnitude_range (A cpu)) as Hm.
    rewrite Z.lor_comm.
    destruct (to_signed_signed _ Hm) as (Hs & _). exact Hs.
  - apply complement_to_signed.
Qed.

Lemma special_mim_com_witness :
  to_signed (A (d17b_exec_special (set_A 5 d17b_init)
                  (ENCODE_INSTR OP_SPECIAL 0 0 0 (2 * 0x12))))
    = - Z.abs (to_signed 5).
Proof.
  pose proof (special_mim_com (set_A 5 d17b_init)
                (ENCODE_INSTR OP_SPECIAL 0 0 0 (2 * 0x12))
                (or_introl eq_refl)) as Hthm.
  cbv zeta in Hthm. destruct Hthm as (_ & Hmim & _).
  exact (Hmim eq_refl).
Defined.

(** X20. Multiply-magnitude.  In D17B mode primary opcode 7 multiplies
    the magnitudes of A and the operand: afterwards the sign bit of A is
    clear and A (high 23 bits) and L (low 23 bits) hold the 46-bit
    product |A| * |operand|. *)
Theorem multiply_magnitude (cpu : d17b_cpu_t) (instr : Z) :
  d37c_mode cpu = false ->
  GET_OPCODE instr = OP_DIV_MPM ->
  let operand := d17b_read cpu (GET_CHANNEL instr) (GET_SECTOR instr) in
  let post := d17b_exec_arithmetic cpu instr in
  A post * 2 ^ 23 + L post = magnitude (A cpu) * magnitude operand /\
  0 <= A post < 2 ^ 23 /\ 0 <= L post < 2 ^ 23 /\
  error post = error cpu.
Proof.
  intros Hmode Hop operand post. subst post.
  unfold d17b_exec_arithmetic. cbv zeta. fold operand.
  destruct (flag_store_host_fields cpu (GET_FLAG_CODE instr)
              (GET_SECTOR instr)) as (_ & _ & He & Hm).
  assert (H1 : A (if GET_FLAG instr =? 0 then cpu
                  else d17b_flag_store cpu (GET_FLAG_CODE instr)
                         (GET_SECTOR instr)) = A cpu /\
               d37c_mode (if GET_FLAG instr =? 0 then cpu
                  else d17b_flag_store cpu (GET_FLAG_CODE instr)
                         (GET_SECTOR instr)) = false /\
               error (if GET_FLAG instr =? 0 then cpu
                  else d17b_flag_store cpu (GET_FLAG_CODE instr)
                         (GET_SECTOR instr)) = error cpu).
  { destruct (GET_FLAG instr =? 0); [ now split_conj | ].
    rewrite flag_store_A, Hm, He. now split_conj. }
  set (cpu1 := if GET_FLAG instr =? 0 then cpu else _) in *.
  destruct H1 as (HA & Hmode1 & Herr).
  rewrite Hop, Hmode1. cbn [Z.eqb Pos.eqb OP_DIV_MPM OP_CLA OP_ADD OP_SUB
                              OP_SAD OP_SSU OP_MPY OP_SMP].
  rewrite HA.
  pose proof (land_magnitude_range (A cpu)) as Ha.
  pose proof (land_magnitude_range operand) as Ho.
  destruct (multiply_product (set_A (Z.land (A cpu) MAGNITUDE_MASK) cpu1)
              (Z.land operand MAGNITUDE_MASK)) as (Hprod & Hw & Hl).
  destruct (multiply_host_fields (set_A (Z.land (A cpu) MAGNITUDE_MASK) cpu1)
              (Z.land operand MAGNITUDE_MASK) false) as (_ & _ & Hme).
  cbn [A set_A] in Hprod.
  destruct (to_signed_plain _ Ha) as (Hsa & _).
  destruct (to_signed_plain _ Ho) as (Hso & _).
  rewrite Hsa, Hso in Hprod.
  set (post := d17b_multiply _ _ false) in *.
  assert (Hpos : Z.testbit (A post) 23 = false).
  { subst post. unfold d17b_multiply. cbv zeta. cbn [A set_A].
    rewrite Hsa, Hso.
    destruct (Z.ltb_spec (Z.land (A cpu) MAGNITUDE_MASK
                          * Z.land operand MAGNITUDE_MASK) 0) as [Hneg | _];
      [ nia | ].
    cbn [A L set_A set_L]. apply testbit_23_small.
    apply land_magnitude_range. }
  unfold sign_factor in Hprod. rewrite Hpos in Hprod.
  pose proof (word24_split (A post) Hw) as HsplitA.
  rewrite Hpos in HsplitA.
  assert (HL : magnitude (L post) = L post).
  { unfold magnitude. apply land_magnitude_small.
    unfold MAGNITUDE_MASK. lia. }
  pose proof (land_magnitude_range (A post)) as HmA.
  fold (magnitude (A post)) in HmA. unfold MAGNITUDE_MASK in HmA.
  rewrite HL in Hprod. unfold magnitude at 1 2.
  rewrite Hme. cbn [error set_A].
  split_conj; try lia. exact Herr.
Qed.

Lemma multiply_magnitude_witness :
  A (d17b_exec_arithmetic
       (set_d37c_mode false (set_A 0x800003 (load_test_program d17b_init)))
       (ENCODE_INSTR OP_DIV_MPM 0 0 0 1)) * 2 ^ 23
  + L (d17b_exec_arithmetic
         (set_d37c_mode false (set_A 0x800003 (load_test_program d17b_init)))
         (ENCODE_INSTR OP_DIV_MPM 0 0 0 1))
  = magnitude 0x800003 * magnitude 5.
Proof.
  pose proof (multiply_magnitude
                (set_d37c_mode false
                   (set_A 0x800003 (load_test_program d17b_init)))
                (ENCODE_INSTR OP_DIV_MPM 0 0 0 1) eq_refl eq_refl) as Hthm.
  cbv zeta in Hthm. destruct Hthm as (Hprod & _).
  exact Hprod.
Defined.

(** * Transfers and the fine countdown *)

(** X21. TRA and TMI.  A step that fetches TRA (primary opcode 10) always
    continues at the target (C, S); a step that fetches TMI (primary
    opcode 6) continues at the target when bit 23 of A is set and at
    (fetch channel, Sp) otherwise, in both modes. *)
Theorem step_tra_tmi (cpu : d17b_cpu_t) :
  halted cpu = false ->
  GET_OPCODE (fetch cpu) = 10 \/ GET_OPCODE (fetch cpu) = 6 ->
  let instr := fetch cpu in
  let target :=
    Z.lor (Z.shiftl (GET_CHANNEL instr) 9) (Z.shiftl (GET_SECTOR instr) 2) in
  let next :=
    Z.lor (Z.shiftl (fetch_channel cpu) 9) (Z.shiftl (GET_SP instr) 2) in
  let post := snd (d17b_step cpu) in
  (GET_OPCODE instr = 10 -> I post = target) /\
  (GET_OPCODE instr = 6 ->
   I post = if Z.testbit (A cpu) 23 then target else next) /\
  A post = A cpu /\ L post = L cpu.
Proof.
  intros Hrun Hop instr target next post. subst post.
  rewrite (step_unfold cpu Hrun). cbn [snd]. fold instr.
  destruct (dispatch_jump cpu instr) as (Hjump & Htra & Htmi).
  assert (Hframe : A (fst (dispatch cpu instr)) = A cpu /\
                   L (fst (dispatch cpu instr)) = L cpu).
  { unfold dispatch. cbv zeta. fold instr in Hop.
    destruct Hop as [Hop | Hop]; rewrite Hop;
      cbn [Z.eqb Pos.eqb OP_SHIFT OP_SPECIAL OP_TRA OP_TMI_TZE OP_TMI];
      break_ifs; split; reflexivity. }
  assert (Hadv : forall j c,
            A (advance (fetch_channel cpu) (GET_SP instr) c j) = A c /\
            L (advance (fetch_channel cpu) (GET_SP instr) c j) = L c).
  { intros j c. unfold advance. cbv zeta. break_ifs; split; reflexivity. }
  destruct (Hadv (snd (dispatch cpu instr)) (fst (dispatch cpu instr)))
    as [HA HL].
  destruct Hframe as [HfA HfL]. rewrite HA, HL, HfA, HfL.
  split_conj; try reflexivity.
  - intros H10. specialize (Htra H10).
    destruct (Hjump Htra) as [HI _].
    rewrite Htra, advance_I_jumped. exact HI.
  - intros H6. specialize (Htmi H6). rewrite Htmi.
    destruct (Z.testbit (A cpu) 23).
    + destruct (Hjump Htmi) as [HI _]. rewrite advance_I_jumped. exact HI.
    + apply advance_I_next.
Qed.

Lemma step_tra_tmi_witness :
  I (snd (d17b_step (op2_input 0x800001 true))) = Z.shiftl 4 2 /\
  A (snd (d17b_step (set_memory
                       (upd2 zero_memory 0 0 (ENCODE_INSTR OP_TRA 0 4 3 7))
                       d17b_init))) = 0.
Proof.
  split.
  - vm_compute. reflexivity.
  - pose proof (step_tra_tmi
                  (set_memory
                     (upd2 zero_memory 0 0 (ENCODE_INSTR OP_TRA 0 4 3 7))
                     d17b_init) eq_refl (or_introl eq_refl)) as Hthm.
    cbv zeta in Hthm. destruct Hthm as (_ & _ & HA & _). exact HA.
Defined.

Ltac timing_fields := split_conj; cbv zeta; break_ifs; reflexivity.

Lemma write_timing (cpu : d17b_cpu_t) (channel sector value : Z) :
  current_sector (d17b_write cpu channel sector value) = current_sector cpu /\
  fine_countdown (d17b_write cpu channel sector value) = fine_countdown cpu /\
  countdown_enabled (d17b_write cpu channel sector value) = countdown_enabled cpu.
Proof. unfold d17b_write. timing_fields. Qed.

Lemma flag_store_timing (cpu : d17b_cpu_t) (flag_code sector : Z) :
  current_sector (d17b_flag_store cpu flag_code sector) = current_sector cpu /\
  fine_countdown (d17b_flag_store cpu flag_code sector) = fine_countdown cpu /\
  countdown_enabled (d17b_flag_store cpu flag_code sector) = countdown_enabled cpu.
Proof.
  unfold d17b_flag_store. cbv zeta.
  repeat match goal with
         | |- context [if (?x =? ?y) then _ else _] => destruct (x =? y)
         end; try (split_conj; reflexivity).
  apply write_timing.
Qed.

Lemma multiply_timing (cpu : d17b_cpu_t) (operand : Z) (split : bool) :
  current_sector (d17b_multiply cpu operand split) = current_sector cpu /\
  fine_countdown (d17b_multiply cpu operand split) = fine_countdown cpu /\
  countdown_enabled (d17b_multiply cpu operand split) = countdown_enabled cpu.
Proof. unfold d17b_multiply. timing_fields. Qed.

Lemma divide_timing (cpu : d17b_cpu_t) (divisor : Z) :
  current_sector (d17b_divide cpu divisor) = current_sector cpu /\
  fine_countdown (d17b_divide cpu divisor) = fine_countdown cpu /\
  countdown_enabled (d17b_divide cpu divisor) = countdown_enabled cpu.
Proof. unfold d17b_divide. timing_fields. Qed.

Lemma exec_arithmetic_timing (cpu : d17b_cpu_t) (instr : Z) :
  current_sector (d17b_exec_arithmetic cpu instr) = current_sector cpu /\
  fine_countdown (d17b_exec_arithmetic cpu instr) = fine_countdown cpu /\
  countdown_enabled (d17b_exec_arithmetic cpu instr) = countdown_enabled cpu.
Proof.
  unfold d17b_exec_arithmetic. cbv zeta.
  assert (H1 : current_sector (if GET_FLAG instr =? 0 then cpu
                  else d17b_flag_store cpu (GET_FLAG_CODE instr)
                         (GET_SECTOR instr)) = current_sector cpu /\
               fine_countdown (if GET_FLAG instr =? 0 then cpu
                  else d17b_flag_store cpu (GET_FLAG_CODE instr)
                         (GET_SECTOR instr)) = fine_countdown cpu /\
               countdown_enabled (if GET_FLAG instr =? 0 then cpu
                  else d17b_flag_store cpu (GET_FLAG_CODE instr)
                         (GET_SECTOR instr)) = countdown_enabled cpu).
  { destruct (GET_FLAG instr =? 0);
      [ split_conj; reflexivity | apply flag_store_timing ]. }
  set (cpu1 := if GET_FLAG instr =? 0 then cpu else _) in *.
  clearbody cpu1. destruct H1 as (H1 & H2 & H3).
  rewrite <- H1, <- H2, <- H3. clear H1 H2 H3.
  repeat match goal with
         | |- context [if (?x =? ?y) then _ else _] => destruct (x =? y)
         | |- context [if d37c_mode ?c then _ else _] => destruct (d37c_mode c)
         end;
    try (split_conj; reflexivity);
    first [ apply multiply_timing | apply divide_timing | apply write_timing
          | idtac ].
  exact (multiply_timing (set_A (Z.land (A cpu1) MAGNITUDE_MASK) cpu1)
           (Z.land (d17b_read cpu (GET_CHANNEL instr) (GET_SECTOR instr))
              MAGNITUDE_MASK) false).
Qed.

Lemma exec_special_timing (cpu : d17b_cpu_t) (instr : Z) :
  current_sector (d17b_exec_special cpu instr) = current_sector cpu /\
  fine_countdown (d17b_exec_special cpu instr) = fine_countdown cpu /\
  countdown_enabled (d17b_exec_special cpu instr)
    = (if special_sub_op instr =? 0x19 then true
       else if special_sub_op instr =? 0x18 then false
       else countdown_enabled cpu).
Proof.
  unfold d17b_exec_special, special_sub_op. cbv zeta.
  split_conj; try (break_ifs; reflexivity).
  set (sub_op := Z.land (Z.shiftr (GET_SECTOR instr) 1) 0x3F).
  destruct (Z.eqb_spec sub_op 0x19) as [-> | H19]; [ reflexivity | ].
  destruct (Z.eqb_spec sub_op 0x18) as [-> | H18]; [ reflexivity | ].
  break_ifs; reflexivity.
Qed.

Lemma exec_shift_timing (cpu : d17b_cpu_t) (instr : Z) :
  current_sector (d17b_exec_shift cpu instr) = current_sector cpu /\
  fine_countdown (d17b_exec_shift cpu instr) = fine_countdown cpu /\
  countdown_enabled (d17b_exec_shift cpu instr) = countdown_enabled cpu.
Proof. unfold d17b_exec_shift. timing_fields. Qed.

Lemma exec_control_timing (cpu : d17b_cpu_t) (instr : Z) :
  current_sector (d17b_exec_control cpu instr) = current_sector cpu /\
  fine_countdown (d17b_exec_control cpu instr) = fine_countdown cpu /\
  countdown_enabled (d17b_exec_control cpu instr) = countdown_enabled cpu.
Proof. unfold d17b_exec_control. timing_fields. Qed.

Lemma dispatch_timing (cpu : d17b_cpu_t) (instr : Z) :
  current_sector (fst (dispatch cpu instr)) = current_sector cpu /\
  fine_countdown (fst (dispatch cpu instr)) = fine_countdown cpu /\
  countdown_enabled (fst (dispatch cpu instr))
    = (if GET_OPCODE instr =? OP_SPECIAL
       then if special_sub_op instr =? 0x19 then true
            else if special_sub_op instr =? 0x18 then false
            else countdown_enabled cpu
       else countdown_enabled cpu).
Proof.
  unfold dispatch. cbv zeta.
  destruct (Z.eqb_spec (GET_OPCODE instr) OP_SHIFT) as [Hop | _].
  { rewrite Hop. cbn [fst]. change (OP_SHIFT =? OP_SPECIAL) with false.
    cbv iota. apply exec_shift_timing. }
  destruct (Z.eqb_spec (GET_OPCODE instr) OP_SPECIAL) as [Hop | _].
  { cbn [fst]. apply exec_special_timing. }
  destruct (GET_OPCODE instr =? OP_TRA);
    [ cbn [fst]; split_conj; reflexivity | ].
  destruct (GET_OPCODE instr =? OP_TMI_TZE).
  { destruct (d37c_mode cpu);
      match goal with
      | |- context [if ?b then (set_I _ _, true) else _] => destruct b
      end; cbn [fst]; split_conj; reflexivity. }
  destruct (GET_OPCODE instr =? OP_TMI).
  { match goal with
    | |- context [if ?b then (set_I _ _, true) else _] => destruct b
    end; cbn [fst]; split_conj; reflexivity. }
  destruct (GET_OPCODE instr =? OP_SCL); cbn [fst];
    [ apply exec_control_timing | apply exec_arithmetic_timing ].
Qed.

Lemma advance_timing (channel next_sp : Z) (c : d17b_cpu_t) (j : bool) :
  current_sector (advance channel next_sp c j)
    = (current_sector c + 1) mod 128 /\
  countdown_enabled (advance channel next_sp c j) = countdown_enabled c /\
  fine_countdown (advance channel next_sp c j)
    = (if countdown_enabled c && (0 <? fine_countdown c)
       then u32 (fine_countdown c - 1) else fine_countdown c).
Proof.
  unfold advance. cbv zeta.
  destruct j;
    cbn [countdown_enabled fine_countdown current_sector set_cycle_count
           set_current_sector set_I];
    rewrite Z.gtb_ltb;
    destruct (countdown_enabled c && (0 <? fine_countdown c));
    cbn [countdown_enabled fine_countdown current_sector set_cycle_count
           set_current_sector set_fine_countdown set_I];
    rewrite sector_advance_mod; split_conj; reflexivity.
Qed.

(** X22. Disc position and fine countdown.  Every executed step advances
    [current_sector] by one modulo 128.  The fine countdown is tested
    after the instruction has run: it is decremented by one when the
    countdown is enabled after the instruction and the counter is positive,
    and is otherwise unchanged, so it never wraps below zero.  EFC
    (special sub-opcode 0x19) enables and HFC (0x18) disables the countdown
    with effect in the same step; no other instruction changes the
    enable flag. *)
Theorem step_timing (cpu : d17b_cpu_t) :
  halted cpu = false ->
  0 <= fine_countdown cpu < 2 ^ 32 ->
  let instr := fetch cpu in
  let post := snd (d17b_step cpu) in
  current_sector post = (current_sector cpu + 1) mod 128 /\
  countdown_enabled post
    = (if GET_OPCODE instr =? OP_SPECIAL
       then if special_sub_op instr =? 0x19 then true
            else if special_sub_op instr =? 0x18 then false
            else countdown_enabled cpu
       else countdown_enabled cpu) /\
  fine_countdown post
    = (if countdown_enabled post && (0 <? fine_countdown cpu)
       then fine_countdown cpu - 1 else fine_countdown cpu) /\
  0 <= fine_countdown post <= fine_countdown cpu.
Proof.
  intros Hrun Hfc instr post. subst post.
  rewrite (step_unfold cpu Hrun). cbn [snd]. fold instr.
  destruct (dispatch_timing cpu instr) as (Hcs & Hf & Hen).
  destruct (advance_timing (fetch_channel cpu) (GET_SP instr)
              (fst (dispatch cpu instr)) (snd (dispatch cpu instr)))
    as (H1 & H2 & H3).
  rewrite H1, H2, H3, Hcs, Hf, Hen. clear H1 H2 H3 Hcs Hf Hen.
  split; [ reflexivity | ]. split; [ reflexivity | ].
  match goal with
  | |- context [if ?b && _ then _ else _] => destruct b
  end; cbn [andb];
    try destruct (Z.ltb_spec 0 (fine_countdown cpu));
    unfold u32; rewrite ?Z.mod_small by lia;
    (split; [ reflexivity | lia ]).
Qed.

Lemma step_timing_witness :
  fine_countdown (snd (d17b_step hpr_input)) = 6 /\
  current_sector (snd (d17b_step hpr_input)) = 1.
Proof.
  pose proof (step_timing hpr_input eq_refl) as Hthm.
  cbv zeta in Hthm.
  destruct Hthm as (Hcs & _ & Hfc & _); [ vm_compute; split; congruence | ].
  split.
  - rewrite Hfc. vm_compute. reflexivity.
  - exact Hcs.
Defined.

(** * Whole-word shifts and store/load *)

(** X23. The whole-word shifts as arithmetic.  With the count taken from
    the low three bits of the sector field, zero meaning eight, ALS
    (sub-opcode 0x09) multiplies a 24-bit accumulator by 2^count modulo
    2^24 and ARS (sub-opcode 0x0D) divides it by 2^count, rounding down;
    the count is always between 1 and 8. *)
Theorem shift_als_ars (cpu : d17b_cpu_t) (instr : Z) :
  word24 (A cpu) ->
  let k := shift_count instr in
  1 <= k <= 8 /\
  (shift_sub_op instr = 0x09 ->
   A (d17b_exec_shift cpu instr) = (A cpu * 2 ^ k) mod 2 ^ 24) /\
  (shift_sub_op instr = 0x0D ->
   A (d17b_exec_shift cpu instr) = A cpu / 2 ^ k).
Proof.
  intros Hw k. subst k.
  pose proof (shift_count_cases instr) as Hcases.
  split; [ lia | ].
  unfold d17b_exec_shift. cbv zeta.
  fold (shift_sub_op instr). fold (shift_count instr).
  assert (Hk : 0 <= shift_count instr) by lia.
  set (k := shift_count instr) in *.
  split; intros ->; cbn [Z.eqb Pos.eqb A set_A].
  - pose proof (fun z => Z.land_ones z 24 ltac:(lia)) as M24.
    change (Z.ones 24) with WORD_MASK in M24.
    rewrite M24. unfold u32. rewrite Z.shiftl_mul_pow2 by assumption.
    apply Z.mod_mod_divide. exists (2 ^ 8). reflexivity.
  - apply Z.shiftr_div_pow2. assumption.
Qed.

Lemma shift_als_ars_witness :
  A (d17b_exec_shift (set_A 0x800001 d17b_init)
       (ENCODE_INSTR 0 0 1 0 (Z.lor (Z.shiftl 0x0D 3) 0)))
    = 0x800001 / 2 ^ 8.
Proof.
  pose proof (shift_als_ars (set_A 0x800001 d17b_init)
                (ENCODE_INSTR 0 0 1 0 (Z.lor (Z.shiftl 0x0D 3) 0))) as Hthm.
  cbv zeta in Hthm.
  destruct Hthm as (_ & _ & Hars); [ unfold word24; cbn [A set_A]; lia | ].
  exact (Hars eq_refl).
Defined.

(** X24. Store then load.  In a state whose arrays have their declared
    sizes, STO with the flag bit clear to a mapped address leaves A
    unchanged and makes the addressed cell read as A masked to 24 bits,
    so a following CLA of the same address (flag bit clear) loads exactly
    A masked to 24 bits. *)
Theorem store_then_load (cpu : d17b_cpu_t) (sto cla : Z) :
  wf_cpu cpu ->
  GET_OPCODE sto = OP_STO -> GET_OPCODE cla = OP_CLA ->
  GET_FLAG sto = 0 -> GET_FLAG cla = 0 ->
  GET_CHANNEL cla = GET_CHANNEL sto -> GET_SECTOR cla = GET_SECTOR sto ->
  cell_of (GET_CHANNEL sto) (GET_SECTOR sto) <> None ->
  let stored := d17b_exec_arithmetic cpu sto in
  A stored = A cpu /\
  d17b_read stored (GET_CHANNEL sto) (GET_SECTOR sto)
    = Z.land (A cpu) WORD_MASK /\
  A (d17b_exec_arithmetic stored cla) = Z.land (A cpu) WORD_MASK.
Proof.
  intros Hwf Hsto Hcla Hfs Hfc Hc Hs Hmapped stored. subst stored.
  destruct (field_ranges sto) as (Hcr & Hsr & _).
  assert (Hexec : d17b_exec_arithmetic cpu sto
                  = d17b_write cpu (GET_CHANNEL sto) (GET_SECTOR sto) (A cpu)).
  { unfold d17b_exec_arithmetic. cbv zeta. rewrite Hfs, Hsto. reflexivity. }
  rewrite Hexec.
  assert (Hread : d17b_read (d17b_write cpu (GET_CHANNEL sto)
                    (GET_SECTOR sto) (A cpu)) (GET_CHANNEL sto)
                    (GET_SECTOR sto) = Z.land (A cpu) WORD_MASK).
  { rewrite read_cell, write_cell.
    destruct (cell_of (GET_CHANNEL sto) (GET_SECTOR sto)) as [k | ] eqn:Hk;
      [ | contradiction ].
    apply cell_get_set_eq; [ assumption | ].
    apply (cell_of_in_bounds (GET_CHANNEL sto) (GET_SECTOR sto)); [ lia | lia | ].
    exact Hk. }
  split_conj.
  - apply write_A.
  - exact Hread.
  - unfold d17b_exec_arithmetic. cbv zeta. rewrite Hfc, Hcla, Hc, Hs.
    cbn [Z.eqb Pos.eqb OP_CLA A set_A]. exact Hread.
Qed.

Lemma store_then_load_witness :
  A (d17b_exec_arithmetic
       (d17b_exec_arithmetic (set_A 0x1234567 d17b_init)
          (ENCODE_INSTR OP_STO 0 0 CHAN_H_LOOP 9))
       (ENCODE_INSTR OP_CLA 0 0 CHAN_H_LOOP 9))
    = Z.land 0x1234567 WORD_MASK.
Proof.
  assert (Hmapped : cell_of (GET_CHANNEL (ENCODE_INSTR OP_STO 0 0 CHAN_H_LOOP 9))
                      (GET_SECTOR (ENCODE_INSTR OP_STO 0 0 CHAN_H_LOOP 9))
                    <> None)
    by (vm_compute; discriminate).
  pose proof (store_then_load (set_A 0x1234567 d17b_init)
                (ENCODE_INSTR OP_STO 0 0 CHAN_H_LOOP 9)
                (ENCODE_INSTR OP_CLA 0 0 CHAN_H_LOOP 9)
                init_wf eq_refl eq_refl eq_refl eq_refl eq_refl eq_refl
                Hmapped) as Hthm.
  cbv zeta in Hthm. destruct Hthm as (_ & _ & Hload).
  exact Hload.
Defined.

(** * SCL on non-negative operand lanes *)

Lemma land_bit11 (x : Z) :
  0 <= x < 4096 -> Z.land x 0x800 = if x <? 2048 then 0 else 0x800.
Proof.
  intros Hx.
  assert (Hbit : Z.testbit x 11 = negb (x <? 2048)).
  { destruct (Z.ltb_spec x 2048) as [Hlt | Hge]; cbn [negb].
    - apply (testbit_above x 11 11); lia.
    - apply Z.testbit_true; [ lia | ].
      Z.to_euclidean_division_equations. lia. }
  destruct (x <? 2048); cbn [negb] in Hbit; cbv iota;
    change 0x800 with (2 ^ 11);
    apply Z.bits_inj'; intros n Hn;
    rewrite Z.land_spec, ?Z.bits_0, Z.pow2_bits_eqb by lia;
    (destruct (Z.eqb_spec 11 n) as [<- | Hne];
     [ now rewrite Hbit | now rewrite andb_false_r ]).
Qed.

(** The sign extension of the source computes the signed lane value. *)
Lemma sign_extend_lane (x : Z) :
  0 <= x < 4096 -> sign_extend_12 (i16 x) = lane_signed x.
Proof.
  intros Hx. rewrite i16_small by lia.
  unfold sign_extend_12, lane_signed. rewrite (land_bit11 x Hx).
  destruct (Z.ltb_spec x 2048) as [Hlt | Hge]; [ reflexivity | ].
  cbn [Z.eqb]. rewrite Z.lor_comm.
  rewrite (lor_add_disjoint 0xF000 x 12); [ | lia | lia | reflexivity ].
  unfold i16. Z.to_euclidean_division_equations. lia.
Qed.

Lemma lane_signed_range (x : Z) :
  0 <= x < 4096 -> - 2048 <= lane_signed x <= 2047.
Proof.
  intros Hx. unfold lane_signed. destruct (Z.ltb_spec x 2048); lia.
Qed.

Lemma lane_signed_of_land (v : Z) :
  - 2048 <= v <= 2047 -> lane_signed (Z.land v 0xFFF) = v.
Proof.
  intros Hv. unfold lane_signed.
  pose proof (Z.land_ones v 12 ltac:(lia)) as M12.
  change (Z.ones 12) with 0xFFF in M12. rewrite M12.
  destruct (Z.ltb_spec (v mod 2 ^ 12) 2048);
    Z.to_euclidean_division_equations; lia.
Qed.

(** X25. On operand lanes that are non-negative, SCL is the symmetric
    clamp: each 12-bit lane of A, read as a signed value, is limited to
    [-o, +o] where o is the signed value of the corresponding operand
    lane, and the lanes are written back into A. *)
Theorem scl_nonneg_operand (cpu : d17b_cpu_t) (instr : Z) :
  GET_OPCODE instr = OP_SCL ->
  let operand := d17b_read cpu (GET_CHANNEL instr) (GET_SECTOR instr) in
  let post := d17b_exec_control cpu instr in
  0 <= lane_signed (lane_hi operand) ->
  0 <= lane_signed (lane_lo operand) ->
  lane_signed (lane_hi (A post))
    = Z.max (- lane_signed (lane_hi operand))
        (Z.min (lane_signed (lane_hi operand)) (lane_signed (lane_hi (A cpu))))
  /\
  lane_signed (lane_lo (A post))
    = Z.max (- lane_signed (lane_lo operand))
        (Z.min (lane_signed (lane_lo operand)) (lane_signed (lane_lo (A cpu))))
  /\ word24 (A post).
Proof.
  intros Hop operand post Hhi Hlo. subst post.
  unfold d17b_exec_control. cbv zeta. rewrite Hop.
  change (OP_SCL =? OP_SCL) with true. cbv iota. fold operand.
  fold (lane_hi (A cpu)). fold (lane_lo (A cpu)).
  fold (lane_hi operand). fold (lane_lo operand).
  destruct (lane_range (A cpu)) as [Hah Hal].
  destruct (lane_range operand) as [Hoh Hol].
  rewrite !sign_extend_lane by assumption.
  pose proof (lane_signed_range _ Hah) as Rah.
  pose proof (lane_signed_range _ Hal) as Ral.
  pose proof (lane_signed_range _ Hoh) as Roh.
  pose proof (lane_signed_range _ Hol) as Rol.
  rewrite !scl_limit_nonneg by lia.
  unfold scl_clamp_spec. rewrite !Z.abs_eq by assumption.
  set (h := Z.max _ (Z.min _ (lane_signed (lane_hi (A cpu))))).
  set (l := Z.max _ (Z.min _ (lane_signed (lane_lo (A cpu))))).
  assert (Rh : - 2048 <= h <= 2047) by (subst h; lia).
  assert (Rl : - 2048 <= l <= 2047) by (subst l; lia).
  cbn [A set_A].
  pose proof (word24_lanes _ _ (fits_lane h) (fits_lane l)) as Hw.
  unfold u32. rewrite Z.mod_small by (unfold word24 in Hw; lia).
  pose proof (land_ones_range h 12 ltac:(lia)) as Lh.
  pose proof (land_ones_range l 12 ltac:(lia)) as Ll.
  change (Z.ones 12) with 0xFFF in Lh, Ll.
  rewrite lor_shiftl_disjoint by lia.
  destruct (lanes_of_packed _ _ Lh Ll) as (Hph & Hpl & Hpw).
  change (2 ^ 12) with 4096. rewrite Hph, Hpl.
  rewrite !lane_signed_of_land by assumption.
  split_conj; try reflexivity. exact Hpw.
Qed.

Lemma scl_nonneg_operand_witness :
  lane_signed (lane_hi (A (d17b_exec_control
     (set_A 0x7FF003 (set_memory (upd2 zero_memory 0 1 0x005005) d17b_init))
     scl_instr)))
  = Z.max (- 5) (Z.min 5 2047).
Proof.
  pose proof (scl_nonneg_operand
     (set_A 0x7FF003 (set_memory (upd2 zero_memory 0 1 0x005005) d17b_init))
     scl_instr eq_refl) as Hthm.
  cbv zeta in Hthm.
  destruct Hthm as (Hhi & _); [ vm_compute; discriminate .. | ].
  exact Hhi.
Defined.
